(** * Spotify playlist dashboard

    A shallow embedding of [spotify-playlist-test/app.py]: the playlist
    identifier parser, the paginated track collector [get_all_tracks], the
    per-track enrichment and the table assembly of [get_playlist_data], the
    drawing done by [visualize_data] and the dispatch done by [main].

    Python values are JSON-like terms, exceptions are values of [exn], and
    the effects of the program (calls to the Spotify client, [st.error],
    [print], [time.sleep], drawing) are threaded through a small state and
    error monad whose state holds the client's state and the log of events.

    Three things outside the program are taken as they come: the Spotify
    service, a record of stateful endpoints; what [pandas] makes of the
    Popularity column; and whether a call into the drawing libraries draws
    or raises.  Nothing is assumed of them.

    A string is a sequence of code points below 256 (ASCII and the rest of
    Latin-1), which covers what Spotify identifiers, links and release
    dates are made of.  Floating-point numbers are kept by their value. *)

From Stdlib Require Import ZArith List String Ascii Bool Arith Lia.
Import ListNotations.

Open Scope string_scope.
Open Scope list_scope.

Set Warnings "-register-all".

(* ================================================================= *)
(** ** Python values and exceptions *)

(** A float, by its value: [mantissa * 2 ^ exponent] when it is finite. *)
Inductive pyfloat : Type :=
| FNan
| FInf (negative : bool)
| FFinite (mantissa exponent : Z).

Inductive pyval : Type :=
| PNone
| PBool (b : bool)
| PInt (z : Z)
| PFloat (x : pyfloat)
| PStr (s : string)
| PList (l : list pyval)
| PDict (d : list (string * pyval)).

(** The exceptions the program can meet.  All of them derive from Python's
    [Exception], so [except Exception] and a bare [except] catch each one. *)
Inductive exn : Type :=
| KeyError (k : string)
| IndexError
| TypeError
| ValueError
| AttributeError
| OverflowError
| UnboundLocalError (var : string)
| SpotifyException (msg : string).

Inductive result (A : Type) : Type :=
| Ok (a : A)
| Raise (e : exn).
Arguments Ok {A} a.
Arguments Raise {A} e.

Module Py.

(** Truth value of an object, as tested by [if x] and [not x]. *)
Definition truthy (v : pyval) : bool :=
  match v with
  | PNone => false
  | PBool b => b
  | PInt z => negb (z =? 0)%Z
  | PFloat x => match x with
                | FFinite m _ => negb (m =? 0)%Z
                | _ => true
                end
  | PStr s => negb (s =? "")
  | PList l => match l with [] => false | _ => true end
  | PDict d => match d with [] => false | _ => true end
  end.

(** Lookup in a dict, kept as an association list: the first binding of a
    key is the one that counts. *)
Fixpoint lookup (k : string) (d : list (string * pyval)) : option pyval :=
  match d with
  | [] => None
  | (k', v) :: d' => if k' =? k then Some v else lookup k d'
  end.

(** [v[k]] with a string key. *)
Definition getitem (v : pyval) (k : string) : result pyval :=
  match v with
  | PDict d => match lookup k d with
               | Some x => Ok x
               | None => Raise (KeyError k)
               end
  | _ => Raise TypeError
  end.

(** [v[0]]. *)
Definition getitem0 (v : pyval) : result pyval :=
  match v with
  | PList l => match l with x :: _ => Ok x | [] => Raise IndexError end
  | PStr s => match s with
              | String c _ => Ok (PStr (String c ""))
              | EmptyString => Raise IndexError
              end
  | PDict _ => Raise (KeyError "0")
  | _ => Raise TypeError
  end.

(** [v.get(k, default)]: only dicts have the method. *)
Definition get (v : pyval) (k : string) (default : pyval) : result pyval :=
  match v with
  | PDict d => match lookup k d with
               | Some x => Ok x
               | None => Ok default
               end
  | _ => Raise AttributeError
  end.

(** [needle in hay] for two strings. *)
Fixpoint prefix_of (p s : string) : bool :=
  match p, s with
  | EmptyString, _ => true
  | String a p', String b s' => (a =? b)%char && prefix_of p' s'
  | String _ _, EmptyString => false
  end.

Fixpoint contains (needle hay : string) : bool :=
  prefix_of needle hay ||
  match hay with
  | EmptyString => false
  | String _ hay' => contains needle hay'
  end.

Definition pyval_is_str (k : string) (v : pyval) : bool :=
  match v with PStr s => s =? k | _ => false end.

(** [k in v] for a string [k]. *)
Definition str_in (k : string) (v : pyval) : result bool :=
  match v with
  | PDict d => Ok (match lookup k d with Some _ => true | None => false end)
  | PList l => Ok (existsb (pyval_is_str k) l)
  | PStr s => Ok (contains k s)
  | _ => Raise TypeError
  end.

Fixpoint chars (s : string) : list pyval :=
  match s with
  | EmptyString => []
  | String c s' => PStr (String c "") :: chars s'
  end.

(** The elements an iterable yields: what [list.extend] appends and what
    [str.join] walks over. *)
Definition iterate (v : pyval) : result (list pyval) :=
  match v with
  | PList l => Ok l
  | PStr s => Ok (chars s)
  | PDict d => Ok (map (fun kv => PStr (fst kv)) d)
  | _ => Raise TypeError
  end.

(** [len(v)]. *)
Definition len (v : pyval) : result nat :=
  match v with
  | PList l => Ok (List.length l)
  | PStr s => Ok (String.length s)
  | PDict d => Ok (List.length d)
  | _ => Raise TypeError
  end.

(** [sep.join(xs)] on a Python list already unpacked: every element has to
    be a string. *)
Fixpoint join_strs (sep : string) (xs : list pyval) : result string :=
  match xs with
  | [] => Ok ""
  | x :: rest =>
      match x with
      | PStr s =>
          match rest with
          | [] => Ok s
          | _ => match join_strs sep rest with
                 | Ok t => Ok (s ++ sep ++ t)%string
                 | Raise e => Raise e
                 end
          end
      | _ => Raise TypeError
      end
  end.

Definition join (sep : string) (v : pyval) : result string :=
  match iterate v with
  | Ok xs => join_strs sep xs
  | Raise e => Raise e
  end.

(** [s.split(sep)] for a one-character separator: always at least one
    piece. *)
Fixpoint split (sep : ascii) (s : string) : list string :=
  match s with
  | EmptyString => [""]
  | String c s' =>
      if (c =? sep)%char then "" :: split sep s'
      else match split sep s' with
           | h :: t => String c h :: t
           | [] => [String c ""]
           end
  end.

(** [xs[-1]] and [xs[0]] on a list of strings. *)
Fixpoint last_piece (xs : list string) : result string :=
  match xs with
  | [] => Raise IndexError
  | [x] => Ok x
  | _ :: rest => last_piece rest
  end.

Definition first_piece (xs : list string) : result string :=
  match xs with
  | [] => Raise IndexError
  | x :: _ => Ok x
  end.

(** [s[:n]]. *)
Fixpoint take (n : nat) (s : string) : string :=
  match n, s with
  | S n', String c s' => String c (take n' s')
  | _, _ => ""
  end.

(** *** [int(s)] on a string, base ten

    Surrounding white space is dropped, one sign is allowed, then come
    decimal digits, where single underscores may sit between two digits.
    The white space [int] drops is tab, line feed, vertical tab, form feed,
    carriage return and space and, above 127, next line (133) and no-break
    space (160); the separators 28 to 31 are not dropped.  No code point
    from 128 to 255 is a decimal digit. *)

Definition is_space (c : ascii) : bool :=
  let n := nat_of_ascii c in
  (((9 <=? n) && (n <=? 13)) || (n =? 32) || (n =? 133) || (n =? 160))%nat.

Definition is_digit (c : ascii) : bool :=
  let n := nat_of_ascii c in ((48 <=? n) && (n <=? 57))%nat.

Definition digit_val (c : ascii) : Z := Z.of_nat (nat_of_ascii c - 48).

Fixpoint lstrip (s : string) : string :=
  match s with
  | String c s' => if is_space c then lstrip s' else s
  | EmptyString => ""
  end.

Fixpoint rev_onto (s acc : string) : string :=
  match s with
  | EmptyString => acc
  | String c s' => rev_onto s' (String c acc)
  end.

Definition rstrip (s : string) : string :=
  rev_onto (lstrip (rev_onto s "")) "".

Definition strip (s : string) : string := rstrip (lstrip s).

(** The digits that follow a digit already read, [acc] being the value so
    far. *)
Fixpoint more_digits (acc : Z) (s : string) : option Z :=
  match s with
  | EmptyString => Some acc
  | String c s' =>
      if is_digit c then more_digits (10 * acc + digit_val c) s'
      else if (c =? "_")%char then
        match s' with
        | String c' s'' =>
            if is_digit c' then more_digits (10 * acc + digit_val c') s''
            else None
        | EmptyString => None
        end
      else None
  end.

Definition digits (s : string) : option Z :=
  match s with
  | String c s' => if is_digit c then more_digits (digit_val c) s' else None
  | EmptyString => None
  end.

Definition int_of_str (s : string) : result Z :=
  let body :=
    match strip s with
    | String c s' =>
        if (c =? "+")%char then digits s'
        else if (c =? "-")%char then option_map Z.opp (digits s')
        else digits (String c s')
    | EmptyString => None
    end in
  match body with
  | Some z => Ok z
  | None => Raise ValueError
  end.

End Py.

(* ================================================================= *)
(** ** The table, the playlist metadata and the events of a run *)

(** One row of the table: the keys of [track_data]. *)
Record row : Type := {
  Track_Name : pyval;
  Track_ID : pyval;
  Artist : pyval;
  Artist_ID : pyval;
  Album : pyval;
  Album_Release_Date : pyval;
  Release_Year : pyval;
  External_URL : pyval;
  Popularity : pyval;
  Genres : pyval
}.

(** A [DataFrame] is the sequence of its rows; [pd.DataFrame()] is the empty
    one, and [df.empty] holds exactly when there is no row. *)
Definition dataframe : Type := list row.

Definition df_empty (df : dataframe) : bool :=
  match df with [] => true | _ => false end.

Record metadata : Type := {
  Name : pyval;
  Description : pyval;
  Thumbnail : pyval;
  Likes : pyval;
  Total_Tracks : pyval
}.

(** What [visualize_data] asks the drawing libraries (streamlit,
    matplotlib, wordcloud) to put on the page.  A text built by an f-string
    keeps the value apart; a chart is given by the data handed to the
    library: the histogram stands for the calls from [plt.subplots] to
    [st.pyplot], the word cloud for those from [WordCloud(...).generate] to
    [st.pyplot]. *)
Inductive widget : Type :=
| Title (text : string)
| Subheader (text : string)
| Text (text : string) (value : option pyval)
| Image (src : pyval) (width : Z)
| DataframeView (df : dataframe)
| BarChart (counts : list (Z * nat))
| Histogram (values : list pyval) (bins : nat)
| WordCloudPlot (text : string)
| ErrorBox (msg : string).

(** What a run does to the outside: requests sent through the Spotify
    client, the pacing delay, console and dashboard output.  A message
    built by an f-string around an exception keeps the exception apart. *)
Inductive event : Type :=
| ApiPlaylist (uri : string)
| ApiPlaylistTracks (uri : string) (offset : nat)
| ApiArtist (id : pyval)
| Sleep
| Print (msg : string) (e : exn)
| StError (msg : string) (e : option exn)
| StDataframeSample (sample : dataframe)
| Draw (w : widget).

(** The three endpoints of the Spotify client [sp].  A request answers
    with a value or raises, and may change the state [S] of the service (a
    request that fails once may succeed later). *)
Record Spotify (S : Type) : Type := {
  sp_playlist : string -> S -> result pyval * S;
  sp_playlist_tracks : string -> nat -> S -> result pyval * S;
  sp_artist : pyval -> S -> result pyval * S
}.
Arguments sp_playlist {S} _ _ _.
Arguments sp_playlist_tracks {S} _ _ _ _.
Arguments sp_artist {S} _ _ _.

(** The state of a run: the service, the log of events so far (oldest
    first) and the local variables [L] of the function being executed. *)
Record state (S L : Type) : Type := {
  client : S;
  log : list event;
  locals : L
}.
Arguments client {S L} _.
Arguments log {S L} _.
Arguments locals {S L} _.
Arguments Build_state {S L} _ _ _.

(** A computation returns, raises, or is cut short by the bound put on the
    [while True] loop. *)
Inductive outcome (St A : Type) : Type :=
| Returned (a : A) (st : St)
| Raised (e : exn) (st : St)
| OutOfFuel.
Arguments Returned {St A} a st.
Arguments Raised {St A} e st.
Arguments OutOfFuel {St A}.

Definition M (S L A : Type) : Type := state S L -> outcome (state S L) A.

Section Monad.
Context {S L : Type}.

Definition ret {A} (a : A) : M S L A := fun st => Returned a st.

Definition bind {A B} (m : M S L A) (k : A -> M S L B) : M S L B :=
  fun st =>
    match m st with
    | Returned a st' => k a st'
    | Raised e st' => Raised e st'
    | OutOfFuel => OutOfFuel
    end.

Definition raise {A} (e : exn) : M S L A := fun st => Raised e st.

Definition out_of_fuel {A} : M S L A := fun _ => OutOfFuel.

(** A pure Python operation that may raise. *)
Definition lift {A} (r : result A) : M S L A :=
  match r with
  | Ok a => ret a
  | Raise e => raise e
  end.

(** [try: m  except Exception as e: h e]. *)
Definition try_except {A} (m : M S L A) (h : exn -> M S L A) : M S L A :=
  fun st =>
    match m st with
    | Raised e st' => h e st'
    | o => o
    end.

Definition emit (ev : event) : M S L unit :=
  fun st => Returned tt (Build_state (client st) (log st ++ [ev]) (locals st)).

Definition gets {A} (f : L -> A) : M S L A :=
  fun st => Returned (f (locals st)) st.

Definition modify (f : L -> L) : M S L unit :=
  fun st => Returned tt (Build_state (client st) (log st) (f (locals st))).

(** A request: logged, then answered by the service. *)
Definition request (ev : event) (ask : S -> result pyval * S) : M S L pyval :=
  fun st =>
    let (r, s') := ask (client st) in
    let st' := Build_state s' (log st ++ [ev]) (locals st) in
    match r with
    | Ok v => Returned v st'
    | Raise e => Raised e st'
    end.
End Monad.

(** Calling a function: it runs on local variables of its own, and the
    caller's are back when it returns or raises. *)
Definition call {S L L' A} (init : L') (m : M S L' A) : M S L A :=
  fun st =>
    let back st' := Build_state (client st') (log st') (locals st) in
    match m (Build_state (client st) (log st) init) with
    | Returned a st' => Returned a (back st')
    | Raised e st' => Raised e (back st')
    | OutOfFuel => OutOfFuel
    end.

Declare Scope monad_scope.
Delimit Scope monad_scope with monad.
Notation "x <- m ;; k" := (bind m (fun x => k))
  (at level 61, m at next level, right associativity) : monad_scope.
Notation "m ;; k" := (bind m (fun _ => k))
  (at level 61, right associativity) : monad_scope.
Open Scope monad_scope.

(* ================================================================= *)
(** ** The program *)

(** Local variables of [get_all_tracks]. *)
Record collector : Type := {
  results : list pyval;
  offset : nat
}.

(** How one turn of [while True] ends. *)
Inductive turn : Type := Again | Break.

(** Local variables of [get_playlist_data] that change while it runs.
    [artist_info] has no value until its first assignment. *)
Record enricher : Type := {
  artist_info : option pyval;
  tracks : list row
}.

(** [playlist_link.split("/")[-1].split("?")[0]] *)
Definition parse_playlist_uri (playlist_link : string) : result string :=
  match Py.last_piece (Py.split "/" playlist_link) with
  | Ok segment => Py.first_piece (Py.split "?" segment)
  | Raise e => Raise e
  end.

(** [x[:4]] *)
Definition slice4 (x : pyval) : result pyval :=
  match x with
  | PStr s => Ok (PStr (Py.take 4 s))
  | PList l => Ok (PList (firstn 4 l))
  | _ => Raise TypeError
  end.

(** [int(x)]; a float is cut towards zero. *)
Definition py_int (x : pyval) : result Z :=
  match x with
  | PStr s => Py.int_of_str s
  | PInt z => Ok z
  | PBool b => Ok (Z.b2z b)
  | PFloat FNan => Raise ValueError
  | PFloat (FInf _) => Raise OverflowError
  | PFloat (FFinite m e) =>
      Ok (if 0 <=? e then m * 2 ^ e else Z.quot m (2 ^ (- e)))%Z
  | _ => Raise TypeError
  end.

(** The release year of a release date:
    [try: release_year = int(release_date[:4])  except: release_year = None] *)
Definition release_year_of (release_date : pyval) : pyval :=
  match slice4 release_date with
  | Ok prefix => match py_int prefix with
                 | Ok z => PInt z
                 | Raise _ => PNone
                 end
  | Raise _ => PNone
  end.

(** *** What [visualize_data] computes from the table *)

(** The keys of [track_data], which become the columns of the table. *)
Definition column_names : list string :=
  ["Track Name"; "Track ID"; "Artist"; "Artist ID"; "Album";
   "Album Release Date"; "Release Year"; "External URL"; "Popularity";
   "Genres"].

(** [name in df.columns]: a table made of rows has the columns of
    [track_data], [pd.DataFrame()] has none. *)
Definition has_column (name : string) (df : dataframe) : bool :=
  negb (df_empty df) && existsb (String.eqb name) column_names.

(** [column.dropna()]: None and NaN are dropped. *)
Definition dropna (column : list pyval) : list pyval :=
  filter (fun v => match v with
                   | PNone | PFloat FNan => false
                   | _ => true
                   end) column.

(** A cell as an integer: [int] of the cell, except that a float that is
    not finite is refused with a [ValueError]. *)
Definition int_of_cell (v : pyval) : result Z :=
  match v with
  | PFloat FNan | PFloat (FInf _) => Raise ValueError
  | _ => py_int v
  end.

(** [column.astype(int)] *)
Fixpoint astype_int (column : list pyval) : result (list Z) :=
  match column with
  | [] => Ok []
  | v :: rest =>
      match int_of_cell v with
      | Ok z => match astype_int rest with
                | Ok zs => Ok (z :: zs)
                | Raise e => Raise e
                end
      | Raise e => Raise e
      end
  end.

(** One more occurrence of [y] in counts kept by ascending value. *)
Fixpoint count_value (y : Z) (counts : list (Z * nat)) : list (Z * nat) :=
  match counts with
  | [] => [(y, 1)]
  | (y', n) :: rest =>
      if (y <? y')%Z then (y, 1) :: (y', n) :: rest
      else if (y =? y')%Z then (y', S n) :: rest
      else (y', n) :: count_value y rest
  end.

(** [column.value_counts().sort_index()]: how often each value occurs, by
    ascending value. *)
Definition value_counts_sorted (column : list Z) : list (Z * nat) :=
  fold_right count_value [] column.

Section Program.
Context {Svc : Type}.
Variable sp : Spotify Svc.

(** What [pandas] makes of the Popularity column: from the values the rows
    were built with to the cells of
    [pd.to_numeric(df['Popularity'], errors='coerce').fillna(0)]. *)
Variable pd_to_numeric_fillna : list pyval -> list pyval.

(** What the drawing libraries do with a widget: [None] when they draw it,
    the exception when the call raises. *)
Variable draws : widget -> option exn.

(** *** [get_all_tracks] *)

Definition collect_page (playlist_uri : string) : M Svc collector turn :=
  try_except
    (off <- gets offset ;;
     response <- request (ApiPlaylistTracks playlist_uri off)
                         (sp_playlist_tracks sp playlist_uri off) ;;
     stop <- (if negb (Py.truthy response) then ret true
              else has <- lift (Py.str_in "items" response) ;;
                   ret (negb has)) ;;
     if stop : bool then ret Break
     else
       items <- lift (Py.getitem response "items") ;;
       new <- lift (Py.iterate items) ;;
       modify (fun l => {| results := results l ++ new;
                           offset := offset l |}) ;;
       emit Sleep ;;
       items <- lift (Py.getitem response "items") ;;
       n <- lift (Py.len items) ;;
       if (n <? 100)%nat then ret Break
       else
         modify (fun l => {| results := results l;
                             offset := offset l + 100 |}) ;;
         ret Again)
    (fun e => emit (Print "Error fetching tracks: " e) ;; ret Break).

(** [while True], cut after [fuel] turns. *)
Fixpoint collect_loop (fuel : nat) (playlist_uri : string)
  : M Svc collector unit :=
  match fuel with
  | O => out_of_fuel
  | S fuel' =>
      t <- collect_page playlist_uri ;;
      match t with
      | Break => ret tt
      | Again => collect_loop fuel' playlist_uri
      end
  end.

Definition get_all_tracks {L} (fuel : nat) (playlist_uri : string)
  : M Svc L (list pyval) :=
  call {| results := []; offset := 0 |}
       (collect_loop fuel playlist_uri ;; gets results).

(** *** [get_playlist_data] *)

Definition build_metadata {L} (playlist_info : pyval) : M Svc L metadata :=
  name <- lift (Py.getitem playlist_info "name") ;;
  description <- lift (Py.get playlist_info "description"
                              (PStr "No description available")) ;;
  images <- lift (Py.get playlist_info "images" PNone) ;;
  thumbnail <- (if Py.truthy images then
                  images <- lift (Py.getitem playlist_info "images") ;;
                  image <- lift (Py.getitem0 images) ;;
                  lift (Py.getitem image "url")
                else ret PNone) ;;
  followers <- lift (Py.get playlist_info "followers" (PDict [])) ;;
  likes <- lift (Py.get followers "total" (PInt 0)) ;;
  playlist_tracks <- lift (Py.getitem playlist_info "tracks") ;;
  total <- lift (Py.getitem playlist_tracks "total") ;;
  ret {| Name := name; Description := description; Thumbnail := thumbnail;
         Likes := likes; Total_Tracks := total |}.

(** The [Genres] entry:
    [", ".join(artist_info.get("genres", [])) if artist_info else "No Genres"] *)
Definition genres_entry : M Svc enricher pyval :=
  var <- gets artist_info ;;
  match var with
  | None => raise (UnboundLocalError "artist_info")
  | Some info =>
      if Py.truthy info then
        genres <- lift (Py.get info "genres" (PList [])) ;;
        joined <- lift (Py.join ", " genres) ;;
        ret (PStr joined)
      else ret (PStr "No Genres")
  end.

(** The [External URL] entry:
    [track["external_urls"].get("spotify", None) if track["external_urls"] else "No URL"] *)
Definition external_url_entry (track : pyval) : result pyval :=
  match Py.getitem track "external_urls" with
  | Ok urls =>
      if Py.truthy urls then
        match Py.getitem track "external_urls" with
        | Ok urls => Py.get urls "spotify" PNone
        | Raise e => Raise e
        end
      else Ok (PStr "No URL")
  | Raise e => Raise e
  end.

(** [track["artists"][0][field] if track["artists"] else default] *)
Definition first_artist_entry (track : pyval) (field default : string)
  : result pyval :=
  match Py.getitem track "artists" with
  | Ok artists =>
      if Py.truthy artists then
        match Py.getitem0 artists with
        | Ok first => Py.getitem first field
        | Raise e => Raise e
        end
      else Ok (PStr default)
  | Raise e => Raise e
  end.

(** [track["album"]["name"] if track["album"] else "Unknown Album"] *)
Definition album_entry (track : pyval) : result pyval :=
  match Py.getitem track "album" with
  | Ok album =>
      if Py.truthy album then Py.getitem album "name"
      else Ok (PStr "Unknown Album")
  | Raise e => Raise e
  end.

(** The artist request of one track, lines 80 to 86:
    [try: artist_info = sp.artist(track["artists"][0]["id"])]
    [except Exception as e: print(f"Error fetching artist info: {e}")].
    The handler assigns nothing to [artist_info]; the unused
    [audio_features] is left out. *)
Definition lookup_artist (track : pyval) : M Svc enricher unit :=
  try_except
    (artists <- lift (Py.getitem track "artists") ;;
     first <- lift (Py.getitem0 artists) ;;
     id <- lift (Py.getitem first "id") ;;
     info <- request (ApiArtist id) (sp_artist sp id) ;;
     modify (fun l => {| artist_info := Some info; tracks := tracks l |}))
    (fun e => emit (Print "Error fetching artist info: " e)).

(** The dict [track_data] of one track, lines 88 to 110. *)
Definition track_row (track : pyval) : M Svc enricher row :=
  album <- lift (Py.getitem track "album") ;;
  release_date <- lift (Py.getitem album "release_date") ;;
  let release_year := release_year_of release_date in
  track_name <- lift (Py.get track "name" (PStr "Unknown Track")) ;;
  track_popularity <- lift (Py.get track "popularity" (PInt 0)) ;;
  track_id <- lift (Py.get track "id" (PStr "No ID")) ;;
  artist <- lift (first_artist_entry track "name" "Unknown Artist") ;;
  artist_id <- lift (first_artist_entry track "id" "Unknown ID") ;;
  album_name <- lift (album_entry track) ;;
  external_url <- lift (external_url_entry track) ;;
  genres <- genres_entry ;;
  ret {| Track_Name := track_name;
         Track_ID := track_id;
         Artist := artist;
         Artist_ID := artist_id;
         Album := album_name;
         Album_Release_Date := release_date;
         Release_Year := release_year;
         External_URL := external_url;
         Popularity := track_popularity;
         Genres := genres |}.

(** The body of [for item in tracks_data]. *)
Definition enrich_item (item : pyval) : M Svc enricher unit :=
  track <- lift (Py.getitem item "track") ;;
  if negb (Py.truthy track) then ret tt
  else
    lookup_artist track ;;
    track_data <- track_row track ;;
    modify (fun l => {| artist_info := artist_info l;
                        tracks := tracks l ++ [track_data] |}).

Fixpoint for_each {L A} (xs : list A) (body : A -> M Svc L unit)
  : M Svc L unit :=
  match xs with
  | [] => ret tt
  | x :: rest => body x ;; for_each rest body
  end.

Definition with_popularity (r : row) (v : pyval) : row :=
  {| Track_Name := Track_Name r;
     Track_ID := Track_ID r;
     Artist := Artist r;
     Artist_ID := Artist_ID r;
     Album := Album r;
     Album_Release_Date := Album_Release_Date r;
     Release_Year := Release_Year r;
     External_URL := External_URL r;
     Popularity := v;
     Genres := Genres r |}.

(** [df['Popularity'] = values]: the cells are replaced in row order; a
    row for which there is no value gets NaN. *)
Fixpoint set_popularity (rows : list row) (values : list pyval) : list row :=
  match rows with
  | [] => []
  | r :: rows' =>
      match values with
      | v :: values' => with_popularity r v :: set_popularity rows' values'
      | [] => with_popularity r (PFloat FNan) :: set_popularity rows' []
      end
  end.

(** From [if not tracks] to the end of [get_playlist_data]. *)
Definition assemble {L} (meta : metadata) (rows : list row)
  : M Svc L (option metadata * option dataframe) :=
  if df_empty rows then
    emit (StError "No track data available to create DataFrame." None) ;;
    ret (Some meta, Some [])
  else
    let df :=
      set_popularity rows (pd_to_numeric_fillna (map Popularity rows)) in
    emit (StDataframeSample (firstn 5 df)) ;;
    ret (Some meta, Some df).

Definition get_playlist_data {L} (fuel : nat) (playlist_link : string)
  : M Svc L (option metadata * option dataframe) :=
  call {| artist_info := None; tracks := [] |}
    (parsed <- try_except
                 (uri <- lift (parse_playlist_uri playlist_link) ;;
                  ret (Some uri))
                 (fun e =>
                    emit (StError "Error processing playlist link: " (Some e)) ;;
                    ret None) ;;
     match parsed with
     | None => ret (None, None)
     | Some playlist_uri =>
         fetched <- try_except
                      (info <- request (ApiPlaylist playlist_uri)
                                       (sp_playlist sp playlist_uri) ;;
                       ret (Some info))
                      (fun e =>
                         emit (StError "Could not retrieve playlist info: "
                                       (Some e)) ;;
                         ret None) ;;
         match fetched with
         | None => ret (None, None)
         | Some playlist_info =>
             meta <- build_metadata playlist_info ;;
             tracks_data <- get_all_tracks fuel playlist_uri ;;
             if negb (Py.truthy (PList tracks_data)) then
               emit (StError "Could not retrieve tracks for this playlist."
                             None) ;;
               ret (Some meta, Some [])
             else
               for_each tracks_data enrich_item ;;
               rows <- gets tracks ;;
               assemble meta rows
         end
     end).

(** *** [visualize_data] *)

(** A call into the drawing libraries: the widget is drawn, or the call
    raises. *)
Definition put {L} (w : widget) : M Svc L unit :=
  match draws w with
  | None => emit (Draw w)
  | Some e => raise e
  end.

(** [metadata[key]]; subscripting [None] raises. *)
Definition metadata_field {L} (meta : option metadata)
    (field : metadata -> pyval) : M Svc L pyval :=
  match meta with
  | Some m => ret (field m)
  | None => raise TypeError
  end.

Definition visualize_data {L} (meta : option metadata) (df : dataframe)
  : M Svc L unit :=
  put (Title "Spotify Playlist Dashboard") ;;
  put (Subheader "Playlist Metadata") ;;
  name <- metadata_field meta Name ;;
  put (Text "**Name:** " (Some name)) ;;
  description <- metadata_field meta Description ;;
  put (Text "**Description:** " (Some description)) ;;
  likes <- metadata_field meta Likes ;;
  put (Text "**Likes:** " (Some likes)) ;;
  total <- metadata_field meta Total_Tracks ;;
  put (Text "**Total Tracks:** " (Some total)) ;;
  thumbnail <- metadata_field meta Thumbnail ;;
  (if Py.truthy thumbnail then
     thumbnail <- metadata_field meta Thumbnail ;;
     put (Image thumbnail 300)
   else ret tt) ;;
  put (Subheader "Track Details") ;;
  put (DataframeView df) ;;
  (if has_column "Release Year" df then
     put (Subheader "Release Year Distribution") ;;
     years <- lift (astype_int (dropna (map Release_Year df))) ;;
     put (BarChart (value_counts_sorted years))
   else put (ErrorBox "Release Year data is missing.")) ;;
  (if has_column "Track Name" df && has_column "Popularity" df then
     put (Subheader "Popularity Distribution") ;;
     put (Histogram (map Popularity df) 20)
   else put (ErrorBox "Popularity data is missing.")) ;;
  (if has_column "Genres" df then
     put (Subheader "Genre Word Cloud") ;;
     genre_text <- lift (Py.join " " (PList (dropna (map Genres df)))) ;;
     if Py.truthy (PStr genre_text) then put (WordCloudPlot genre_text)
     else put (Text "No genre data available to create word cloud." None)
   else put (ErrorBox "Genres data is missing.")).

(** *** [main]

    [playlist_link] is what the user typed in the sidebar.  The sidebar
    title and the spinner shown while the data is fetched leave no event. *)

(** The branch taken on what [get_playlist_data] returned. *)
Definition show {L} (got : option metadata * option dataframe)
  : M Svc L unit :=
  let (meta, df) := got in
  match df with
  | Some table =>
      if negb (df_empty table) then visualize_data meta table
      else emit (StError "No data to visualize." None)
  | None => emit (StError "No data to visualize." None)
  end.

Definition main (fuel : nat) (playlist_link : string) : M Svc unit unit :=
  if Py.truthy (PStr playlist_link)
     && negb (Py.contains "spotify.com/playlist/" playlist_link)
  then emit (StError "Please enter a valid Spotify playlist link." None)
  else if Py.truthy (PStr playlist_link) then
    try_except
      (got <- get_playlist_data fuel playlist_link ;; show got)
      (fun e => emit (StError "An error occurred: " (Some e)))
  else ret tt.

End Program.

(* ================================================================= *)
(** ** A catalog to run the program against *)

(** The page of [items] that starts at [off], as the track-listing endpoint
    answers with its default limit of 100. *)
Definition page (items : list pyval) (off : nat) : pyval :=
  PDict [("items", PList (firstn 100 (skipn off items)))].

(** A service given by what each endpoint answers; its state counts the
    requests it has received. *)
Definition service (info : string -> result pyval)
                   (pages : string -> nat -> result pyval)
                   (artists : pyval -> result pyval) : Spotify nat :=
  {| sp_playlist := fun uri n => (info uri, S n);
     sp_playlist_tracks := fun uri off n => (pages uri off, S n);
     sp_artist := fun id n => (artists id, S n) |}.

Definition start {Svc} (s : Svc) : state Svc unit :=
  {| client := s; log := []; locals := tt |}.

(** The state in which the loop over the collected entries starts. *)
Definition enriching {Svc} (s : Svc) : state Svc enricher :=
  {| client := s; log := [];
     locals := {| artist_info := None; tracks := [] |} |}.

Definition a_track (id name artist_id date : string) (popularity : pyval)
  : pyval :=
  PDict [("id", PStr id);
         ("name", PStr name);
         ("artists", PList [PDict [("id", PStr artist_id);
                                   ("name", PStr "The Band")]]);
         ("album", PDict [("name", PStr "The Album");
                          ("release_date", PStr date)]);
         ("external_urls", PDict [("spotify", PStr "https://open.spotify.com/track/1")]);
         ("popularity", popularity)].

(** A track whose [external_urls] entry is the given value, or is missing. *)
Definition a_track_with_urls (urls : option pyval) : pyval :=
  PDict ([("id", PStr "t3");
          ("name", PStr "Song");
          ("artists", PList [PDict [("id", PStr "a1");
                                    ("name", PStr "The Band")]]);
          ("album", PDict [("name", PStr "The Album");
                           ("release_date", PStr "2001-01-01")])]
         ++ match urls with
            | Some u => [("external_urls", u)]
            | None => []
            end
         ++ [("popularity", PInt 50)]).

Definition an_item (track : pyval) : pyval := PDict [("track", track)].

Definition demo_track : pyval :=
  a_track "t1" "Song" "a1" "1999-05-01" (PInt 87).

Definition demo_item : pyval := an_item demo_track.

(** An artist with two genres, and one that is known without any. *)
Definition rock_artist : pyval :=
  PDict [("id", PStr "a1"); ("genres", PList [PStr "rock"; PStr "pop"])].

Definition quiet_artist : pyval :=
  PDict [("id", PStr "a1"); ("genres", PList [])].

Definition playlist_info_of (name : string) (total : Z) : pyval :=
  PDict [("name", PStr name); ("tracks", PDict [("total", PInt total)])].

(** A playlist of the given entries whose artists are looked up in a
    table; an artist that is not in the table makes the request fail. *)
Definition catalog (items : list pyval) (artists : list (string * pyval))
  : Spotify nat :=
  service
    (fun _ => Ok (playlist_info_of "Test Mix" (Z.of_nat (List.length items))))
    (fun _ off => Ok (page items off))
    (fun id => match id with
               | PStr a => match Py.lookup a artists with
                           | Some info => Ok info
                           | None => Raise (SpotifyException "artist not found")
                           end
               | _ => Raise (SpotifyException "invalid id")
               end).

(** A service that lists [items] as [catalog] does, except that the page
    request it receives as its [n]-th request fails; the same request
    asked at any other time is answered. *)
Definition hiccup (items : list pyval) (n : nat) : Spotify nat :=
  {| sp_playlist := fun uri k =>
       (Ok (playlist_info_of "Test Mix" (Z.of_nat (List.length items))), S k);
     sp_playlist_tracks := fun uri off k =>
       (if (k =? n)%nat then Raise (SpotifyException "connection reset")
        else Ok (page items off), S k);
     sp_artist := fun id k =>
       (Raise (SpotifyException "artist not found"), S k) |}.

(** [pandas] on a Popularity column that holds small integers only: the
    column is numeric already and comes back as it is.  This is the case
    in the runs below. *)
Definition numeric_already (column : list pyval) : list pyval := column.

(** Drawing libraries that draw whatever they are given. *)
Definition every_widget_drawn (w : widget) : option exn := None.

Definition numbered (n : nat) : list pyval :=
  map (fun i => an_item (PInt (Z.of_nat i))) (seq 1 n).

(* ================================================================= *)
(** ** Notions used in the statements *)

(** [c] occurs in [s]. *)
Fixpoint has_char (c : ascii) (s : string) : bool :=
  match s with
  | EmptyString => false
  | String x s' => (x =? c)%char || has_char c s'
  end.

Fixpoint all_chars (p : ascii -> bool) (s : string) : bool :=
  match s with
  | EmptyString => true
  | String x s' => p x && all_chars p s'
  end.

Fixpoint some_char (p : ascii -> bool) (s : string) : bool :=
  match s with
  | EmptyString => false
  | String x s' => p x || some_char p s'
  end.

(** The characters [int] accepts somewhere in a base-ten literal. *)
Definition int_char (c : ascii) : bool :=
  Py.is_digit c || Py.is_space c
  || (c =? "+")%char || (c =? "-")%char || (c =? "_")%char.

(** *** Integer literals, as [int] reads them

    A run of decimal digits in which single underscores may stand between
    two digits, and the number it writes. *)
Inductive numeral : string -> Z -> Prop :=
| numeral_digit (c : ascii) :
    Py.is_digit c = true -> numeral (String c "") (Py.digit_val c)
| numeral_next (s : string) (z : Z) (c : ascii) :
    numeral s z -> Py.is_digit c = true ->
    numeral (s ++ String c "") (10 * z + Py.digit_val c)
| numeral_group (s : string) (z : Z) (c : ascii) :
    numeral s z -> Py.is_digit c = true ->
    numeral (s ++ String "_" (String c "")) (10 * z + Py.digit_val c).

(** A numeral with at most one sign in front. *)
Inductive signed_numeral : string -> Z -> Prop :=
| signed_none (s : string) (z : Z) : numeral s z -> signed_numeral s z
| signed_plus (s : string) (z : Z) :
    numeral s z -> signed_numeral (String "+" s) z
| signed_minus (s : string) (z : Z) :
    numeral s z -> signed_numeral (String "-" s) (- z).

(** A signed numeral with white space before and after it. *)
Definition int_literal (s : string) (z : Z) : Prop :=
  exists before body after,
    s = (before ++ body ++ after)%string /\
    all_chars Py.is_space before = true /\
    all_chars Py.is_space after = true /\
    signed_numeral body z.

(** The number written by a string of decimal digits. *)
Fixpoint decimal_from (acc : Z) (s : string) : Z :=
  match s with
  | EmptyString => acc
  | String c s' => decimal_from (10 * acc + Py.digit_val c) s'
  end.

Definition decimal (s : string) : Z := decimal_from 0 s.

(** What is seen of a run: its value, the exception that left it, its log,
    the rows gathered so far, the table returned. *)
Definition value_of {St A} (o : outcome St A) : option A :=
  match o with Returned a _ => Some a | _ => None end.

Definition error_of {St A} (o : outcome St A) : option exn :=
  match o with Raised e _ => Some e | _ => None end.

Definition log_of {Svc L A} (o : outcome (state Svc L) A) : list event :=
  match o with
  | Returned _ st | Raised _ st => log st
  | OutOfFuel => []
  end.

Definition rows_of {Svc A} (o : outcome (state Svc enricher) A) : list row :=
  match o with
  | Returned _ st | Raised _ st => tracks (locals st)
  | OutOfFuel => []
  end.

Definition table_of {St} (o : outcome St (option metadata * option dataframe))
  : option dataframe :=
  match o with Returned (_, df) _ => df | _ => None end.

Definition is_page_request (ev : event) : bool :=
  match ev with ApiPlaylistTracks _ _ => true | _ => false end.

(** Number of page requests in a log. *)
Definition page_requests (l : list event) : nat :=
  List.length (filter is_page_request l).

Definition is_draw (ev : event) : bool :=
  match ev with Draw _ => true | _ => false end.

(** The widgets drawn, in the order of the log. *)
Fixpoint drawn (l : list event) : list widget :=
  match l with
  | [] => []
  | Draw w :: rest => w :: drawn rest
  | _ :: rest => drawn rest
  end.

(** Drawing libraries of which the word cloud fails as [wordcloud] does on
    a text with no word in it, here a text of white space only; every
    other widget is drawn. *)
Definition word_cloud_needs_a_word (w : widget) : option exn :=
  match w with
  | WordCloudPlot text =>
      if all_chars Py.is_space text then Some ValueError else None
  | _ => None
  end.

Definition ceil_div (n d : nat) : nat := (n + d - 1) / d.

(** The answer is a dict whose "items" entry is the list [l]. *)
Definition answers_items (r : result pyval) (l : list pyval) : Prop :=
  exists d, r = Ok (PDict d) /\ Py.lookup "items" d = Some (PList l).

(** The service lists [items] in pages of 100, whatever its state. *)
Definition serves_pages {Svc} (sp : Spotify Svc) (uri : string)
                        (items : list pyval) : Prop :=
  forall off s,
    answers_items (fst (sp_playlist_tracks sp uri off s))
                  (firstn 100 (skipn off items)).

(** Asked at the offsets [off], [off + 100], ... from the state [s] on, the
    service answers the pages [pages] in turn, each of 100 entries or more,
    and is then in the state [s']. *)
Inductive answers_in_turn {Svc} (sp : Spotify Svc) (uri : string)
  : nat -> Svc -> list (list pyval) -> Svc -> Prop :=
| answers_none (off : nat) (s : Svc) : answers_in_turn sp uri off s [] s
| answers_page (off : nat) (s : Svc) d (p : list pyval) (s1 : Svc)
               (pages : list (list pyval)) (s' : Svc) :
    sp_playlist_tracks sp uri off s = (Ok (PDict d), s1) ->
    Py.lookup "items" d = Some (PList p) ->
    100 <= List.length p ->
    answers_in_turn sp uri (off + 100) s1 pages s' ->
    answers_in_turn sp uri off s (p :: pages) s'.

(** [n] page requests from offset [off] on, 100 apart, each followed by
    the pause. *)
Fixpoint paced_requests (uri : string) (off n : nat) : list event :=
  match n with
  | O => []
  | S n' =>
      ApiPlaylistTracks uri off :: Sleep :: paced_requests uri (off + 100) n'
  end.

(** Collecting a playlist of [n] entries from the catalog, with [fuel]
    turns allowed, returns the [n] entries after [requests] page requests. *)
Definition collects (n fuel requests : nat) : Prop :=
  exists st',
    get_all_tracks (catalog (numbered n) []) fuel "playlist" (start 0)
    = Returned (numbered n) st' /\
    page_requests (log st') = requests.

(* ================================================================= *)
(** ** More services to run the program against *)

(** A service whose track listing answers the given pages in turn, one
    per step of 100 in the offset, and [last] from then on. *)
Definition scripted (pages : list (list pyval)) (last : result pyval)
  : Spotify nat :=
  service
    (fun _ => Ok (playlist_info_of "Test Mix" 0))
    (fun _ off => match nth_error pages (off / 100) with
                  | Some p => Ok (PDict [("items", PList p)])
                  | None => last
                  end)
    (fun _ => Raise (SpotifyException "artist not found")).

(** A service that answers every page request with the same 100 entries,
    whatever the offset. *)
Definition endless : Spotify nat :=
  service
    (fun _ => Ok (playlist_info_of "Test Mix" 100))
    (fun _ _ => Ok (PDict [("items", PList (numbered 100))]))
    (fun _ => Raise (SpotifyException "artist not found")).

(** A service that knows no playlist. *)
Definition unknown_playlist : Spotify nat :=
  service
    (fun _ => Raise (SpotifyException "playlist not found"))
    (fun _ _ => Raise (SpotifyException "playlist not found"))
    (fun _ => Raise (SpotifyException "artist not found")).

(** A service whose playlist record is the given value; it lists [items]
    and looks artists up in a table, as [catalog] does. *)
Definition catalog_with_info (info : pyval) (items : list pyval)
                             (artists : list (string * pyval)) : Spotify nat :=
  service
    (fun _ => Ok info)
    (fun _ off => Ok (page items off))
    (fun id => match id with
               | PStr a => match Py.lookup a artists with
                           | Some info => Ok info
                           | None => Raise (SpotifyException "artist not found")
                           end
               | _ => Raise (SpotifyException "invalid id")
               end).

(** A playlist record with every field the program reads. *)
Definition full_playlist_info : pyval :=
  PDict [("name", PStr "Road Trip");
         ("description", PStr "Songs for the road");
         ("images", PList [PDict [("url", PStr "https://i.scdn.co/image/1")]]);
         ("followers", PDict [("total", PInt 42)]);
         ("tracks", PDict [("total", PInt 1)])].

(** Two tracks of an artist that has no genre. *)
Definition two_quiet_tracks : list pyval :=
  [an_item (a_track "t1" "One" "a1" "1999-05-01" (PInt 87));
   an_item (a_track "t2" "Two" "a1" "2005-03-04" (PInt 10))].

(** A track without any artist. *)
Definition anonymous_track : pyval :=
  PDict [("id", PStr "t9");
         ("name", PStr "Field Recording");
         ("artists", PList []);
         ("album", PDict [("name", PStr "The Album");
                          ("release_date", PStr "2010")]);
         ("external_urls", PDict []);
         ("popularity", PInt 3)].

(** A track whose album is the given value. *)
Definition a_track_with_album (album : pyval) : pyval :=
  PDict [("id", PStr "t4");
         ("name", PStr "Song");
         ("artists", PList [PDict [("id", PStr "a1");
                                   ("name", PStr "The Band")]]);
         ("album", album);
         ("external_urls", PDict []);
         ("popularity", PInt 50)].

(** A row with the given release year and genres. *)
Definition a_row (year genres : pyval) : row :=
  {| Track_Name := PStr "Song"; Track_ID := PStr "t1";
     Artist := PStr "The Band"; Artist_ID := PStr "a1";
     Album := PStr "The Album"; Album_Release_Date := PStr "1999-05-01";
     Release_Year := year; External_URL := PNone;
     Popularity := PInt 50; Genres := genres |}.

Definition demo_metadata : metadata :=
  {| Name := PStr "Test Mix"; Description := PStr "No description available";
     Thumbnail := PNone; Likes := PInt 0; Total_Tracks := PInt 3 |}.

(* ================================================================= *)
(** ** More notions used in the statements *)

(** The service answers the pages [pages], each of 100 entries or more,
    at offsets 0, 100, ... *)
Definition serves_full {Svc} (sp : Spotify Svc) (uri : string)
                       (pages : list (list pyval)) : Prop :=
  forall i p s, nth_error pages i = Some p ->
    100 <= List.length p /\
    answers_items (fst (sp_playlist_tracks sp uri (100 * i) s)) p.

(** A response on which [not response or 'items' not in response] holds. *)
Definition lacks_items (response : pyval) : Prop :=
  Py.truthy response = false \/ Py.str_in "items" response = Ok false.

(** The entries of a playlist for which a row is made: those whose track
    is not null. *)
Definition kept (item : pyval) : bool :=
  match Py.getitem item "track" with
  | Ok track => Py.truthy track
  | Raise _ => false
  end.

Definition track_of (item : pyval) : pyval :=
  match Py.getitem item "track" with
  | Ok track => track
  | Raise _ => PNone
  end.

(** The identifiers sent to the artist endpoint, in the order of the log. *)
Fixpoint artist_requests (l : list event) : list pyval :=
  match l with
  | [] => []
  | ApiArtist id :: rest => id :: artist_requests rest
  | _ :: rest => artist_requests rest
  end.

(** [track["artists"][0]["id"]], when it can be read. *)
Definition first_artist_id (track : pyval) : option pyval :=
  match Py.getitem track "artists" with
  | Ok artists =>
      match Py.getitem0 artists with
      | Ok first => match Py.getitem first "id" with
                    | Ok id => Some id
                    | Raise _ => None
                    end
      | Raise _ => None
      end
  | Raise _ => None
  end.

(** The artist request that a playlist entry stands for, if any. *)
Definition requested_artist (item : pyval) : list pyval :=
  if kept item then
    match first_artist_id (track_of item) with
    | Some id => [id]
    | None => []
    end
  else [].

Definition is_error_box (w : widget) : bool :=
  match w with ErrorBox _ => true | _ => false end.

(** The bar chart of a page, if one was drawn. *)
Fixpoint bar_chart_of (page : list widget) : option (list (Z * nat)) :=
  match page with
  | [] => None
  | BarChart counts :: _ => Some counts
  | _ :: rest => bar_chart_of rest
  end.

(** The text handed to the word cloud, if one was asked for. *)
Fixpoint word_cloud_of (page : list widget) : option string :=
  match page with
  | [] => None
  | WordCloudPlot text :: _ => Some text
  | _ :: rest => word_cloud_of rest
  end.

(** Years strictly ascending. *)
Fixpoint ascending (counts : list (Z * nat)) : Prop :=
  match counts with
  | [] => True
  | (y, _) :: rest =>
      match rest with
      | [] => True
      | (y', _) :: _ => (y < y')%Z /\ ascending rest
      end
  end.

(** The count a chart gives for [y]; 0 when [y] has no bar. *)
Fixpoint bar (y : Z) (counts : list (Z * nat)) : nat :=
  match counts with
  | [] => 0
  | (y', n) :: rest => if (y =? y')%Z then n else bar y rest
  end.

(** A cell of the Release Year column as [release_year_of] leaves it. *)
Definition year_cell (v : pyval) : Prop :=
  v = PNone \/ exists z, v = PInt z.

(** A cell of the Release Year column that is None or an integer of at
    most four digits: what [int] makes of at most four characters. *)
Definition four_digit_year (v : pyval) : Prop :=
  v = PNone \/ exists z, v = PInt z /\ (-9999 <= z <= 9999)%Z.

(** Number of rows whose release year is [y]. *)
Definition rows_of_year (y : Z) (df : dataframe) : nat :=
  List.length (filter (fun r => match Release_Year r with
                                | PInt z => (z =? y)%Z
                                | _ => false
                                end) df).

(* ================================================================= *)
(** ** Strings: splitting *)

Lemma split_not_nil (c : ascii) (s : string) : Py.split c s <> [].
Proof.
  destruct s as [|x s]; simpl; [discriminate|].
  destruct (x =? c)%char; [discriminate|].
  destruct (Py.split c s); discriminate.
Qed.

Lemma split_without_sep (c : ascii) (s : string) :
  has_char c s = false -> Py.split c s = [s].
Proof.
  induction s as [|x s IH]; simpl; intros H; [reflexivity|].
  apply orb_false_iff in H as [Hx Hs].
  rewrite Hx, (IH Hs). reflexivity.
Qed.

Lemma split_at_first_sep (c : ascii) (a b : string) :
  has_char c a = false ->
  Py.split c (a ++ String c b) = a :: Py.split c b.
Proof.
  induction a as [|x a IH]; simpl; intros H.
  - now rewrite Ascii.eqb_refl.
  - apply orb_false_iff in H as [Hx Ha].
    rewrite Hx, (IH Ha). reflexivity.
Qed.

Lemma split_after_sep (c : ascii) (a b : string) :
  exists front, front <> [] /\
    Py.split c (a ++ String c b) = front ++ Py.split c b.
Proof.
  induction a as [|x a (front & Hfront & IH)]; simpl.
  - exists [""]. rewrite Ascii.eqb_refl. split; [discriminate|reflexivity].
  - destruct (x =? c)%char.
    + exists ("" :: front). rewrite IH. split; [discriminate|reflexivity].
    + rewrite IH. destruct front as [|h t]; [contradiction|].
      exists (String x h :: t). split; [discriminate|reflexivity].
Qed.

Lemma last_piece_app (front rest : list string) :
  rest <> [] -> Py.last_piece (front ++ rest) = Py.last_piece rest.
Proof.
  intros Hrest. induction front as [|x front IH]; [reflexivity|].
  simpl. rewrite IH.
  destruct (front ++ rest) eqn:E; [|reflexivity].
  apply app_eq_nil in E as [_ E]. contradiction.
Qed.

Lemma last_piece_after_sep (c : ascii) (a b : string) :
  Py.last_piece (Py.split c (a ++ String c b))
  = Py.last_piece (Py.split c b).
Proof.
  destruct (split_after_sep c a b) as (front & _ & ->).
  apply last_piece_app, split_not_nil.
Qed.

Lemma has_char_app (c : ascii) (a b : string) :
  has_char c (a ++ b) = has_char c a || has_char c b.
Proof.
  induction a as [|x a IH]; simpl; [reflexivity|].
  now rewrite IH, orb_assoc.
Qed.

(** The parser never raises: a split has a last and a first piece. *)
Lemma parse_playlist_uri_total (playlist_link : string) :
  exists id, parse_playlist_uri playlist_link = Ok id.
Proof.
  unfold parse_playlist_uri.
  assert (Hlast : exists seg,
             Py.last_piece (Py.split "/" playlist_link) = Ok seg).
  { generalize (split_not_nil "/" playlist_link).
    induction (Py.split "/" playlist_link) as [|x xs IH]; intros Hne.
    - contradiction.
    - destruct xs as [|y ys]; [now exists x|].
      apply IH. discriminate. }
  destruct Hlast as (seg & ->).
  generalize (split_not_nil "?" seg).
  destruct (Py.split "?" seg) as [|x xs]; intros Hne; [contradiction|].
  now exists x.
Qed.

(* ================================================================= *)
(** ** The playlist identifier parser *)

(** C6, as the code has it: for a link [.../playlist/<id>?<query>] where
    [<id>] has no '/' and no '?' and [<query>] has no '/', the parser
    returns exactly [<id>]. *)
Theorem C6_parser_returns_id (prefix id query : string) :
  has_char "/" id = false ->
  has_char "?" id = false ->
  has_char "/" query = false ->
  parse_playlist_uri (prefix ++ "/playlist/" ++ id ++ "?" ++ query)%string
  = Ok id.
Proof.
  intros Hid_slash Hid_q Hquery.
  unfold parse_playlist_uri.
  change (prefix ++ "/playlist/" ++ id ++ "?" ++ query)%string
    with (prefix ++ String "/" ("playlist" ++ String "/" (id ++ String "?" query)))%string.
  rewrite !last_piece_after_sep.
  rewrite split_without_sep.
  - simpl. now rewrite split_at_first_sep.
  - rewrite has_char_app. simpl. now rewrite Hid_slash, Hquery.
Qed.

Lemma C6_witness :
  has_char "/" "37i9dQZF1DXcBWIGoYBM5M" = false /\
  has_char "?" "37i9dQZF1DXcBWIGoYBM5M" = false /\
  has_char "/" "si=0a1b2c" = false /\
  parse_playlist_uri
    "https://open.spotify.com/playlist/37i9dQZF1DXcBWIGoYBM5M?si=0a1b2c"
  = Ok "37i9dQZF1DXcBWIGoYBM5M".
Proof.
  split; [reflexivity|]. split; [reflexivity|]. split; [reflexivity|].
  apply (C6_parser_returns_id "https://open.spotify.com"
           "37i9dQZF1DXcBWIGoYBM5M" "si=0a1b2c"); reflexivity.
Defined.

(** C6 as stated fails: a '/' in the query string takes the place of the
    one before the identifier. *)
Lemma C6_counterexample :
  has_char "/" "abc" = false /\ has_char "?" "abc" = false /\
  parse_playlist_uri
    ("https://open.spotify.com" ++ "/playlist/" ++ "abc" ++ "?" ++ "next=/home")
  <> Ok "abc".
Proof.
  repeat split; try reflexivity. vm_compute. discriminate.
Qed.

(** C7, as the code has it: on a string the parser itself never fails, it
    always returns an identifier (possibly the empty one).  Links are
    screened by [main]: an empty link starts nothing and shows nothing, and
    a non-empty link without "spotify.com/playlist/" gets one error message
    and no request is made. *)
Theorem C7_parser_total_main_screens
    {Svc} (sp : Spotify Svc) (pd : list pyval -> list pyval)
    (draws : widget -> option exn)
    (fuel : nat) (playlist_link : string) (st : state Svc unit) :
  (exists id, parse_playlist_uri playlist_link = Ok id) /\
  (playlist_link = "" ->
   main sp pd draws fuel playlist_link st = Returned tt st) /\
  (playlist_link <> "" ->
   Py.contains "spotify.com/playlist/" playlist_link = false ->
   main sp pd draws fuel playlist_link st
   = Returned tt
       {| client := client st;
          log := log st
                 ++ [StError "Please enter a valid Spotify playlist link." None];
          locals := locals st |}).
Proof.
  split; [apply parse_playlist_uri_total|]. split.
  - intros ->. reflexivity.
  - intros Hne Hno. unfold main. rewrite Hno. simpl.
    apply String.eqb_neq in Hne. rewrite Hne. reflexivity.
Qed.

Lemma C7_witness :
  "my favourite songs" <> "" /\
  Py.contains "spotify.com/playlist/" "my favourite songs" = false /\
  main (catalog [] []) numeric_already every_widget_drawn 5 "my favourite songs" (start 0)
  = Returned tt
      {| client := 0;
         log := [StError "Please enter a valid Spotify playlist link." None];
         locals := tt |}.
Proof.
  split; [discriminate|]. split; [reflexivity|].
  apply (C7_parser_total_main_screens (catalog [] []) numeric_already
           every_widget_drawn 5
           "my favourite songs" (start 0));
    [discriminate | reflexivity].
Defined.

(** C7 as stated fails: the empty link is parsed to the empty identifier
    without any error and [main] halts without a message; a link that ends
    right after "playlist/" passes the screen and its empty identifier is
    sent to the service. *)
Lemma C7_counterexample :
  parse_playlist_uri "" = Ok "" /\
  main (catalog [] []) numeric_already every_widget_drawn 5 "" (start 0)
  = Returned tt (start 0) /\
  hd_error (log_of (main (catalog [] []) numeric_already every_widget_drawn 5
                         "https://open.spotify.com/playlist/" (start 0)))
  = Some (ApiPlaylist "").
Proof.
  split; [reflexivity|]. split; [reflexivity|]. vm_compute. reflexivity.
Qed.

(* ================================================================= *)
(** ** The release year *)

Lemma digit_not_space (c : ascii) :
  Py.is_digit c = true -> Py.is_space c = false.
Proof.
  unfold Py.is_digit, Py.is_space. cbv zeta.
  generalize (nat_of_ascii c). intros n H.
  apply andb_true_iff in H as [H1 H2].
  apply Nat.leb_le in H1. apply Nat.leb_le in H2.
  repeat (apply orb_false_iff; split).
  - apply andb_false_iff. right. apply Nat.leb_gt. lia.
  - apply Nat.eqb_neq. lia.
  - apply Nat.eqb_neq. lia.
  - apply Nat.eqb_neq. lia.
Qed.

Lemma all_chars_rev_onto (p : ascii -> bool) (s acc : string) :
  all_chars p (Py.rev_onto s acc) = all_chars p s && all_chars p acc.
Proof.
  revert acc. induction s as [|c s IH]; intros acc; simpl; [reflexivity|].
  rewrite IH. simpl. now rewrite andb_assoc, (andb_comm (all_chars p s)).
Qed.

Lemma some_char_rev_onto (p : ascii -> bool) (s acc : string) :
  some_char p (Py.rev_onto s acc) = some_char p s || some_char p acc.
Proof.
  revert acc. induction s as [|c s IH]; intros acc; simpl; [reflexivity|].
  rewrite IH. simpl. now rewrite orb_assoc, (orb_comm (some_char p s)).
Qed.

Lemma rev_onto_twice (s a b : string) :
  Py.rev_onto (Py.rev_onto s a) b = Py.rev_onto a (s ++ b).
Proof.
  revert a b. induction s as [|c s IH]; intros a b; simpl; [reflexivity|].
  now rewrite IH.
Qed.

Lemma lstrip_digits (s : string) :
  all_chars Py.is_digit s = true -> Py.lstrip s = s.
Proof.
  destruct s as [|c s]; simpl; [reflexivity|].
  intros H. apply andb_true_iff in H as [Hc _].
  now rewrite (digit_not_space c Hc).
Qed.

Lemma append_empty (s : string) : (s ++ "")%string = s.
Proof. induction s as [|c s IH]; simpl; [reflexivity | now rewrite IH]. Qed.

Lemma strip_digits (s : string) :
  all_chars Py.is_digit s = true -> Py.strip s = s.
Proof.
  intros H. unfold Py.strip, Py.rstrip.
  rewrite (lstrip_digits s H).
  rewrite lstrip_digits.
  - rewrite rev_onto_twice. simpl. apply append_empty.
  - rewrite all_chars_rev_onto, H. reflexivity.
Qed.

Lemma more_digits_decimal (s : string) (acc : Z) :
  all_chars Py.is_digit s = true ->
  Py.more_digits acc s = Some (decimal_from acc s).
Proof.
  revert acc. induction s as [|c s IH]; intros acc; simpl; [reflexivity|].
  intros H. apply andb_true_iff in H as [Hc Hs].
  rewrite Hc. now apply IH.
Qed.

Lemma digit_not_sign (c : ascii) :
  Py.is_digit c = true -> (c =? "+")%char = false /\ (c =? "-")%char = false.
Proof.
  intros H. split; apply Ascii.eqb_neq; intros ->; discriminate.
Qed.

Lemma int_of_str_digits (s : string) :
  s <> "" -> all_chars Py.is_digit s = true ->
  Py.int_of_str s = Ok (decimal s).
Proof.
  intros Hne H. unfold Py.int_of_str. rewrite (strip_digits s H).
  destruct s as [|c s]; [contradiction|].
  simpl in H. apply andb_true_iff in H as [Hc Hs].
  destruct (digit_not_sign c Hc) as [-> ->].
  simpl. rewrite Hc, (more_digits_decimal s _ Hs). reflexivity.
Qed.

Lemma all_chars_lstrip (p : ascii -> bool) (s : string) :
  (forall c, Py.is_space c = true -> p c = true) ->
  all_chars p (Py.lstrip s) = true -> all_chars p s = true.
Proof.
  intros Hsp. induction s as [|c s IH]; simpl; [reflexivity|].
  destruct (Py.is_space c) eqn:E; simpl.
  - intros H. now rewrite (Hsp c E), (IH H).
  - trivial.
Qed.

Lemma some_char_lstrip (p : ascii -> bool) (s : string) :
  some_char p (Py.lstrip s) = true -> some_char p s = true.
Proof.
  induction s as [|c s IH]; simpl; [trivial|].
  destruct (Py.is_space c); simpl; [|trivial].
  intros H. rewrite (IH H). apply orb_true_r.
Qed.

Lemma all_chars_strip (p : ascii -> bool) (s : string) :
  (forall c, Py.is_space c = true -> p c = true) ->
  all_chars p (Py.strip s) = true -> all_chars p s = true.
Proof.
  intros Hsp H. unfold Py.strip, Py.rstrip in H.
  rewrite all_chars_rev_onto, andb_true_r in H.
  apply (all_chars_lstrip p _ Hsp) in H.
  rewrite all_chars_rev_onto, andb_true_r in H.
  now apply (all_chars_lstrip p _ Hsp).
Qed.

Lemma some_char_strip (p : ascii -> bool) (s : string) :
  some_char p (Py.strip s) = true -> some_char p s = true.
Proof.
  intros H. unfold Py.strip, Py.rstrip in H.
  rewrite some_char_rev_onto, orb_false_r in H.
  apply some_char_lstrip in H.
  rewrite some_char_rev_onto, orb_false_r in H.
  now apply some_char_lstrip.
Qed.

Lemma digit_is_int_char (c : ascii) :
  Py.is_digit c = true -> int_char c = true.
Proof. intros H. unfold int_char. now rewrite H. Qed.

Lemma underscore_is_int_char : int_char "_" = true.
Proof. reflexivity. Qed.

(** What [more_digits] accepts is made of digits and underscores. *)
Lemma more_digits_chars (n : nat) :
  forall s acc z, String.length s <= n ->
    Py.more_digits acc s = Some z -> all_chars int_char s = true.
Proof.
  induction n as [|n IH]; intros s acc z Hlen H.
  - destruct s; [reflexivity | simpl in Hlen; lia].
  - destruct s as [|c s]; [reflexivity|].
    simpl in Hlen. simpl in H. simpl.
    destruct (Py.is_digit c) eqn:Hc.
    + rewrite (digit_is_int_char c Hc). simpl.
      eapply IH; [|exact H]; lia.
    + destruct (Ascii.eqb_spec c "_") as [->|]; [|discriminate].
      destruct s as [|c' s]; [discriminate|].
      destruct (Py.is_digit c') eqn:Hc'; [|discriminate].
      simpl. rewrite (digit_is_int_char c' Hc'). simpl.
      simpl in Hlen. eapply IH; [|exact H]; lia.
Qed.

Lemma digits_chars (s : string) (z : Z) :
  Py.digits s = Some z ->
  all_chars int_char s = true /\ some_char Py.is_digit s = true.
Proof.
  destruct s as [|c s]; simpl; [discriminate|].
  destruct (Py.is_digit c) eqn:Hc; [|discriminate].
  intros H. rewrite (digit_is_int_char c Hc). simpl. split; [|reflexivity].
  eapply (more_digits_chars (String.length s)); [|exact H]; lia.
Qed.

(** A string that [int] reads is made of the characters of a base-ten
    literal and holds at least one digit. *)
Lemma int_of_str_chars (s : string) (z : Z) :
  Py.int_of_str s = Ok z ->
  all_chars int_char s = true /\ some_char Py.is_digit s = true.
Proof.
  unfold Py.int_of_str. intros H.
  assert (Hbody : all_chars int_char (Py.strip s) = true
                  /\ some_char Py.is_digit (Py.strip s) = true).
  { destruct (Py.strip s) as [|c t]; [discriminate|].
    destruct (Ascii.eqb_spec c "+") as [->|Hplus].
    - destruct (Py.digits t) as [v|] eqn:E; [|discriminate].
      destruct (digits_chars t v E) as [Ha Hd].
      simpl. now rewrite Ha, Hd.
    - destruct (Ascii.eqb_spec c "-") as [->|Hminus].
      + destruct (Py.digits t) as [v|] eqn:E; [|discriminate].
        destruct (digits_chars t v E) as [Ha Hd].
        simpl. now rewrite Ha, Hd.
      + destruct (Py.digits (String c t)) as [v|] eqn:E; [|discriminate].
        exact (digits_chars _ v E). }
  destruct Hbody as [Ha Hd]. split.
  - apply all_chars_strip; [|exact Ha].
    intros c Hc. unfold int_char. rewrite Hc. now rewrite orb_true_r.
  - now apply some_char_strip.
Qed.

Lemma release_year_of_str (s : string) :
  release_year_of (PStr s)
  = match Py.int_of_str (Py.take 4 s) with
    | Ok z => PInt z
    | Raise _ => PNone
    end.
Proof. reflexivity. Qed.

(** *** [int] reads the literals of the grammar, and nothing else *)

Lemma string_app_assoc (a b c : string) :
  ((a ++ b) ++ c)%string = (a ++ (b ++ c))%string.
Proof. induction a as [|x a IH]; simpl; [reflexivity | now rewrite IH]. Qed.

Lemma rev_onto_acc (s acc : string) :
  Py.rev_onto s acc = (Py.rev_onto s "" ++ acc)%string.
Proof.
  revert acc. induction s as [|c s IH]; intros acc; simpl; [reflexivity|].
  rewrite (IH (String c acc)), (IH (String c "")).
  now rewrite string_app_assoc.
Qed.

Lemma rev_onto_app (a b acc : string) :
  Py.rev_onto (a ++ b) acc = Py.rev_onto b (Py.rev_onto a acc).
Proof.
  revert acc. induction a as [|c a IH]; intros acc; simpl; [reflexivity|].
  apply IH.
Qed.

Lemma rev_onto_involutive (s : string) :
  Py.rev_onto (Py.rev_onto s "") "" = s.
Proof. rewrite rev_onto_twice. simpl. apply append_empty. Qed.

Lemma lstrip_split (s : string) :
  exists b, s = (b ++ Py.lstrip s)%string /\ all_chars Py.is_space b = true.
Proof.
  induction s as [|c s (b & Hs & Hb)]; [now exists ""|].
  simpl. destruct (Py.is_space c) eqn:Hc.
  - exists (String c b). simpl. rewrite Hc, Hb, <- Hs. now split.
  - now exists "".
Qed.

Lemma rstrip_split (s : string) :
  exists a, s = (Py.rstrip s ++ a)%string /\ all_chars Py.is_space a = true.
Proof.
  unfold Py.rstrip.
  destruct (lstrip_split (Py.rev_onto s "")) as (b & Hr & Hb).
  exists (Py.rev_onto b ""). split.
  - rewrite <- rev_onto_acc, <- rev_onto_app, <- Hr.
    symmetry. apply rev_onto_involutive.
  - now rewrite all_chars_rev_onto, Hb.
Qed.

Lemma strip_split (s : string) :
  exists b a,
    s = (b ++ Py.strip s ++ a)%string /\
    all_chars Py.is_space b = true /\ all_chars Py.is_space a = true.
Proof.
  unfold Py.strip.
  destruct (lstrip_split s) as (b & Hs & Hb).
  destruct (rstrip_split (Py.lstrip s)) as (a & Hl & Ha).
  exists b, a. split; [|now split].
  now rewrite <- Hl.
Qed.

Lemma lstrip_blanks (b x : string) :
  all_chars Py.is_space b = true -> Py.lstrip (b ++ x) = Py.lstrip x.
Proof.
  induction b as [|c b IH]; simpl; [reflexivity|].
  intros H. apply andb_true_iff in H as [Hc Hb].
  rewrite Hc. now apply IH.
Qed.

(** Stripping gives back a body that neither starts nor ends with white
    space. *)
Lemma strip_body (b a front : string) (first last : ascii) (back : string) :
  all_chars Py.is_space b = true ->
  all_chars Py.is_space a = true ->
  Py.is_space first = false ->
  Py.is_space last = false ->
  String first back = (front ++ String last "")%string ->
  Py.strip (b ++ String first back ++ a) = String first back.
Proof.
  intros Hb Ha Hfirst Hlast Hbody. unfold Py.strip.
  rewrite (lstrip_blanks b _ Hb).
  change (String first back ++ a)%string with (String first (back ++ a)).
  cbn [Py.lstrip]. rewrite Hfirst.
  change (String first (back ++ a)) with (String first back ++ a)%string.
  unfold Py.rstrip.
  rewrite rev_onto_app.
  rewrite (rev_onto_acc a (Py.rev_onto (String first back) "")).
  rewrite lstrip_blanks by (now rewrite all_chars_rev_onto, Ha).
  assert (Hrev : Py.rev_onto (String first back) ""
                 = String last (Py.rev_onto front "")).
  { rewrite Hbody, rev_onto_app. reflexivity. }
  rewrite Hrev. cbn [Py.lstrip]. rewrite Hlast, <- Hrev.
  apply rev_onto_involutive.
Qed.

(** What [more_digits] reads on goes on a numeral. *)
Lemma more_digits_numeral (n : nat) :
  forall s p zp z, String.length s <= n ->
    numeral p zp -> Py.more_digits zp s = Some z ->
    numeral (p ++ s) z.
Proof.
  induction n as [|n IH]; intros s p zp z Hlen Hp H.
  - destruct s; [|simpl in Hlen; lia].
    cbn in H. injection H as <-. now rewrite append_empty.
  - destruct s as [|c s].
    { cbn in H. injection H as <-. now rewrite append_empty. }
    simpl in Hlen. cbn [Py.more_digits] in H.
    destruct (Py.is_digit c) eqn:Hc.
    + change (String c s) with (String c "" ++ s)%string.
      rewrite <- string_app_assoc.
      eapply IH; [|apply numeral_next; eassumption|exact H]. lia.
    + destruct (Ascii.eqb_spec c "_") as [->|]; [|discriminate].
      destruct s as [|c' s]; [discriminate|].
      destruct (Py.is_digit c') eqn:Hc'; [|discriminate].
      change (String "_" (String c' s))
        with (String "_" (String c' "") ++ s)%string.
      rewrite <- string_app_assoc. simpl in Hlen.
      eapply IH; [|apply numeral_group; eassumption|exact H]. lia.
Qed.

Lemma digits_numeral (s : string) (z : Z) :
  Py.digits s = Some z -> numeral s z.
Proof.
  destruct s as [|c s]; [discriminate|]. cbn [Py.digits].
  destruct (Py.is_digit c) eqn:Hc; [|discriminate]. intros H.
  change (String c s) with (String c "" ++ s)%string.
  eapply (more_digits_numeral (String.length s)); [|apply numeral_digit|];
    [lia|exact Hc|exact H].
Qed.

(** Reading on after one more digit, or one more underscore and digit. *)
Lemma more_digits_snoc (c : ascii) (n : nat) :
  Py.is_digit c = true ->
  forall s acc z, String.length s <= n ->
    Py.more_digits acc s = Some z ->
    Py.more_digits acc (s ++ String c "")
    = Some (10 * z + Py.digit_val c)%Z /\
    Py.more_digits acc (s ++ String "_" (String c ""))
    = Some (10 * z + Py.digit_val c)%Z.
Proof.
  intros Hc. induction n as [|n IH]; intros s acc z Hlen H.
  - destruct s; [|simpl in Hlen; lia].
    cbn in H. injection H as <-. cbn. now rewrite Hc.
  - destruct s as [|x s].
    { cbn in H. injection H as <-. cbn. now rewrite Hc. }
    simpl in Hlen. cbn [Py.more_digits append] in H |- *.
    destruct (Py.is_digit x) eqn:Hx.
    + apply IH; [lia | exact H].
    + destruct (Ascii.eqb_spec x "_") as [->|]; [|discriminate].
      destruct s as [|x' s]; [discriminate|].
      cbn [append]. destruct (Py.is_digit x') eqn:Hx'; [|discriminate].
      simpl in Hlen. apply IH; [lia | exact H].
Qed.

Lemma numeral_first (s : string) (z : Z) :
  numeral s z -> exists c t, s = String c t /\ Py.is_digit c = true.
Proof.
  induction 1 as [c Hc | s z c _ (c0 & t & -> & H0) _
                 | s z c _ (c0 & t & -> & H0) _].
  - now exists c, "".
  - now exists c0, (t ++ String c "")%string.
  - now exists c0, (t ++ String "_" (String c ""))%string.
Qed.

Lemma numeral_last (s : string) (z : Z) :
  numeral s z ->
  exists front c, s = (front ++ String c "")%string /\ Py.is_digit c = true.
Proof.
  destruct 1 as [c Hc | s z c _ Hc | s z c _ Hc].
  - now exists "", c.
  - now exists s, c.
  - exists (s ++ "_")%string, c. split; [|exact Hc].
    now rewrite string_app_assoc.
Qed.

Lemma numeral_digits (s : string) (z : Z) :
  numeral s z -> Py.digits s = Some z.
Proof.
  induction 1 as [c Hc | s z c Hs IH Hc | s z c Hs IH Hc].
  - cbn. now rewrite Hc.
  - destruct (numeral_first s z Hs) as (c0 & t & -> & H0).
    cbn [Py.digits append] in IH |- *. rewrite H0 in IH |- *.
    exact (proj1 (more_digits_snoc c (String.length t) Hc t _ z
                    (Nat.le_refl _) IH)).
  - destruct (numeral_first s z Hs) as (c0 & t & -> & H0).
    cbn [Py.digits append] in IH |- *. rewrite H0 in IH |- *.
    exact (proj2 (more_digits_snoc c (String.length t) Hc t _ z
                    (Nat.le_refl _) IH)).
Qed.

(** [int] reads a string as [z] exactly when the string is an integer
    literal that writes [z]. *)
Lemma int_of_str_literal (s : string) (z : Z) :
  Py.int_of_str s = Ok z <-> int_literal s z.
Proof.
  split.
  - unfold Py.int_of_str. intros H.
    destruct (strip_split s) as (b & a & Hs & Hb & Ha).
    exists b, (Py.strip s), a. repeat split; try assumption.
    destruct (Py.strip s) as [|c t]; [discriminate|].
    destruct (Ascii.eqb_spec c "+") as [->|Hplus].
    + destruct (Py.digits t) as [v|] eqn:E; [|discriminate].
      injection H as <-. apply signed_plus, digits_numeral, E.
    + destruct (Ascii.eqb_spec c "-") as [->|Hminus].
      * destruct (Py.digits t) as [v|] eqn:E; [|discriminate].
        cbn in H. injection H as <-. apply signed_minus, digits_numeral, E.
      * destruct (Py.digits (String c t)) as [v|] eqn:E; [|discriminate].
        injection H as <-. apply signed_none, digits_numeral, E.
  - intros (b & body & a & -> & Hb & Ha & Hbody). unfold Py.int_of_str.
    destruct Hbody as [s z Hs | s z Hs | s z Hs].
    + destruct (numeral_first s z Hs) as (c & t & Heq & Hc).
      destruct (numeral_last s z Hs) as (front & last & Hfront & Hlast).
      subst s.
      rewrite (strip_body b a front c last t Hb Ha (digit_not_space c Hc)
                 (digit_not_space last Hlast) Hfront).
      destruct (digit_not_sign c Hc) as [-> ->].
      now rewrite (numeral_digits _ z Hs).
    + destruct (numeral_last s z Hs) as (front & last & -> & Hlast).
      rewrite (strip_body b a (String "+" front) "+" last
                 (front ++ String last "") Hb Ha eq_refl
                 (digit_not_space last Hlast) eq_refl).
      cbn [Ascii.eqb Bool.eqb]. now rewrite (numeral_digits _ z Hs).
    + destruct (numeral_last s z Hs) as (front & last & -> & Hlast).
      rewrite (strip_body b a (String "-" front) "-" last
                 (front ++ String last "") Hb Ha eq_refl
                 (digit_not_space last Hlast) eq_refl).
      cbn [Ascii.eqb Bool.eqb]. now rewrite (numeral_digits _ z Hs).
Qed.

(** C8, as the code has it: the release year is [int] of the first four
    characters of the release date, or of all of it when it is shorter.
    It is the integer [z] exactly when these characters form an integer
    literal that writes [z] (white space, an optional sign, then decimal
    digits with single underscores allowed between two digits, white
    space), and [None] exactly when they form no such literal.  So when
    they are decimal digits (at least one) the year is the number they
    write; when one of them cannot occur in a literal, or none of them is a
    digit (the empty date included), the year is [None]; in every case it
    is an integer or [None], never an exception. *)
Theorem C8_release_year (release_date : string) :
  (forall z,
     release_year_of (PStr release_date) = PInt z
     <-> int_literal (Py.take 4 release_date) z) /\
  (release_year_of (PStr release_date) = PNone
   <-> forall z, ~ int_literal (Py.take 4 release_date) z) /\
  (Py.take 4 release_date <> "" ->
   all_chars Py.is_digit (Py.take 4 release_date) = true ->
   release_year_of (PStr release_date)
   = PInt (decimal (Py.take 4 release_date))) /\
  (all_chars int_char (Py.take 4 release_date) = false
   \/ some_char Py.is_digit (Py.take 4 release_date) = false ->
   release_year_of (PStr release_date) = PNone) /\
  (release_year_of (PStr release_date) = PNone
   \/ exists z, release_year_of (PStr release_date) = PInt z).
Proof.
  rewrite release_year_of_str.
  split; [|split; [|split; [|split]]].
  - intros z. rewrite <- int_of_str_literal.
    destruct (Py.int_of_str (Py.take 4 release_date)) as [v|e];
      split; intros H; congruence.
  - split.
    + intros H z Hz. apply int_of_str_literal in Hz.
      rewrite Hz in H. discriminate.
    + intros H.
      destruct (Py.int_of_str (Py.take 4 release_date)) as [v|e] eqn:E;
        [|reflexivity].
      apply int_of_str_literal in E. now destruct (H v).
  - intros Hne Hdigits. now rewrite (int_of_str_digits _ Hne Hdigits).
  - intros Hbad.
    destruct (Py.int_of_str (Py.take 4 release_date)) as [z|e] eqn:E;
      [|reflexivity].
    destruct (int_of_str_chars _ z E) as [Ha Hd].
    destruct Hbad as [Hbad|Hbad]; congruence.
  - destruct (Py.int_of_str (Py.take 4 release_date)) as [z|e];
      [right; now exists z | now left].
Qed.

Lemma C8_witness :
  (Py.take 4 "1999-05-01" <> "" /\
   all_chars Py.is_digit (Py.take 4 "1999-05-01") = true /\
   release_year_of (PStr "1999-05-01") = PInt 1999) /\
  (some_char Py.is_digit (Py.take 4 "unknown") = false /\
   release_year_of (PStr "unknown") = PNone) /\
  (int_literal (Py.take 4 "+1_9-01") 19 /\
   release_year_of (PStr "+1_9-01") = PInt 19) /\
  (release_year_of (PStr "5-12-1999") = PNone /\
   forall z, ~ int_literal (Py.take 4 "5-12-1999") z) /\
  (release_year_of (PStr "19-05") = PNone /\
   forall z, ~ int_literal (Py.take 4 "19-05") z) /\
  (release_year_of (PStr "1__9") = PNone /\
   forall z, ~ int_literal (Py.take 4 "1__9") z).
Proof.
  split; [|split; [|split; [|split; [|split]]]].
  - split; [discriminate|]. split; [reflexivity|].
    apply (proj1 (proj2 (proj2 (C8_release_year "1999-05-01"))));
      [discriminate|reflexivity].
  - split; [reflexivity|].
    apply (proj1 (proj2 (proj2 (proj2 (C8_release_year "unknown"))))).
    right. reflexivity.
  - assert (Hlit : int_literal (Py.take 4 "+1_9-01") 19).
    { exists "", "+1_9", "". split; [reflexivity|].
      split; [reflexivity|]. split; [reflexivity|].
      apply signed_plus.
      exact (numeral_group "1" 1 "9" (numeral_digit "1" eq_refl) eq_refl). }
    split; [exact Hlit|].
    exact (proj2 (proj1 (C8_release_year "+1_9-01") 19%Z) Hlit).
  - split; [reflexivity|].
    exact (proj1 (proj1 (proj2 (C8_release_year "5-12-1999"))) eq_refl).
  - split; [reflexivity|].
    exact (proj1 (proj1 (proj2 (C8_release_year "19-05"))) eq_refl).
  - split; [reflexivity|].
    exact (proj1 (proj1 (proj2 (C8_release_year "1__9"))) eq_refl).
Defined.

(** C8 as stated fails: a date of fewer than four characters that is a
    number gets that number as its year, not [None]; and so does a date
    whose first four characters are not all digits but still form a literal
    that [int] reads. *)
Lemma C8_counterexample :
  String.length "199" < 4 /\
  release_year_of (PStr "199") = PInt 199 /\
  release_year_of (PStr "199") <> PNone /\
  all_chars Py.is_digit (Py.take 4 "+1_9-01") = false /\
  release_year_of (PStr "+1_9-01") = PInt 19.
Proof.
  split; [simpl; lia|]. split; [reflexivity|]. split; [discriminate|].
  split; reflexivity.
Qed.

(* ================================================================= *)
(** ** The paginated track collector *)

Section Collector.
Context {Svc : Type}.
Variable sp : Spotify Svc.
Variable uri : string.

Ltac run_page :=
  unfold collect_page, try_except, bind, gets, request, lift, ret, raise,
    emit, modify.

(** A turn whose request is answered with a page. *)
Lemma collect_page_items (st : state Svc collector) d l s' :
  sp_playlist_tracks sp uri (offset (locals st)) (client st)
    = (Ok (PDict d), s') ->
  Py.lookup "items" d = Some (PList l) ->
  collect_page sp uri st
  = Returned
      (if (List.length l <? 100)%nat then Break else Again)
      {| client := s';
         log := (log st ++ [ApiPlaylistTracks uri (offset (locals st))])
                ++ [Sleep];
         locals :=
           {| results := results (locals st) ++ l;
              offset := if (List.length l <? 100)%nat
                        then offset (locals st)
                        else offset (locals st) + 100 |} |}.
Proof.
  intros Hreq Hitems. run_page. rewrite Hreq.
  destruct d as [|kv d]; [discriminate|].
  cbn [Py.truthy negb Py.str_in Py.getitem Py.iterate Py.len].
  rewrite Hitems. unfold Nat.ltb. cbn.
  destruct (List.length l <=? 99)%nat; reflexivity.
Qed.

(** A turn whose request raises: the error is printed and the loop
    stops, with the local variables as they were. *)
Lemma collect_page_raise (st : state Svc collector) e s' :
  sp_playlist_tracks sp uri (offset (locals st)) (client st)
    = (Raise e, s') ->
  collect_page sp uri st
  = Returned Break
      {| client := s';
         log := (log st ++ [ApiPlaylistTracks uri (offset (locals st))])
                ++ [Print "Error fetching tracks: " e];
         locals := locals st |}.
Proof.
  intros Hreq. run_page. rewrite Hreq. reflexivity.
Qed.

(** Whatever the service answers, a turn returns: nothing escapes the
    [try]. *)
Lemma collect_page_returns (st : state Svc collector) :
  exists t st', collect_page sp uri st = Returned t st'.
Proof.
  run_page.
  destruct (sp_playlist_tracks sp uri (offset (locals st)) (client st))
    as [[response|e] s']; [|cbn; eauto].
  destruct response as [| b | z | x | s | l | d]; cbn; eauto.
  - destruct b; cbn; eauto.
  - destruct (z =? 0)%Z; cbn; eauto.
  - destruct x as [| negative | m e]; cbn; eauto.
    destruct (m =? 0)%Z; cbn; eauto.
  - destruct (s =? "")%string; cbn; eauto.
    destruct (Py.contains "items" s); cbn; eauto.
  - destruct l as [|x l]; cbn; eauto.
    destruct (Py.pyval_is_str "items" x || existsb (Py.pyval_is_str "items") l);
      cbn; eauto.
  - destruct d as [|kv d]; cbn [Py.truthy negb]; [cbn; eauto|].
    cbn [Py.str_in Py.getitem].
    destruct (Py.lookup "items" (kv :: d)) as [items|]; [|cbn; eauto].
    cbn [negb].
    destruct items as [| b | z | x | s | l | d']; cbn; eauto.
    + unfold Nat.ltb. destruct (String.length s <=? 99)%nat; cbn; eauto.
    + unfold Nat.ltb. destruct (List.length l <=? 99)%nat; cbn; eauto.
    + unfold Nat.ltb. destruct (List.length d' <=? 99)%nat; cbn; eauto.
Qed.

Lemma collect_loop_step (fuel : nat) (st : state Svc collector) :
  collect_loop sp (S fuel) uri st
  = match collect_page sp uri st with
    | Returned Again st' => collect_loop sp fuel uri st'
    | Returned Break st' => Returned tt st'
    | Raised e st' => Raised e st'
    | OutOfFuel => OutOfFuel
    end.
Proof.
  cbn [collect_loop]. unfold bind.
  destruct (collect_page sp uri st) as [[|] st'|e st'|]; reflexivity.
Qed.

Lemma collect_loop_never_raises (fuel : nat) (st : state Svc collector) :
  (exists st', collect_loop sp fuel uri st = Returned tt st')
  \/ collect_loop sp fuel uri st = OutOfFuel.
Proof.
  revert st. induction fuel as [|fuel IH]; intros st; [now right|].
  rewrite collect_loop_step.
  destruct (collect_page_returns st) as (t & st' & ->).
  destruct t; [apply IH | left; now exists st'].
Qed.

Lemma page_requests_snoc (l : list event) (ev : event) :
  page_requests (l ++ [ev])
  = page_requests l + (if is_page_request ev then 1 else 0).
Proof.
  unfold page_requests. rewrite filter_app, length_app. simpl.
  now destruct (is_page_request ev).
Qed.

(** The loop on a service that lists [items]: from any offset it adds
    what is left of [items], one request per page. *)
Lemma collect_loop_pages (items : list pyval) :
  serves_pages sp uri items ->
  forall fuel (st : state Svc collector),
    (List.length items - offset (locals st)) / 100 < fuel ->
    exists st',
      collect_loop sp fuel uri st = Returned tt st' /\
      results (locals st')
      = results (locals st) ++ skipn (offset (locals st)) items /\
      page_requests (log st')
      = page_requests (log st)
        + ((List.length items - offset (locals st)) / 100 + 1).
Proof.
  intros Hsrv. induction fuel as [|fuel IH]; intros st Hfuel; [lia|].
  rewrite collect_loop_step.
  destruct (sp_playlist_tracks sp uri (offset (locals st)) (client st))
    as [r s'] eqn:Hreq.
  destruct (Hsrv (offset (locals st)) (client st)) as (d & Hpage & Hitems).
  rewrite Hreq in Hpage. cbn [fst] in Hpage. subst r.
  rewrite (collect_page_items st d _ s' Hreq Hitems).
  set (rest := skipn (offset (locals st)) items) in *.
  assert (Hrest : List.length rest
                  = List.length items - offset (locals st))
    by apply length_skipn.
  pose proof (length_firstn 100 rest) as Hlen.
  destruct (List.length (firstn 100 rest) <? 100)%nat eqn:Hshort.
  - apply Nat.ltb_lt in Hshort.
    eexists. split; [reflexivity|]. cbn [locals log results].
    rewrite !page_requests_snoc. cbn [is_page_request].
    rewrite firstn_all2 by lia.
    rewrite Nat.div_small by lia. split; [reflexivity | lia].
  - apply Nat.ltb_ge in Hshort.
    set (st1 := {| client := s';
                   log := (log st ++ [ApiPlaylistTracks uri (offset (locals st))])
                          ++ [Sleep];
                   locals := {| results := results (locals st) ++ firstn 100 rest;
                                offset := offset (locals st) + 100 |} |}).
    assert (Hdiv : (List.length items - offset (locals st)) / 100
                   = (List.length items - (offset (locals st) + 100)) / 100 + 1).
    { replace (List.length items - offset (locals st))
        with ((List.length items - (offset (locals st) + 100)) + 1 * 100)
        by lia.
      now rewrite Nat.div_add by lia. }
    destruct (IH st1) as (st' & Hrun & Hres & Hcount).
    { cbn [st1 locals offset]. lia. }
    exists st'. split; [exact Hrun|].
    rewrite Hres, Hcount. cbn [st1 locals log results offset].
    rewrite !page_requests_snoc. cbn [is_page_request]. split.
    + rewrite <- app_assoc. f_equal.
      rewrite (Nat.add_comm (offset (locals st)) 100), <- skipn_skipn.
      apply firstn_skipn.
    + lia.
Qed.

(** Full pages answered in turn: the loop takes one turn for each, asks
    at offsets 100 apart and pauses after each answer. *)
Lemma collect_loop_in_turn (pages : list (list pyval)) :
  forall (off fuel : nat) (st : state Svc collector) (s' : Svc),
    offset (locals st) = off ->
    answers_in_turn sp uri off (client st) pages s' ->
    collect_loop sp (List.length pages + fuel) uri st
    = collect_loop sp fuel uri
        {| client := s';
           log := log st ++ paced_requests uri off (List.length pages);
           locals := {| results := results (locals st) ++ List.concat pages;
                        offset := off + 100 * List.length pages |} |}.
Proof.
  induction pages as [|p pages IH]; intros off fuel st s' Hoff Hturn.
  - inversion Hturn; subst.
    cbn [List.length List.concat paced_requests Nat.add].
    rewrite !app_nil_r, Nat.mul_0_r, Nat.add_0_r.
    now destruct st as [s l [res o]].
  - inversion Hturn as [|? ? d ? s1 ? ? Hreq Hitems Hlen Hrest]; subst.
    cbn [List.length Nat.add]. rewrite collect_loop_step.
    rewrite (collect_page_items st d p s1 Hreq Hitems).
    assert (Hfull : (List.length p <? 100)%nat = false)
      by (apply Nat.ltb_ge; exact Hlen).
    rewrite Hfull.
    match goal with
    | |- collect_loop sp _ uri ?st1 = _ =>
        rewrite (IH (offset (locals st) + 100) fuel st1 s' eq_refl Hrest)
    end.
    cbn [locals log results offset client paced_requests List.concat].
    f_equal. f_equal.
    + now rewrite <- !app_assoc.
    + f_equal; [now rewrite <- app_assoc | lia].
Qed.

Lemma get_all_tracks_of_loop {L} (fuel : nat) (st : state Svc L) st' :
  collect_loop sp fuel uri
    {| client := client st; log := log st;
       locals := {| results := []; offset := 0 |} |}
  = Returned tt st' ->
  get_all_tracks sp fuel uri st
  = Returned (results (locals st'))
      {| client := client st'; log := log st'; locals := locals st |}.
Proof.
  intros Hrun. unfold get_all_tracks, call, bind, gets.
  now rewrite Hrun.
Qed.

(** No exception leaves [get_all_tracks]. *)
Lemma get_all_tracks_never_raises {L} (fuel : nat) (st : state Svc L) :
  forall e st', get_all_tracks sp fuel uri st <> Raised e st'.
Proof.
  intros e st'. unfold get_all_tracks, call, bind, gets.
  destruct (collect_loop_never_raises fuel
              {| client := client st; log := log st;
                 locals := {| results := []; offset := 0 |} |})
    as [(st1 & ->) | ->]; discriminate.
Qed.

End Collector.

Lemma ceil_div_100 (n : nat) :
  n mod 100 <> 0 -> ceil_div n 100 = n / 100 + 1.
Proof.
  intros Hmod. unfold ceil_div.
  pose proof (Nat.div_mod_eq n 100) as Hn.
  pose proof (Nat.mod_upper_bound n 100) as Hlt.
  symmetry. apply Nat.div_unique with (r := n mod 100 - 1); lia.
Qed.

(** C2: on a playlist of N entries listed in pages of 100, the collector
    returns exactly the N entries, in order, after N/100 + 1 page requests;
    this is ceil(N/100) requests when N is not a multiple of 100.  The loop
    ends within N/100 + 1 turns, for every N (0, 1, 99, 100, 101 and 250
    among them). *)
Theorem C2_pagination {Svc L} (sp : Spotify Svc) (uri : string)
    (items : list pyval) (fuel : nat) (st : state Svc L) :
  serves_pages sp uri items ->
  List.length items / 100 < fuel ->
  exists st',
    get_all_tracks sp fuel uri st = Returned items st' /\
    locals st' = locals st /\
    page_requests (log st')
    = page_requests (log st)
      + (if (List.length items mod 100 =? 0)%nat
         then List.length items / 100 + 1
         else ceil_div (List.length items) 100).
Proof.
  intros Hsrv Hfuel.
  destruct (collect_loop_pages sp uri items Hsrv fuel
              {| client := client st; log := log st;
                 locals := {| results := []; offset := 0 |} |})
    as (st1 & Hrun & Hres & Hcount).
  { cbn [locals offset]. now rewrite Nat.sub_0_r. }
  cbn [locals offset results log] in Hres, Hcount.
  rewrite Nat.sub_0_r in Hcount. simpl in Hres.
  exists {| client := client st1; log := log st1; locals := locals st |}.
  split; [|split; [reflexivity|]].
  - rewrite (get_all_tracks_of_loop sp uri fuel st st1 Hrun).
    now rewrite Hres.
  - cbn [log]. rewrite Hcount.
    destruct (List.length items mod 100 =? 0)%nat eqn:Hmod; [reflexivity|].
    apply Nat.eqb_neq in Hmod. now rewrite ceil_div_100.
Qed.

Lemma catalog_serves_pages (items : list pyval) artists (uri : string) :
  serves_pages (catalog items artists) uri items.
Proof. intros off s. eexists. split; reflexivity. Qed.

Lemma C2_witness :
  serves_pages (catalog (numbered 250) []) "playlist" (numbered 250) /\
  List.length (numbered 250) / 100 < 3 /\
  collects 0 1 1 /\ collects 1 1 1 /\ collects 99 1 1 /\
  collects 100 2 2 /\ collects 101 2 2 /\ collects 250 3 3.
Proof.
  assert (run : forall n fuel requests,
             (List.length (numbered n) / 100 <? fuel)%nat = true ->
             (0 + (if (List.length (numbered n) mod 100 =? 0)%nat
                   then List.length (numbered n) / 100 + 1
                   else ceil_div (List.length (numbered n)) 100)
              =? requests)%nat = true ->
             collects n fuel requests).
  { intros n fuel requests Hfuel Hcount.
    destruct (C2_pagination (catalog (numbered n) []) "playlist"
                (numbered n) fuel (start 0)
                (catalog_serves_pages _ _ _)
                (proj1 (Nat.ltb_lt _ _) Hfuel))
      as (st' & Hrun & _ & Hreq).
    exists st'. split; [exact Hrun|].
    rewrite Hreq. apply Nat.eqb_eq. exact Hcount. }
  split; [apply catalog_serves_pages|].
  split; [apply Nat.ltb_lt; reflexivity|].
  repeat split; apply run; reflexivity.
Defined.

(** C3: no exception leaves the collector, whatever the service does; and
    when the page requests have been answered with full pages holding K
    entries in all and the next request raises, in the state the service is
    in at that moment, the collector prints the error, asks nothing more and
    returns exactly those K entries. *)
Theorem C3_failure_keeps_collected {Svc L} (sp : Spotify Svc) (uri : string)
    (pages : list (list pyval)) (fuel : nat) (st : state Svc L) :
  (forall fuel' e st', get_all_tracks sp fuel' uri st <> Raised e st') /\
  (forall (s s' : Svc) (e : exn),
     answers_in_turn sp uri 0 (client st) pages s ->
     sp_playlist_tracks sp uri (100 * List.length pages) s = (Raise e, s') ->
     List.length pages < fuel ->
     get_all_tracks sp fuel uri st
     = Returned (List.concat pages)
         {| client := s';
            log := log st ++ paced_requests uri 0 (List.length pages)
                   ++ [ApiPlaylistTracks uri (100 * List.length pages);
                       Print "Error fetching tracks: " e];
            locals := locals st |}).
Proof.
  split; [intros fuel'; apply get_all_tracks_never_raises|].
  intros s s' e Hturn Hfail Hfuel.
  set (st0 := {| client := client st; log := log st;
                 locals := {| results := []; offset := 0 |} |}).
  pose proof (collect_loop_in_turn sp uri pages 0
                (fuel - List.length pages) st0 s eq_refl Hturn) as Hloop.
  replace (List.length pages + (fuel - List.length pages)) with fuel
    in Hloop by lia.
  destruct (fuel - List.length pages) as [|rest] eqn:Hrest; [lia|].
  rewrite collect_loop_step in Hloop.
  cbn [Nat.add] in Hloop, Hfail.
  match type of Hloop with
  | _ = match collect_page sp uri ?st1 with _ => _ end =>
      rewrite (collect_page_raise sp uri st1 e s' Hfail) in Hloop
  end.
  rewrite (get_all_tracks_of_loop sp uri fuel st _ Hloop).
  cbn [locals log results client st0 offset app].
  now rewrite <- !app_assoc.
Qed.

Lemma C3_witness :
  answers_in_turn (hiccup (numbered 250) 1) "playlist" 0 0
    [firstn 100 (numbered 250)] 1 /\
  sp_playlist_tracks (hiccup (numbered 250) 1) "playlist" 100 1
  = (Raise (SpotifyException "connection reset"), 2) /\
  fst (sp_playlist_tracks (hiccup (numbered 250) 1) "playlist" 100 2)
  = Ok (page (numbered 250) 100) /\
  List.length [firstn 100 (numbered 250)] < 5 /\
  get_all_tracks (hiccup (numbered 250) 1) 5 "playlist" (start 0)
  = Returned (List.concat [firstn 100 (numbered 250)])
      {| client := 2;
         log := [] ++ [ApiPlaylistTracks "playlist" 0; Sleep]
                ++ [ApiPlaylistTracks "playlist" 100;
                    Print "Error fetching tracks: "
                          (SpotifyException "connection reset")];
         locals := tt |}.
Proof.
  assert (Hturn : answers_in_turn (hiccup (numbered 250) 1) "playlist" 0 0
                    [firstn 100 (numbered 250)] 1).
  { apply (answers_page _ _ 0 0
             [("items", PList (firstn 100 (skipn 0 (numbered 250))))]
             (firstn 100 (numbered 250)) 1 [] 1);
      [reflexivity | reflexivity | apply Nat.leb_le; reflexivity
      | apply answers_none]. }
  assert (Hfuel : List.length [firstn 100 (numbered 250)] < 5)
    by (apply Nat.ltb_lt; reflexivity).
  split; [exact Hturn|]. split; [reflexivity|]. split; [reflexivity|].
  split; [exact Hfuel|].
  exact (proj2 (C3_failure_keeps_collected (hiccup (numbered 250) 1)
                  "playlist" [firstn 100 (numbered 250)] 5 (start 0))
           1 2 (SpotifyException "connection reset") Hturn eq_refl Hfuel).
Defined.

(* ================================================================= *)
(** ** Reading a run backwards *)

Lemma bind_returned {S L A B} (m : M S L A) (k : A -> M S L B) st b st' :
  bind m k st = Returned b st' ->
  exists a st1, m st = Returned a st1 /\ k a st1 = Returned b st'.
Proof.
  unfold bind. destruct (m st) as [a st1|e st1|]; try discriminate.
  intros H. now exists a, st1.
Qed.

Lemma lift_returned {S L A} (r : result A) (st st' : state S L) a :
  lift r st = Returned a st' -> r = Ok a /\ st' = st.
Proof.
  destruct r as [x|e]; cbn; [|discriminate].
  intros H. injection H as <- <-. now split.
Qed.

(* ================================================================= *)
(** ** The track enricher *)

Section Enricher.
Context {Svc : Type}.
Variable sp : Spotify Svc.

Lemma genres_entry_eq (st : state Svc enricher) :
  genres_entry st
  = match artist_info (locals st) with
    | None => Raised (UnboundLocalError "artist_info") st
    | Some info =>
        if Py.truthy info then
          match Py.get info "genres" (PList []) with
          | Ok genres =>
              match Py.join ", " genres with
              | Ok joined => Returned (PStr joined) st
              | Raise e => Raised e st
              end
          | Raise e => Raised e st
          end
        else Returned (PStr "No Genres") st
    end.
Proof.
  unfold genres_entry, bind, gets, lift, ret, raise.
  destruct (artist_info (locals st)) as [info|]; [|reflexivity].
  destruct (Py.truthy info); [|reflexivity].
  destruct (Py.get info "genres" (PList [])) as [genres|e]; [|reflexivity].
  destruct (Py.join ", " genres); reflexivity.
Qed.

Lemma genres_entry_state (st st' : state Svc enricher) (v : pyval) :
  genres_entry st = Returned v st' -> st' = st.
Proof.
  rewrite genres_entry_eq.
  destruct (artist_info (locals st)) as [info|]; [|discriminate].
  destruct (Py.truthy info).
  - destruct (Py.get info "genres" (PList [])) as [genres|e]; [|discriminate].
    destruct (Py.join ", " genres); [|discriminate]. congruence.
  - congruence.
Qed.

(** What a row that [track_row] returns is made of. *)
Lemma track_row_inv (track : pyval) (st st' : state Svc enricher) (r : row) :
  track_row track st = Returned r st' ->
  st' = st /\
  Py.get track "popularity" (PInt 0) = Ok (Popularity r) /\
  external_url_entry track = Ok (External_URL r) /\
  genres_entry st = Returned (Genres r) st /\
  Release_Year r = release_year_of (Album_Release_Date r).
Proof.
  unfold track_row. intros H.
  repeat (apply bind_returned in H as (? & ? & Hstep & H);
          first [ apply lift_returned in Hstep as [? ->]
                | pose proof (genres_entry_state _ _ _ Hstep); subst ]).
  injection H as <- <-. cbn. repeat split; assumption.
Qed.

(** The artist request when it succeeds: [artist_info] is assigned. *)
Lemma lookup_artist_ok (track artists first id info : pyval) s'
    (st : state Svc enricher) :
  Py.getitem track "artists" = Ok artists ->
  Py.getitem0 artists = Ok first ->
  Py.getitem first "id" = Ok id ->
  sp_artist sp id (client st) = (Ok info, s') ->
  lookup_artist sp track st
  = Returned tt
      {| client := s';
         log := log st ++ [ApiArtist id];
         locals := {| artist_info := Some info;
                      tracks := tracks (locals st) |} |}.
Proof.
  intros Hartists Hfirst Hid Hreq.
  unfold lookup_artist, try_except, bind, request, modify, lift, ret, raise.
  rewrite Hartists. cbn beta iota. rewrite Hfirst. cbn beta iota.
  rewrite Hid. cbn beta iota. now rewrite Hreq.
Qed.

(** The artist request when it raises: the error is printed and
    [artist_info] keeps whatever it held, or stays without a value. *)
Lemma lookup_artist_raise (track artists first id : pyval) e s'
    (st : state Svc enricher) :
  Py.getitem track "artists" = Ok artists ->
  Py.getitem0 artists = Ok first ->
  Py.getitem first "id" = Ok id ->
  sp_artist sp id (client st) = (Raise e, s') ->
  lookup_artist sp track st
  = Returned tt
      {| client := s';
         log := (log st ++ [ApiArtist id])
                ++ [Print "Error fetching artist info: " e];
         locals := locals st |}.
Proof.
  intros Hartists Hfirst Hid Hreq.
  unfold lookup_artist, try_except, bind, request, modify, lift, ret, raise.
  rewrite Hartists. cbn beta iota. rewrite Hfirst. cbn beta iota.
  rewrite Hid. cbn beta iota. now rewrite Hreq.
Qed.

(** A track for which [enrich_item] returns has been given a row. *)
Lemma enrich_item_row (item track : pyval) (st st' : state Svc enricher) :
  Py.getitem item "track" = Ok track ->
  Py.truthy track = true ->
  enrich_item sp item st = Returned tt st' ->
  exists st1 r,
    lookup_artist sp track st = Returned tt st1 /\
    track_row track st1 = Returned r st1 /\
    tracks (locals st') = tracks (locals st1) ++ [r].
Proof.
  intros Htrack Htruthy H. unfold enrich_item in H.
  apply bind_returned in H as (t & st0 & Hstep & H).
  apply lift_returned in Hstep as [Heq ->].
  rewrite Htrack in Heq. injection Heq as <-.
  rewrite Htruthy in H. cbn [negb] in H.
  apply bind_returned in H as ([] & st1 & Hlookup & H).
  apply bind_returned in H as (r & st2 & Hrow & H).
  destruct (track_row_inv track st1 st2 r Hrow) as [-> _].
  exists st1, r. unfold modify in H. injection H as <-.
  repeat split; assumption.
Qed.

End Enricher.

Lemma join_strs_map (sep : string) (gs : list string) :
  Py.join_strs sep (map PStr gs) = Ok (String.concat sep gs).
Proof.
  induction gs as [|g gs IH]; [reflexivity|].
  destruct gs as [|g' gs]; [reflexivity|].
  change (map PStr (g :: g' :: gs)) with (PStr g :: map PStr (g' :: gs)).
  cbn [Py.join_strs]. cbn [map] in IH |- *. now rewrite IH.
Qed.

(** C4, as the code has it: for a track whose artist lookup succeeds, the
    genre field is decided by the artist record that came back.  When the
    record is empty (falsy) the field is the marker "No Genres".  When it
    is not empty the field is its genres joined with ", ": the text the
    join gives, which is the empty string when the artist has no genre or
    the record has no "genres" key at all. *)
Theorem C4_genres_field {Svc} (sp : Spotify Svc)
    (item track artists first id info : pyval) (s' : Svc)
    (st st' : state Svc enricher) :
  Py.getitem item "track" = Ok track ->
  Py.truthy track = true ->
  Py.getitem track "artists" = Ok artists ->
  Py.getitem0 artists = Ok first ->
  Py.getitem first "id" = Ok id ->
  sp_artist sp id (client st) = (Ok info, s') ->
  enrich_item sp item st = Returned tt st' ->
  exists r,
    tracks (locals st') = tracks (locals st) ++ [r] /\
    (Py.truthy info = false -> Genres r = PStr "No Genres") /\
    (forall d gs, info = PDict d ->
       Py.lookup "genres" d = Some (PList (map PStr gs)) ->
       Genres r = PStr (String.concat ", " gs)) /\
    (forall d, info = PDict d ->
       Py.lookup "genres" d = Some (PList []) -> Genres r = PStr "") /\
    (forall d, info = PDict d -> d <> [] ->
       Py.lookup "genres" d = None -> Genres r = PStr "") /\
    (Py.truthy info = true ->
     exists genres joined,
       Py.get info "genres" (PList []) = Ok genres /\
       Py.join ", " genres = Ok joined /\
       Genres r = PStr joined) /\
    (forall d gs, info = PDict d ->
       Py.lookup "genres" d = Some (PList (map PStr gs)) ->
       (Genres r = PStr "No Genres"
        <-> String.concat ", " gs = "No Genres")).
Proof.
  intros Htrack Htruthy Hartists Hfirst Hid Hreq Hrun.
  destruct (enrich_item_row sp item track st st' Htrack Htruthy Hrun)
    as (st1 & r & Hlookup & Hrow & Htracks).
  rewrite (lookup_artist_ok sp track artists first id info s' st
             Hartists Hfirst Hid Hreq) in Hlookup.
  injection Hlookup as <-.
  destruct (track_row_inv track _ _ r Hrow) as (_ & _ & _ & Hgenres & _).
  rewrite genres_entry_eq in Hgenres. cbn [locals artist_info] in Hgenres.
  exists r. split; [exact Htracks|].
  assert (Hjoined : forall d gs, info = PDict d ->
            Py.lookup "genres" d = Some (PList (map PStr gs)) ->
            Genres r = PStr (String.concat ", " gs)).
  { intros d gs -> Hd.
    destruct d as [|kv d]; [discriminate|].
    cbn [Py.truthy Py.get] in Hgenres. rewrite Hd in Hgenres.
    unfold Py.join in Hgenres. cbn [Py.iterate] in Hgenres.
    rewrite join_strs_map in Hgenres. congruence. }
  split; [|split; [|split; [|split; [|split]]]].
  - intros Hfalsy. rewrite Hfalsy in Hgenres. congruence.
  - exact Hjoined.
  - intros d Hinfo Hd. exact (Hjoined d [] Hinfo Hd).
  - intros d -> Hd Hnone.
    destruct d as [|kv d]; [now destruct Hd|].
    cbn [Py.truthy Py.get] in Hgenres.
    rewrite Hnone in Hgenres. cbn in Hgenres. congruence.
  - intros Hinfo. rewrite Hinfo in Hgenres.
    destruct (Py.get info "genres" (PList [])) as [genres|e];
      [|discriminate].
    destruct (Py.join ", " genres) as [joined|e] eqn:Hjoin; [|discriminate].
    exists genres, joined. repeat split; congruence.
  - intros d gs Hinfo Hd. rewrite (Hjoined d gs Hinfo Hd).
    split; congruence.
Qed.

Lemma C4_witness :
  (exists st' r,
     enrich_item (catalog [demo_item] [("a1", rock_artist)]) demo_item
       (enriching 0)
     = Returned tt st' /\
     tracks (locals st') = [r] /\
     Genres r = PStr "rock, pop") /\
  (exists st' r,
     enrich_item (catalog [demo_item] [("a1", PDict [("id", PStr "a1")])])
       demo_item (enriching 0)
     = Returned tt st' /\
     tracks (locals st') = [r] /\
     Genres r = PStr "").
Proof.
  split.
  - eexists.
    destruct (C4_genres_field (catalog [demo_item] [("a1", rock_artist)])
                demo_item demo_track
                (PList [PDict [("id", PStr "a1"); ("name", PStr "The Band")]])
                (PDict [("id", PStr "a1"); ("name", PStr "The Band")])
                (PStr "a1") rock_artist 1 (enriching 0) _
                eq_refl eq_refl eq_refl eq_refl eq_refl eq_refl eq_refl)
      as (r & Htracks & _ & Hjoined & _).
    exists r. split; [reflexivity|]. split; [exact Htracks|].
    exact (Hjoined _ ["rock"; "pop"] eq_refl eq_refl).
  - eexists.
    destruct (C4_genres_field
                (catalog [demo_item] [("a1", PDict [("id", PStr "a1")])])
                demo_item demo_track
                (PList [PDict [("id", PStr "a1"); ("name", PStr "The Band")]])
                (PDict [("id", PStr "a1"); ("name", PStr "The Band")])
                (PStr "a1") (PDict [("id", PStr "a1")]) 1 (enriching 0) _
                eq_refl eq_refl eq_refl eq_refl eq_refl eq_refl eq_refl)
      as (r & Htracks & _ & _ & _ & Hmissing & _).
    exists r. split; [reflexivity|]. split; [exact Htracks|].
    exact (Hmissing _ eq_refl ltac:(discriminate) eq_refl).
Defined.

(** C4 as stated fails: an artist that is found and has no genre gives the
    empty string, not "No Genres". *)
Lemma C4_counterexample :
  sp_artist (catalog [demo_item] [("a1", quiet_artist)]) (PStr "a1") 0
  = (Ok quiet_artist, 1) /\
  map Genres
    (rows_of (enrich_item (catalog [demo_item] [("a1", quiet_artist)])
                demo_item (enriching 0)))
  = [PStr ""] /\
  PStr "" <> PStr "No Genres".
Proof.
  split; [reflexivity|]. split; [vm_compute; reflexivity | discriminate].
Qed.

Lemma lookup_artist_keeps_tracks {Svc} (sp : Spotify Svc) (track : pyval)
    (st st1 : state Svc enricher) :
  lookup_artist sp track st = Returned tt st1 ->
  tracks (locals st1) = tracks (locals st).
Proof.
  unfold lookup_artist, try_except, bind, request, modify, emit, lift, ret,
    raise.
  destruct (Py.getitem track "artists") as [artists|e]; cbn beta iota;
    [|intros H; injection H as <-; reflexivity].
  destruct (Py.getitem0 artists) as [first|e]; cbn beta iota;
    [|intros H; injection H as <-; reflexivity].
  destruct (Py.getitem first "id") as [id|e]; cbn beta iota;
    [|intros H; injection H as <-; reflexivity].
  destruct (sp_artist sp id (client st)) as [[info|e] s'];
    intros H; injection H as <-; reflexivity.
Qed.

Lemma truthy_dict (d : list (string * pyval)) :
  d <> [] -> Py.truthy (PDict d) = true.
Proof. destruct d; [contradiction | reflexivity]. Qed.

(** A track that is a non-empty dict and for which [enrich_item] returns:
    its row is the new last one. *)
Lemma enrich_item_appends {Svc} (sp : Spotify Svc) (item : pyval) d
    (st st' : state Svc enricher) :
  Py.getitem item "track" = Ok (PDict d) ->
  d <> [] ->
  enrich_item sp item st = Returned tt st' ->
  exists (st1 : state Svc enricher) r,
    track_row (PDict d) st1 = Returned r st1 /\
    tracks (locals st') = tracks (locals st) ++ [r].
Proof.
  intros Htrack Hd Hrun.
  destruct (enrich_item_row sp item (PDict d) st st' Htrack
              (truthy_dict d Hd) Hrun)
    as (st1 & r & Hlookup & Hrow & Htracks).
  exists st1, r. split; [exact Hrow|].
  now rewrite Htracks, (lookup_artist_keeps_tracks sp _ _ _ Hlookup).
Qed.

(* ================================================================= *)
(** ** The external URL *)

(** C10, as the code has it: a track for which a row is made has an
    [external_urls] entry; when that entry is null or an empty mapping the
    row's External URL is "No URL", when it is a non-empty mapping without
    the key "spotify" it is [None], and otherwise it is what "spotify"
    maps to. *)
Theorem C10_external_url {Svc} (sp : Spotify Svc) (item : pyval) d
    (st st' : state Svc enricher) :
  Py.getitem item "track" = Ok (PDict d) ->
  d <> [] ->
  enrich_item sp item st = Returned tt st' ->
  exists r urls,
    tracks (locals st') = tracks (locals st) ++ [r] /\
    Py.lookup "external_urls" d = Some urls /\
    (Py.truthy urls = false -> External_URL r = PStr "No URL") /\
    (forall u, urls = PDict u -> u <> [] -> Py.lookup "spotify" u = None ->
       External_URL r = PNone) /\
    (forall u v, urls = PDict u -> Py.lookup "spotify" u = Some v ->
       External_URL r = v).
Proof.
  intros Htrack Hd Hrun.
  destruct (enrich_item_appends sp item d st st' Htrack Hd Hrun)
    as (st1 & r & Hrow & Htracks).
  destruct (track_row_inv _ _ _ r Hrow) as (_ & _ & Hurl & _).
  unfold external_url_entry in Hurl. cbn [Py.getitem] in Hurl.
  destruct (Py.lookup "external_urls" d) as [urls|]; [|discriminate].
  exists r, urls. split; [exact Htracks|]. split; [reflexivity|].
  split; [|split].
  - intros Hfalsy. rewrite Hfalsy in Hurl. congruence.
  - intros u -> Hu Hnone. rewrite (truthy_dict u Hu) in Hurl.
    cbn [Py.get] in Hurl. rewrite Hnone in Hurl. congruence.
  - intros u v -> Hv.
    assert (Hu : u <> []) by (destruct u; [discriminate | discriminate]).
    rewrite (truthy_dict u Hu) in Hurl.
    cbn [Py.get] in Hurl. rewrite Hv in Hurl. congruence.
Qed.

Lemma C10_witness :
  (exists st' r,
     enrich_item (catalog [] [("a1", rock_artist)])
       (an_item (a_track_with_urls (Some (PDict [("apple", PStr "x")]))))
       (enriching 0)
     = Returned tt st' /\
     tracks (locals st') = [r] /\ External_URL r = PNone) /\
  (exists st' r,
     enrich_item (catalog [] [("a1", rock_artist)])
       (an_item (a_track_with_urls (Some (PDict []))))
       (enriching 0)
     = Returned tt st' /\
     tracks (locals st') = [r] /\ External_URL r = PStr "No URL").
Proof.
  split.
  - eexists.
    destruct (C10_external_url (catalog [] [("a1", rock_artist)])
                (an_item (a_track_with_urls (Some (PDict [("apple", PStr "x")]))))
                _ (enriching 0) _ eq_refl ltac:(discriminate) eq_refl)
      as (r & urls & Htracks & Hurls & _ & Hnone & _).
    exists r. split; [reflexivity|]. split; [exact Htracks|].
    injection Hurls as <-.
    exact (Hnone _ eq_refl ltac:(discriminate) eq_refl).
  - eexists.
    destruct (C10_external_url (catalog [] [("a1", rock_artist)])
                (an_item (a_track_with_urls (Some (PDict []))))
                _ (enriching 0) _ eq_refl ltac:(discriminate) eq_refl)
      as (r & urls & Htracks & Hurls & Hfalsy & _).
    exists r. split; [reflexivity|]. split; [exact Htracks|].
    injection Hurls as <-.
    exact (Hfalsy eq_refl).
Defined.

(** C10 as stated fails: for a track without any [external_urls] entry the
    subscript raises, no row is made and the error leaves the loop. *)
Lemma C10_counterexample :
  Py.get (a_track_with_urls None) "external_urls" (PStr "absent")
  = Ok (PStr "absent") /\
  error_of (enrich_item (catalog [] [("a1", rock_artist)])
              (an_item (a_track_with_urls None)) (enriching 0))
  = Some (KeyError "external_urls") /\
  rows_of (enrich_item (catalog [] [("a1", rock_artist)])
             (an_item (a_track_with_urls None)) (enriching 0))
  = [].
Proof.
  split; [reflexivity|]. split; vm_compute; reflexivity.
Qed.

(* ================================================================= *)
(** ** The empty table *)

(** [main] on a link that passes the screen: what [get_playlist_data]
    returned is shown, and an exception raised on the way, while the data
    is fetched or while it is drawn, ends in an error message. *)
Lemma main_dispatch {Svc} (sp : Spotify Svc) (pd : list pyval -> list pyval)
    (draws : widget -> option exn)
    (fuel : nat) (playlist_link : string) (st : state Svc unit) :
  Py.contains "spotify.com/playlist/" playlist_link = true ->
  main sp pd draws fuel playlist_link st
  = match get_playlist_data sp pd fuel playlist_link st with
    | Returned got st1 =>
        match show draws got st1 with
        | Raised e st2 => emit (StError "An error occurred: " (Some e)) st2
        | o => o
        end
    | Raised e st1 => emit (StError "An error occurred: " (Some e)) st1
    | OutOfFuel => OutOfFuel
    end.
Proof.
  intros Hlink. unfold main. rewrite Hlink. cbn [negb].
  rewrite andb_false_r.
  destruct playlist_link as [|c link]; [discriminate Hlink|].
  cbn [Py.truthy String.eqb negb]. unfold try_except, bind.
  destruct (get_playlist_data sp pd fuel (String c link) st)
    as [got st1|e st1|]; reflexivity.
Qed.

(** C5, as the code has it: when enrichment produced no row the assembler
    shows an error message and returns the metadata with an empty table;
    the caller renders a table, by [visualize_data], only when it is
    present and not empty, and answers an empty table exactly as it answers
    an absent one, with the error message "No data to visualize.". *)
Theorem C5_empty_table {Svc L} (sp : Spotify Svc) (pd : list pyval -> list pyval)
    (draws : widget -> option exn) (meta : metadata) (st : state Svc L) :
  assemble pd meta [] st
  = Returned (Some meta, Some [])
      {| client := client st;
         log := log st
                ++ [StError "No track data available to create DataFrame." None];
         locals := locals st |} /\
  (forall m,
     show draws (m, Some []) st = show draws (m, None) st /\
     show draws (m, None) st
     = Returned tt
         {| client := client st;
            log := log st ++ [StError "No data to visualize." None];
            locals := locals st |}) /\
  (forall m r rows,
     show draws (m, Some (r :: rows)) st
     = visualize_data draws m (r :: rows) st) /\
  (forall fuel playlist_link (st0 : state Svc unit),
     Py.contains "spotify.com/playlist/" playlist_link = true ->
     main sp pd draws fuel playlist_link st0
     = match get_playlist_data sp pd fuel playlist_link st0 with
       | Returned got st1 =>
           match show draws got st1 with
           | Raised e st2 => emit (StError "An error occurred: " (Some e)) st2
           | o => o
           end
       | Raised e st1 => emit (StError "An error occurred: " (Some e)) st1
       | OutOfFuel => OutOfFuel
       end).
Proof.
  split; [reflexivity|]. split; [intros m; split; reflexivity|].
  split; [reflexivity|].
  intros fuel playlist_link st0. apply main_dispatch.
Qed.

Lemma C5_witness :
  Py.contains "spotify.com/playlist/" "https://open.spotify.com/playlist/abc"
  = true /\
  main (catalog [an_item PNone] []) numeric_already every_widget_drawn 5
    "https://open.spotify.com/playlist/abc" (start 0)
  = Returned tt
      {| client := 2;
         log := [ApiPlaylist "abc"; ApiPlaylistTracks "abc" 0; Sleep;
                 StError "No track data available to create DataFrame." None;
                 StError "No data to visualize." None];
         locals := tt |}.
Proof.
  split; [reflexivity|].
  rewrite (proj2 (proj2 (proj2
             (C5_empty_table (catalog [an_item PNone] []) numeric_already
           every_widget_drawn
                {| Name := PNone; Description := PNone; Thumbnail := PNone;
                   Likes := PNone; Total_Tracks := PNone |} (start 0))))
             5 "https://open.spotify.com/playlist/abc" (start 0) eq_refl).
  reflexivity.
Defined.

(** C5 as stated fails: a playlist whose only entry is a removed track
    gives a table that is present and empty, and the caller shows the error
    "No data to visualize." and renders nothing. *)
Lemma C5_counterexample :
  table_of (get_playlist_data (catalog [an_item PNone] []) numeric_already 5
              "https://open.spotify.com/playlist/abc" (start 0))
  = Some [] /\
  log_of (main (catalog [an_item PNone] []) numeric_already every_widget_drawn 5
            "https://open.spotify.com/playlist/abc" (start 0))
  = [ApiPlaylist "abc"; ApiPlaylistTracks "abc" 0; Sleep;
     StError "No track data available to create DataFrame." None;
     StError "No data to visualize." None] /\
  existsb is_draw
    (log_of (main (catalog [an_item PNone] []) numeric_already every_widget_drawn 5
               "https://open.spotify.com/playlist/abc" (start 0)))
  = false.
Proof.
  split; [|split]; vm_compute; reflexivity.
Qed.

(* ================================================================= *)
(** ** A failed artist lookup *)

(** After an artist request that raised, a row is made only if an earlier
    track left a value in [artist_info], and the row's genres are read from
    that earlier artist. *)
Lemma failed_lookup_row {Svc} (sp : Spotify Svc)
    (item track artists first id : pyval) e s'
    (st st' : state Svc enricher) :
  Py.getitem item "track" = Ok track ->
  Py.truthy track = true ->
  Py.getitem track "artists" = Ok artists ->
  Py.getitem0 artists = Ok first ->
  Py.getitem first "id" = Ok id ->
  sp_artist sp id (client st) = (Raise e, s') ->
  enrich_item sp item st = Returned tt st' ->
  exists earlier r,
    artist_info (locals st) = Some earlier /\
    tracks (locals st') = tracks (locals st) ++ [r] /\
    genres_entry st = Returned (Genres r) st.
Proof.
  intros Htrack Htruthy Hartists Hfirst Hid Hreq Hrun.
  destruct (enrich_item_row sp item track st st' Htrack Htruthy Hrun)
    as (st1 & r & Hlookup & Hrow & Htracks).
  rewrite (lookup_artist_raise sp track artists first id e s' st
             Hartists Hfirst Hid Hreq) in Hlookup.
  injection Hlookup as <-.
  destruct (track_row_inv track _ _ r Hrow) as (_ & _ & _ & Hgenres & _).
  rewrite genres_entry_eq in Hgenres |- *.
  cbn [locals] in Hgenres, Htracks.
  destruct (artist_info (locals st)) as [earlier|]; [|discriminate].
  exists earlier, r. split; [reflexivity|]. split; [exact Htracks|].
  destruct (Py.truthy earlier).
  - destruct (Py.get earlier "genres" (PList [])) as [g|]; [|discriminate].
    destruct (Py.join ", " g); [|discriminate]. congruence.
  - congruence.
Qed.

(** C1 on the code: when the artist request of the first track raises,
    [artist_info] has no value, reading it raises [UnboundLocalError], the
    whole of [get_playlist_data] is aborted and [main] shows an error
    instead of a table; when the request of a later track raises, the track
    is kept but its genres are those of the artist looked up before, not
    "No Genres". *)
Theorem C1_failed_lookup_on_the_code :
  error_of (get_playlist_data (catalog [demo_item] []) numeric_already 5
              "https://open.spotify.com/playlist/abc" (start 0))
  = Some (UnboundLocalError "artist_info") /\
  log_of (main (catalog [demo_item] []) numeric_already every_widget_drawn 5
            "https://open.spotify.com/playlist/abc" (start 0))
  = [ApiPlaylist "abc"; ApiPlaylistTracks "abc" 0; Sleep;
     ApiArtist (PStr "a1");
     Print "Error fetching artist info: " (SpotifyException "artist not found");
     StError "An error occurred: " (Some (UnboundLocalError "artist_info"))] /\
  option_map (map (fun r => (Track_ID r, Genres r)))
    (table_of
       (get_playlist_data
          (catalog [demo_item;
                    an_item (a_track "t2" "Other" "a2" "2005-03-04" (PInt 10))]
                   [("a1", rock_artist)])
          numeric_already 5 "https://open.spotify.com/playlist/abc" (start 0)))
  = Some [(PStr "t1", PStr "rock, pop"); (PStr "t2", PStr "rock, pop")] /\
  sp_artist
    (catalog [demo_item;
              an_item (a_track "t2" "Other" "a2" "2005-03-04" (PInt 10))]
             [("a1", rock_artist)]) (PStr "a2") 3
  = (Raise (SpotifyException "artist not found"), 4).
Proof.
  split; [|split; [|split]]; vm_compute; reflexivity.
Qed.

(* ================================================================= *)
(** ** The collector: offsets, pauses and the ways the loop ends *)

Lemma paced_requests_snoc (uri : string) (n off : nat) :
  paced_requests uri off (S n)
  = paced_requests uri off n ++ [ApiPlaylistTracks uri (off + 100 * n); Sleep].
Proof.
  revert off. induction n as [|n IH]; intros off.
  - cbn. now rewrite Nat.add_0_r.
  - change (paced_requests uri off (S (S n)))
      with (ApiPlaylistTracks uri off :: Sleep
            :: paced_requests uri (off + 100) (S n)).
    rewrite IH. cbn [paced_requests app].
    now replace (off + 100 + 100 * n) with (off + 100 * S n) by lia.
Qed.

Section Endings.
Context {Svc : Type}.
Variable sp : Spotify Svc.
Variable uri : string.

Ltac run_turn :=
  unfold collect_page, try_except, bind, gets, request, lift, ret, raise,
    emit, modify.

(** A turn whose response is absent or has no "items": the loop stops
    without a pause and without a message. *)
Lemma collect_page_lacks_items (st : state Svc collector) response s' :
  sp_playlist_tracks sp uri (offset (locals st)) (client st)
    = (Ok response, s') ->
  lacks_items response ->
  collect_page sp uri st
  = Returned Break
      {| client := s';
         log := log st ++ [ApiPlaylistTracks uri (offset (locals st))];
         locals := locals st |}.
Proof.
  intros Hreq Hlacks. run_turn. rewrite Hreq.
  destruct (Py.truthy response) eqn:Htruthy; cbn [negb]; [|reflexivity].
  destruct Hlacks as [Hfalse | Hin]; [congruence|].
  now rewrite Hin.
Qed.

(** A turn whose "items" entry cannot be iterated over: the exception is
    caught and printed, nothing is added. *)
Lemma collect_page_bad_items (st : state Svc collector) d items e s' :
  sp_playlist_tracks sp uri (offset (locals st)) (client st)
    = (Ok (PDict d), s') ->
  Py.lookup "items" d = Some items ->
  Py.iterate items = Raise e ->
  collect_page sp uri st
  = Returned Break
      {| client := s';
         log := (log st ++ [ApiPlaylistTracks uri (offset (locals st))])
                ++ [Print "Error fetching tracks: " e];
         locals := locals st |}.
Proof.
  intros Hreq Hitems Hiter. run_turn. rewrite Hreq.
  destruct d as [|kv d]; [discriminate|].
  cbn [Py.truthy negb Py.str_in Py.getitem].
  rewrite Hitems. cbn beta iota. cbn [negb]. cbn beta iota.
  now rewrite Hiter.
Qed.

(** Full pages in a row: the loop takes one turn for each, asks at
    offsets 100 apart and pauses after each answer. *)
Lemma collect_loop_full_pages (pages : list (list pyval)) :
  forall (i fuel : nat) (st : state Svc collector),
    offset (locals st) = 100 * i ->
    (forall j p s, nth_error pages j = Some p ->
       100 <= List.length p /\
       answers_items (fst (sp_playlist_tracks sp uri (100 * (i + j)) s)) p) ->
    exists s',
      collect_loop sp (List.length pages + fuel) uri st
      = collect_loop sp fuel uri
          {| client := s';
             log := log st ++ paced_requests uri (100 * i) (List.length pages);
             locals := {| results := results (locals st) ++ List.concat pages;
                          offset := 100 * (i + List.length pages) |} |}.
Proof.
  induction pages as [|p pages IH]; intros i fuel st Hoff Hpages.
  - exists (client st). cbn [List.length List.concat paced_requests Nat.add].
    rewrite !app_nil_r, Nat.add_0_r, <- Hoff.
    now destruct st as [s l [res off]].
  - cbn [List.length Nat.add]. rewrite collect_loop_step.
    destruct (sp_playlist_tracks sp uri (offset (locals st)) (client st))
      as [r s1] eqn:Hreq.
    destruct (Hpages 0 p (client st) eq_refl) as [Hlen (d & Hp & Hitems)].
    rewrite Nat.add_0_r, <- Hoff, Hreq in Hp. cbn [fst] in Hp. subst r.
    rewrite (collect_page_items sp uri st d p s1 Hreq Hitems).
    assert (Hfull : (List.length p <? 100)%nat = false)
      by (apply Nat.ltb_ge; exact Hlen).
    rewrite Hfull.
    match goal with
    | |- context [collect_loop sp (List.length pages + fuel) uri ?st1] =>
        destruct (IH (S i) fuel st1) as (s' & Hrun)
    end.
    + cbn [locals offset]. lia.
    + intros j q s Hq. specialize (Hpages (S j) q s Hq).
      now replace (100 * (S i + j)) with (100 * (i + S j)) by lia.
    + exists s'. rewrite Hrun. cbn [locals log results offset].
      rewrite Hoff.
      replace (100 * (S i + List.length pages))
        with (100 * (i + S (List.length pages))) by lia.
      replace (100 * S i) with (100 * i + 100) by lia.
      cbn [paced_requests List.concat].
      now rewrite <- !app_assoc.
Qed.

Lemma serves_full_from_0 (pages : list (list pyval)) :
  serves_full sp uri pages ->
  forall j p s, nth_error pages j = Some p ->
    100 <= List.length p /\
    answers_items (fst (sp_playlist_tracks sp uri (100 * (0 + j)) s)) p.
Proof. intros H j p s Hp. exact (H j p s Hp). Qed.

(** The collector on full pages followed by one more turn, whose outcome
    from the state reached is known. *)
Lemma get_all_tracks_last_turn {L} (pages : list (list pyval)) (fuel : nat)
    (st : state Svc L) :
  serves_full sp uri pages ->
  List.length pages < fuel ->
  exists s',
    forall st1,
      collect_page sp uri
        {| client := s';
           log := log st ++ paced_requests uri 0 (List.length pages);
           locals := {| results := List.concat pages;
                        offset := 100 * List.length pages |} |}
      = Returned Break st1 ->
      get_all_tracks sp fuel uri st
      = Returned (results (locals st1))
          {| client := client st1; log := log st1; locals := locals st |}.
Proof.
  intros Hpages Hfuel.
  destruct (collect_loop_full_pages pages 0 (fuel - List.length pages)
              {| client := client st; log := log st;
                 locals := {| results := []; offset := 0 |} |}
              eq_refl (serves_full_from_0 pages Hpages)) as (s' & Hrun).
  exists s'. intros st1 Hturn.
  apply get_all_tracks_of_loop.
  replace fuel with (List.length pages + (fuel - List.length pages)) by lia.
  rewrite Hrun. cbn [locals log results].
  change (100 * 0) with 0. change (0 + List.length pages) with (List.length pages).
  change ([] ++ List.concat pages) with (List.concat pages).
  destruct (fuel - List.length pages) as [|rest] eqn:Hrest; [lia|].
  rewrite collect_loop_step. now rewrite Hturn.
Qed.

End Endings.

Lemma scripted_serves_full (pages : list (list pyval)) (last : result pyval)
    (uri : string) :
  Forall (fun p => 100 <= List.length p) pages ->
  serves_full (scripted pages last) uri pages.
Proof.
  intros Hfull i p s Hp. split.
  - rewrite Forall_forall in Hfull. apply Hfull.
    eapply nth_error_In; eassumption.
  - unfold scripted, service. cbn [sp_playlist_tracks fst].
    rewrite (Nat.mul_comm 100 i), Nat.div_mul, Hp by lia.
    eexists. split; reflexivity.
Qed.

Lemma scripted_last (pages : list (list pyval)) (last : result pyval)
    (uri : string) (s : nat) :
  sp_playlist_tracks (scripted pages last) uri (100 * List.length pages) s
  = (last, S s).
Proof.
  unfold scripted, service. cbn [sp_playlist_tracks].
  rewrite (Nat.mul_comm 100 (List.length pages)), Nat.div_mul by lia.
  now rewrite (proj2 (nth_error_None pages (List.length pages))) by lia.
Qed.

(** X1: when the service answers pages of 100 entries or more and then a
    page of fewer than 100, [get_all_tracks] asks at the offsets 0, 100,
    200, ... in this order, pauses after each answer, never asks beyond the
    short page, and returns the entries of all these pages in the order
    received. *)
Theorem get_all_tracks_offsets_and_pauses {Svc L} (sp : Spotify Svc)
    (uri : string) (pages : list (list pyval)) (p : list pyval) (fuel : nat)
    (st : state Svc L) :
  serves_full sp uri pages ->
  (forall s,
     answers_items
       (fst (sp_playlist_tracks sp uri (100 * List.length pages) s)) p) ->
  List.length p < 100 ->
  List.length pages < fuel ->
  exists s',
    get_all_tracks sp fuel uri st
    = Returned (List.concat pages ++ p)
        {| client := s';
           log := log st ++ paced_requests uri 0 (S (List.length pages));
           locals := locals st |}.
Proof.
  intros Hpages Hshort Hlen Hfuel.
  destruct (get_all_tracks_last_turn sp uri pages fuel st Hpages Hfuel)
    as (s0 & Hlast).
  match type of Hlast with
  | forall st1, collect_page _ _ ?x = _ -> _ => set (st0 := x) in *
  end.
  destruct (sp_playlist_tracks sp uri (offset (locals st0)) (client st0))
    as [r s1] eqn:Hreq.
  destruct (Hshort s0) as (d & Hp & Hitems).
  change (sp_playlist_tracks sp uri (100 * List.length pages) s0)
    with (sp_playlist_tracks sp uri (offset (locals st0)) (client st0)) in Hp.
  rewrite Hreq in Hp. cbn [fst] in Hp. subst r.
  pose proof (collect_page_items sp uri st0 d p s1 Hreq Hitems) as Hturn.
  apply Nat.ltb_lt in Hlen. rewrite Hlen in Hturn.
  exists s1. rewrite (Hlast _ Hturn).
  cbn [locals log results client st0 offset].
  rewrite paced_requests_snoc, <- !app_assoc. reflexivity.
Qed.

Lemma get_all_tracks_offsets_and_pauses_witness :
  serves_full (scripted [numbered 100; numbered 100]
                 (Ok (PDict [("items", PList (numbered 7))])))
    "playlist" [numbered 100; numbered 100] /\
  List.length (numbered 7) < 100 /\
  List.length [numbered 100; numbered 100] < 5 /\
  exists s',
    get_all_tracks (scripted [numbered 100; numbered 100]
                      (Ok (PDict [("items", PList (numbered 7))])))
      5 "playlist" (start 0)
    = Returned (List.concat [numbered 100; numbered 100] ++ numbered 7)
        {| client := s';
           log := [] ++ [ApiPlaylistTracks "playlist" 0; Sleep;
                         ApiPlaylistTracks "playlist" 100; Sleep;
                         ApiPlaylistTracks "playlist" 200; Sleep];
           locals := tt |}.
Proof.
  assert (Hfull : serves_full
                    (scripted [numbered 100; numbered 100]
                       (Ok (PDict [("items", PList (numbered 7))])))
                    "playlist" [numbered 100; numbered 100]).
  { apply scripted_serves_full.
    repeat constructor; apply Nat.leb_le; reflexivity. }
  assert (Hlen : List.length (numbered 7) < 100)
    by (apply Nat.ltb_lt; reflexivity).
  assert (Hfuel : List.length [numbered 100; numbered 100] < 5)
    by (apply Nat.ltb_lt; reflexivity).
  split; [exact Hfull|]. split; [exact Hlen|]. split; [exact Hfuel|].
  apply (get_all_tracks_offsets_and_pauses
           (scripted [numbered 100; numbered 100]
              (Ok (PDict [("items", PList (numbered 7))])))
           "playlist" [numbered 100; numbered 100] (numbered 7) 5 (start 0)
           Hfull);
    [|exact Hlen|exact Hfuel].
  intros s. rewrite scripted_last. eexists. split; reflexivity.
Defined.

(** X2: when, after full pages, the answer is absent (None, or anything
    falsy) or has no "items", [get_all_tracks] stops there: it returns the
    entries collected so far, and the last request is followed by no pause
    and no message. *)
Theorem get_all_tracks_stops_without_items {Svc L} (sp : Spotify Svc)
    (uri : string) (pages : list (list pyval)) (response : pyval)
    (fuel : nat) (st : state Svc L) :
  serves_full sp uri pages ->
  (forall s,
     fst (sp_playlist_tracks sp uri (100 * List.length pages) s)
     = Ok response) ->
  lacks_items response ->
  List.length pages < fuel ->
  exists s',
    get_all_tracks sp fuel uri st
    = Returned (List.concat pages)
        {| client := s';
           log := log st ++ paced_requests uri 0 (List.length pages)
                  ++ [ApiPlaylistTracks uri (100 * List.length pages)];
           locals := locals st |}.
Proof.
  intros Hpages Hresp Hlacks Hfuel.
  destruct (get_all_tracks_last_turn sp uri pages fuel st Hpages Hfuel)
    as (s0 & Hlast).
  match type of Hlast with
  | forall st1, collect_page _ _ ?x = _ -> _ => set (st0 := x) in *
  end.
  destruct (sp_playlist_tracks sp uri (offset (locals st0)) (client st0))
    as [r s1] eqn:Hreq.
  pose proof (Hresp s0) as Hr.
  change (sp_playlist_tracks sp uri (100 * List.length pages) s0)
    with (sp_playlist_tracks sp uri (offset (locals st0)) (client st0)) in Hr.
  rewrite Hreq in Hr. cbn [fst] in Hr. subst r.
  pose proof (collect_page_lacks_items sp uri st0 response s1 Hreq Hlacks)
    as Hturn.
  exists s1. rewrite (Hlast _ Hturn). cbn [locals log results client st0 offset].
  now rewrite <- app_assoc.
Qed.

Lemma get_all_tracks_stops_without_items_witness :
  serves_full (scripted [numbered 100] (Ok (PDict [("error", PStr "gone")])))
    "playlist" [numbered 100] /\
  lacks_items (PDict [("error", PStr "gone")]) /\
  List.length [numbered 100] < 5 /\
  exists s',
    get_all_tracks (scripted [numbered 100]
                      (Ok (PDict [("error", PStr "gone")])))
      5 "playlist" (start 0)
    = Returned (List.concat [numbered 100])
        {| client := s';
           log := [] ++ [ApiPlaylistTracks "playlist" 0; Sleep]
                  ++ [ApiPlaylistTracks "playlist" 100];
           locals := tt |}.
Proof.
  assert (Hfull : serves_full
                    (scripted [numbered 100]
                       (Ok (PDict [("error", PStr "gone")])))
                    "playlist" [numbered 100]).
  { apply scripted_serves_full.
    repeat constructor; apply Nat.leb_le; reflexivity. }
  assert (Hlacks : lacks_items (PDict [("error", PStr "gone")]))
    by (right; reflexivity).
  assert (Hfuel : List.length [numbered 100] < 5)
    by (apply Nat.ltb_lt; reflexivity).
  split; [exact Hfull|]. split; [exact Hlacks|]. split; [exact Hfuel|].
  apply (get_all_tracks_stops_without_items
           (scripted [numbered 100] (Ok (PDict [("error", PStr "gone")])))
           "playlist" [numbered 100] (PDict [("error", PStr "gone")]) 5
           (start 0) Hfull);
    [|exact Hlacks|exact Hfuel].
  intros s. now rewrite scripted_last.
Defined.

(** X3: when, after full pages, the answer has an "items" entry that
    cannot be iterated over (null, a number, a boolean), the exception is
    caught: [get_all_tracks] prints it with "Error fetching tracks: " and
    returns the entries collected so far. *)
Theorem get_all_tracks_bad_items {Svc L} (sp : Spotify Svc)
    (uri : string) (pages : list (list pyval)) d (items : pyval) (e : exn)
    (fuel : nat) (st : state Svc L) :
  serves_full sp uri pages ->
  (forall s,
     fst (sp_playlist_tracks sp uri (100 * List.length pages) s)
     = Ok (PDict d)) ->
  Py.lookup "items" d = Some items ->
  Py.iterate items = Raise e ->
  List.length pages < fuel ->
  exists s',
    get_all_tracks sp fuel uri st
    = Returned (List.concat pages)
        {| client := s';
           log := log st ++ paced_requests uri 0 (List.length pages)
                  ++ [ApiPlaylistTracks uri (100 * List.length pages);
                      Print "Error fetching tracks: " e];
           locals := locals st |}.
Proof.
  intros Hpages Hresp Hitems Hiter Hfuel.
  destruct (get_all_tracks_last_turn sp uri pages fuel st Hpages Hfuel)
    as (s0 & Hlast).
  match type of Hlast with
  | forall st1, collect_page _ _ ?x = _ -> _ => set (st0 := x) in *
  end.
  destruct (sp_playlist_tracks sp uri (offset (locals st0)) (client st0))
    as [r s1] eqn:Hreq.
  pose proof (Hresp s0) as Hr.
  change (sp_playlist_tracks sp uri (100 * List.length pages) s0)
    with (sp_playlist_tracks sp uri (offset (locals st0)) (client st0)) in Hr.
  rewrite Hreq in Hr. cbn [fst] in Hr. subst r.
  pose proof (collect_page_bad_items sp uri st0 d items e s1 Hreq Hitems Hiter)
    as Hturn.
  exists s1. rewrite (Hlast _ Hturn). cbn [locals log results client st0 offset].
  now rewrite <- !app_assoc.
Qed.

Lemma get_all_tracks_bad_items_witness :
  serves_full (scripted [numbered 100] (Ok (PDict [("items", PNone)])))
    "playlist" [numbered 100] /\
  Py.lookup "items" [("items", PNone)] = Some PNone /\
  Py.iterate PNone = Raise TypeError /\
  List.length [numbered 100] < 5 /\
  exists s',
    get_all_tracks (scripted [numbered 100] (Ok (PDict [("items", PNone)])))
      5 "playlist" (start 0)
    = Returned (List.concat [numbered 100])
        {| client := s';
           log := [] ++ [ApiPlaylistTracks "playlist" 0; Sleep]
                  ++ [ApiPlaylistTracks "playlist" 100;
                      Print "Error fetching tracks: " TypeError];
           locals := tt |}.
Proof.
  assert (Hfull : serves_full
                    (scripted [numbered 100] (Ok (PDict [("items", PNone)])))
                    "playlist" [numbered 100]).
  { apply scripted_serves_full.
    repeat constructor; apply Nat.leb_le; reflexivity. }
  assert (Hfuel : List.length [numbered 100] < 5)
    by (apply Nat.ltb_lt; reflexivity).
  split; [exact Hfull|]. split; [reflexivity|]. split; [reflexivity|].
  split; [exact Hfuel|].
  apply (get_all_tracks_bad_items
           (scripted [numbered 100] (Ok (PDict [("items", PNone)])))
           "playlist" [numbered 100] [("items", PNone)] PNone TypeError 5
           (start 0) Hfull);
    [|reflexivity|reflexivity|exact Hfuel].
  intros s. now rewrite scripted_last.
Defined.

Lemma collect_loop_endless {Svc} (sp : Spotify Svc) (uri : string) :
  (forall off s, exists l,
     100 <= List.length l /\
     answers_items (fst (sp_playlist_tracks sp uri off s)) l) ->
  forall fuel (st : state Svc collector),
    collect_loop sp fuel uri st = OutOfFuel.
Proof.
  intros Hfull. induction fuel as [|fuel IH]; intros st; [reflexivity|].
  rewrite collect_loop_step.
  destruct (sp_playlist_tracks sp uri (offset (locals st)) (client st))
    as [r s1] eqn:Hreq.
  destruct (Hfull (offset (locals st)) (client st))
    as (l & Hlen & d & Hr & Hitems).
  rewrite Hreq in Hr. cbn [fst] in Hr. subst r.
  rewrite (collect_page_items sp uri st d l s1 Hreq Hitems).
  assert (Hge : (List.length l <? 100)%nat = false)
    by (apply Nat.ltb_ge; exact Hlen).
  rewrite Hge. apply IH.
Qed.

(** X4: the loop of [get_all_tracks] has no bound of its own.  On a
    service that answers every page request with 100 entries or more it
    never returns: whatever number of turns is allowed, the loop is still
    running when they are used up. *)
Theorem get_all_tracks_endless {Svc L} (sp : Spotify Svc) (uri : string)
    (fuel : nat) (st : state Svc L) :
  (forall off s, exists l,
     100 <= List.length l /\
     answers_items (fst (sp_playlist_tracks sp uri off s)) l) ->
  get_all_tracks sp fuel uri st = OutOfFuel.
Proof.
  intros Hfull. unfold get_all_tracks, call, bind.
  now rewrite (collect_loop_endless sp uri Hfull).
Qed.

Lemma endless_answers (off s : nat) :
  exists l,
    100 <= List.length l /\
    answers_items (fst (sp_playlist_tracks endless "playlist" off s)) l.
Proof.
  exists (numbered 100). split; [apply Nat.leb_le; reflexivity|].
  eexists. split; reflexivity.
Qed.

Lemma get_all_tracks_endless_witness :
  (forall off s, exists l,
     100 <= List.length l /\
     answers_items (fst (sp_playlist_tracks endless "playlist" off s)) l) /\
  get_all_tracks endless 40 "playlist" (start 0) = OutOfFuel.
Proof.
  split; [exact endless_answers|].
  exact (get_all_tracks_endless endless "playlist" 40 (start 0)
           endless_answers).
Defined.

(* ================================================================= *)
(** ** The parser: what an identifier looks like *)

Lemma split_pieces_without (c c' : ascii) (s : string) :
  c' = c \/ has_char c' s = false ->
  Forall (fun p => has_char c' p = false) (Py.split c s).
Proof.
  induction s as [|x s IH]; intros H.
  - repeat constructor.
  - assert (Hs : c' = c \/ has_char c' s = false).
    { destruct H as [H|H]; [now left|right].
      cbn [has_char] in H. now apply orb_false_iff in H. }
    specialize (IH Hs). cbn [Py.split].
    destruct (x =? c)%char eqn:Hx.
    + constructor; [reflexivity | exact IH].
    + destruct (Py.split c s) as [|h t]; [repeat constructor|].
      * cbn [has_char]. apply orb_false_iff. split; [|reflexivity].
        destruct H as [->|H]; [exact Hx|].
        cbn [has_char] in H. now apply orb_false_iff in H.
      * inversion IH as [|? ? Hh Ht]; subst. constructor; [|exact Ht].
        cbn [has_char]. rewrite Hh, orb_false_r.
        destruct H as [->|H]; [exact Hx|].
        cbn [has_char] in H. now apply orb_false_iff in H.
Qed.

Lemma last_piece_in (xs : list string) (x : string) :
  Py.last_piece xs = Ok x -> In x xs.
Proof.
  induction xs as [|y ys IH]; [discriminate|].
  destruct ys as [|z zs].
  - cbn. intros H. injection H as ->. now left.
  - intros H. right. apply IH. exact H.
Qed.

Lemma first_piece_in (xs : list string) (x : string) :
  Py.first_piece xs = Ok x -> In x xs.
Proof.
  destruct xs as [|y ys]; [discriminate|].
  cbn. intros H. injection H as ->. now left.
Qed.

Lemma parse_playlist_uri_of_id (id : string) :
  has_char "/" id = false -> has_char "?" id = false ->
  parse_playlist_uri id = Ok id.
Proof.
  intros Hslash Hq. unfold parse_playlist_uri.
  rewrite (split_without_sep "/" id Hslash). cbn [Py.last_piece].
  now rewrite (split_without_sep "?" id Hq).
Qed.

(** X5: whatever the link, the identifier that [parse_playlist_uri]
    returns holds neither '/' nor '?', and parsing it again gives it
    back. *)
Theorem parse_playlist_uri_clean (playlist_link : string) :
  exists id,
    parse_playlist_uri playlist_link = Ok id /\
    has_char "/" id = false /\
    has_char "?" id = false /\
    parse_playlist_uri id = Ok id.
Proof.
  destruct (parse_playlist_uri_total playlist_link) as (id & Hid).
  exists id. split; [exact Hid|].
  unfold parse_playlist_uri in Hid.
  destruct (Py.last_piece (Py.split "/" playlist_link)) as [segment|e] eqn:Hseg;
    [|discriminate].
  assert (Hsegment : has_char "/" segment = false).
  { pose proof (split_pieces_without "/" "/" playlist_link (or_introl eq_refl))
      as Hall.
    rewrite Forall_forall in Hall. apply Hall, last_piece_in, Hseg. }
  assert (Hslash : has_char "/" id = false).
  { pose proof (split_pieces_without "?" "/" segment (or_intror Hsegment))
      as Hall.
    rewrite Forall_forall in Hall. apply Hall, first_piece_in, Hid. }
  assert (Hq : has_char "?" id = false).
  { pose proof (split_pieces_without "?" "?" segment (or_introl eq_refl))
      as Hall.
    rewrite Forall_forall in Hall. apply Hall, first_piece_in, Hid. }
  split; [exact Hslash|]. split; [exact Hq|].
  now apply parse_playlist_uri_of_id.
Qed.

(** X6: for a link without a query string, [<anything>/<id>] where [<id>]
    has no '/' and no '?', the parser returns [<id>]; a link that ends in
    '/' gives the empty identifier. *)
Theorem parse_playlist_uri_without_query (prefix id : string) :
  has_char "/" id = false ->
  has_char "?" id = false ->
  parse_playlist_uri (prefix ++ "/" ++ id)%string = Ok id.
Proof.
  intros Hslash Hq. unfold parse_playlist_uri.
  change (prefix ++ "/" ++ id)%string with (prefix ++ String "/" id)%string.
  rewrite last_piece_after_sep, (split_without_sep "/" id Hslash).
  cbn [Py.last_piece]. now rewrite (split_without_sep "?" id Hq).
Qed.

Lemma parse_playlist_uri_without_query_witness :
  has_char "/" "37i9dQZF1DXcBWIGoYBM5M" = false /\
  has_char "?" "37i9dQZF1DXcBWIGoYBM5M" = false /\
  parse_playlist_uri
    ("https://open.spotify.com/playlist" ++ "/" ++ "37i9dQZF1DXcBWIGoYBM5M")
  = Ok "37i9dQZF1DXcBWIGoYBM5M" /\
  parse_playlist_uri ("https://open.spotify.com/playlist" ++ "/" ++ "")
  = Ok "".
Proof.
  split; [reflexivity|]. split; [reflexivity|]. split.
  - apply (parse_playlist_uri_without_query
             "https://open.spotify.com/playlist" "37i9dQZF1DXcBWIGoYBM5M");
      reflexivity.
  - apply (parse_playlist_uri_without_query
             "https://open.spotify.com/playlist" ""); reflexivity.
Defined.

(* ================================================================= *)
(** ** The loop over the collected entries *)

Lemma for_each_app {Svc L A} (xs ys : list A) (body : A -> M Svc L unit)
    (st : state Svc L) :
  for_each (xs ++ ys) body st
  = bind (for_each xs body) (fun _ => for_each ys body) st.
Proof.
  revert st. induction xs as [|x xs IH]; intros st; [reflexivity|].
  cbn [app for_each]. unfold bind in *.
  destruct (body x st) as [[] st1|e st1|]; [|reflexivity|reflexivity].
  apply IH.
Qed.

Lemma artist_requests_app (a b : list event) :
  artist_requests (a ++ b) = artist_requests a ++ artist_requests b.
Proof.
  induction a as [|ev a IH]; [reflexivity|].
  destruct ev; cbn [app artist_requests]; rewrite IH; reflexivity.
Qed.

Lemma release_year_cell (release_date : pyval) :
  year_cell (release_year_of release_date).
Proof.
  unfold release_year_of, year_cell.
  destruct (slice4 release_date) as [prefix|e]; [|now left].
  destruct (py_int prefix) as [z|e]; [right; now exists z | now left].
Qed.

Section Rows.
Context {Svc : Type}.
Variable sp : Spotify Svc.

(** An entry whose track is null is passed over: nothing is asked,
    nothing is added. *)
Lemma enrich_item_skips (item track : pyval) (st : state Svc enricher) :
  Py.getitem item "track" = Ok track ->
  Py.truthy track = false ->
  enrich_item sp item st = Returned tt st.
Proof.
  intros Htrack Hfalsy. unfold enrich_item, bind, lift, ret.
  rewrite Htrack. cbn beta iota. now rewrite Hfalsy.
Qed.

(** Where the fields of a row that [track_row] returns are read. *)
Lemma track_row_fields (track : pyval) (st st' : state Svc enricher) (r : row) :
  track_row track st = Returned r st' ->
  Py.get track "name" (PStr "Unknown Track") = Ok (Track_Name r) /\
  Py.get track "id" (PStr "No ID") = Ok (Track_ID r) /\
  first_artist_entry track "name" "Unknown Artist" = Ok (Artist r) /\
  first_artist_entry track "id" "Unknown ID" = Ok (Artist_ID r) /\
  album_entry track = Ok (Album r) /\
  exists album,
    Py.getitem track "album" = Ok album /\
    Py.getitem album "release_date" = Ok (Album_Release_Date r).
Proof.
  unfold track_row. intros H.
  apply bind_returned in H as (album & ? & Halbum & H).
  apply lift_returned in Halbum as [Halbum ->].
  apply bind_returned in H as (date & ? & Hdate & H).
  apply lift_returned in Hdate as [Hdate ->].
  repeat (apply bind_returned in H as (? & ? & Hstep & H);
          first [ apply lift_returned in Hstep as [? ->]
                | pose proof (genres_entry_state _ _ _ Hstep); subst ]).
  injection H as <- <-. cbn.
  repeat (split; [assumption|]). exists album. now split.
Qed.

(** What [lookup_artist] sends to the artist endpoint. *)
Lemma lookup_artist_requests (track : pyval) (st st1 : state Svc enricher) :
  lookup_artist sp track st = Returned tt st1 ->
  artist_requests (log st1)
  = artist_requests (log st)
    ++ match first_artist_id track with Some id => [id] | None => [] end.
Proof.
  unfold lookup_artist, first_artist_id, try_except, bind, request, modify,
    emit, lift, ret, raise.
  destruct (Py.getitem track "artists") as [artists|e]; cbn beta iota;
    [|intros H; injection H as <-; cbn [log];
      now rewrite artist_requests_app].
  destruct (Py.getitem0 artists) as [first|e]; cbn beta iota;
    [|intros H; injection H as <-; cbn [log];
      now rewrite artist_requests_app].
  destruct (Py.getitem first "id") as [id|e]; cbn beta iota;
    [|intros H; injection H as <-; cbn [log];
      now rewrite artist_requests_app].
  destruct (sp_artist sp id (client st)) as [[info|e] s'];
    intros H; injection H as <-; cbn [log];
    rewrite !artist_requests_app; cbn [artist_requests];
    now rewrite ?app_nil_r.
Qed.

(** The state in which [enrich_item] leaves a track it made a row of. *)
Lemma enrich_item_state (item track : pyval) (st st' : state Svc enricher) :
  Py.getitem item "track" = Ok track ->
  Py.truthy track = true ->
  enrich_item sp item st = Returned tt st' ->
  exists st1 r,
    lookup_artist sp track st = Returned tt st1 /\
    track_row track st1 = Returned r st1 /\
    st' = {| client := client st1; log := log st1;
             locals := {| artist_info := artist_info (locals st1);
                          tracks := tracks (locals st1) ++ [r] |} |}.
Proof.
  intros Htrack Htruthy H. unfold enrich_item in H.
  apply bind_returned in H as (t & st0 & Hstep & H).
  apply lift_returned in Hstep as [Heq ->].
  rewrite Htrack in Heq. injection Heq as <-.
  rewrite Htruthy in H. cbn [negb] in H.
  apply bind_returned in H as ([] & st1 & Hlookup & H).
  apply bind_returned in H as (r & st2 & Hrow & H).
  destruct (track_row_inv track st1 st2 r Hrow) as [-> _].
  exists st1, r. unfold modify in H. injection H as <-.
  repeat split; assumption.
Qed.

(** One entry: the row it adds, if it is kept, and the request it sends. *)
Lemma enrich_item_inv (item : pyval) (st st' : state Svc enricher) :
  enrich_item sp item st = Returned tt st' ->
  exists rows,
    tracks (locals st') = tracks (locals st) ++ rows /\
    Forall2 (fun item r =>
               exists st1 : state Svc enricher,
                 track_row (track_of item) st1 = Returned r st1)
            (if kept item then [item] else []) rows /\
    artist_requests (log st')
    = artist_requests (log st) ++ requested_artist item.
Proof.
  intros Hrun.
  assert (Htrack : exists track, Py.getitem item "track" = Ok track).
  { unfold enrich_item in Hrun.
    apply bind_returned in Hrun as (t & st0 & Hstep & _).
    apply lift_returned in Hstep as [Heq _]. now exists t. }
  destruct Htrack as (track & Htrack).
  unfold requested_artist, kept, track_of. rewrite Htrack.
  destruct (Py.truthy track) eqn:Htruthy.
  - destruct (enrich_item_state item track st st' Htrack Htruthy Hrun)
      as (st1 & r & Hlookup & Hrow & ->).
    exists [r]. cbn [locals tracks log]. split; [|split].
    + now rewrite (lookup_artist_keeps_tracks sp _ _ _ Hlookup).
    + constructor; [|constructor]. unfold track_of. rewrite Htrack.
      now exists st1.
    + apply lookup_artist_requests, Hlookup.
  - rewrite (enrich_item_skips item track st Htrack Htruthy) in Hrun.
    injection Hrun as <-. exists []. rewrite !app_nil_r.
    repeat split. constructor.
Qed.

(** The whole loop: rows and requests follow the entries in order. *)
Lemma for_each_enrich_inv (items : list pyval) :
  forall st st' : state Svc enricher,
    for_each items (enrich_item sp) st = Returned tt st' ->
    exists rows,
      tracks (locals st') = tracks (locals st) ++ rows /\
      Forall2 (fun item r =>
                 exists st1 : state Svc enricher,
                   track_row (track_of item) st1 = Returned r st1)
              (filter kept items) rows /\
      artist_requests (log st')
      = artist_requests (log st) ++ flat_map requested_artist items.
Proof.
  induction items as [|item items IH]; intros st st' Hrun.
  - cbn in Hrun. injection Hrun as <-. exists [].
    cbn [filter flat_map]. rewrite !app_nil_r. repeat split. constructor.
  - cbn [for_each] in Hrun.
    apply bind_returned in Hrun as ([] & st1 & Hitem & Hrest).
    destruct (enrich_item_inv item st st1 Hitem) as (r1 & Ht1 & Hf1 & Ha1).
    destruct (IH st1 st' Hrest) as (r2 & Ht2 & Hf2 & Ha2).
    exists (r1 ++ r2). split; [|split].
    + now rewrite Ht2, Ht1, app_assoc.
    + cbn [filter].
      replace (if kept item then item :: filter kept items
               else filter kept items)
        with ((if kept item then [item] else []) ++ filter kept items)
        by (destruct (kept item); reflexivity).
      now apply Forall2_app.
    + cbn [flat_map]. now rewrite Ha2, Ha1, app_assoc.
Qed.

End Rows.

(** The rows that the loop appends, with the identifier and the name they
    carry. *)
Lemma rows_follow_tracks_of_loop {Svc} (sp : Spotify Svc) (items : list pyval)
    (st st' : state Svc enricher) :
  for_each items (enrich_item sp) st = Returned tt st' ->
  exists rows,
    tracks (locals st') = tracks (locals st) ++ rows /\
    Forall2 (fun item r =>
               Py.get (track_of item) "id" (PStr "No ID") = Ok (Track_ID r) /\
               Py.get (track_of item) "name" (PStr "Unknown Track")
               = Ok (Track_Name r))
            (filter kept items) rows.
Proof.
  intros Hrun.
  destruct (for_each_enrich_inv sp items st st' Hrun) as (rows & Ht & Hf & _).
  exists rows. split; [exact Ht|]. clear Ht.
  induction Hf as [|item r its rs (st1 & Hrow) _ IH]; constructor; [|exact IH].
  destruct (track_row_fields _ _ _ _ Hrow) as (Hname & Hid & _).
  now split.
Qed.

(** X7: an entry whose track is null (a removed or unavailable track) is
    passed over wherever it stands in the playlist: the run is the same as
    without it, no row, no request and no message come from it. *)
Theorem null_tracks_are_skipped {Svc} (sp : Spotify Svc)
    (before after : list pyval) (item track : pyval)
    (st : state Svc enricher) :
  Py.getitem item "track" = Ok track ->
  Py.truthy track = false ->
  for_each (before ++ item :: after) (enrich_item sp) st
  = for_each (before ++ after) (enrich_item sp) st.
Proof.
  intros Htrack Hfalsy. rewrite !for_each_app. unfold bind.
  destruct (for_each before (enrich_item sp) st) as [[] st1|e st1|];
    [|reflexivity|reflexivity].
  cbn [for_each]. unfold bind.
  now rewrite (enrich_item_skips sp item track st1 Htrack Hfalsy).
Qed.

Lemma null_tracks_are_skipped_witness :
  Py.getitem (an_item PNone) "track" = Ok PNone /\
  Py.truthy PNone = false /\
  for_each ([demo_item] ++ an_item PNone :: [demo_item])
    (enrich_item (catalog [] [("a1", rock_artist)])) (enriching 0)
  = for_each ([demo_item] ++ [demo_item])
      (enrich_item (catalog [] [("a1", rock_artist)])) (enriching 0) /\
  List.length
    (rows_of (for_each ([demo_item] ++ an_item PNone :: [demo_item])
                (enrich_item (catalog [] [("a1", rock_artist)]))
                (enriching 0)))
  = 2.
Proof.
  split; [reflexivity|]. split; [reflexivity|]. split.
  - apply (null_tracks_are_skipped (catalog [] [("a1", rock_artist)])
             [demo_item] [demo_item] (an_item PNone) PNone (enriching 0));
      reflexivity.
  - vm_compute. reflexivity.
Defined.

(** X8: when the loop over the collected entries returns, it has appended
    exactly one row for each entry whose track is not null, in the order of
    the entries; the row's Track ID and Track Name are the track's "id"
    and "name", or "No ID" and "Unknown Track" where the track has no such
    key. *)
Theorem rows_follow_tracks {Svc} (sp : Spotify Svc) (items : list pyval)
    (st st' : state Svc enricher) :
  for_each items (enrich_item sp) st = Returned tt st' ->
  exists rows,
    tracks (locals st') = tracks (locals st) ++ rows /\
    List.length rows = List.length (filter kept items) /\
    Forall2 (fun item r =>
               Py.get (track_of item) "id" (PStr "No ID") = Ok (Track_ID r) /\
               Py.get (track_of item) "name" (PStr "Unknown Track")
               = Ok (Track_Name r))
            (filter kept items) rows.
Proof.
  intros Hrun.
  destruct (rows_follow_tracks_of_loop sp items st st' Hrun)
    as (rows & Ht & Hf).
  exists rows. split; [exact Ht|]. split; [|exact Hf].
  symmetry. eapply Forall2_length, Hf.
Qed.

Lemma rows_follow_tracks_witness :
  exists st' rows,
    for_each [an_item (a_track "t1" "First" "a1" "1999-05-01" (PInt 87));
              an_item PNone;
              an_item (PDict [("artists", PList [PDict [("id", PStr "a1");
                                                        ("name", PStr "The Band")]]);
                              ("album", PDict [("name", PStr "The Album");
                                               ("release_date", PStr "2001")]);
                              ("external_urls", PNone)])]
      (enrich_item (catalog [] [("a1", rock_artist)])) (enriching 0)
    = Returned tt st' /\
    tracks (locals st') = [] ++ rows /\
    map (fun r => (Track_ID r, Track_Name r)) rows
    = [(PStr "t1", PStr "First"); (PStr "No ID", PStr "Unknown Track")].
Proof.
  destruct (for_each
              [an_item (a_track "t1" "First" "a1" "1999-05-01" (PInt 87));
               an_item PNone;
               an_item (PDict [("artists", PList [PDict [("id", PStr "a1");
                                                         ("name", PStr "The Band")]]);
                               ("album", PDict [("name", PStr "The Album");
                                                ("release_date", PStr "2001")]);
                               ("external_urls", PNone)])]
              (enrich_item (catalog [] [("a1", rock_artist)])) (enriching 0))
    as [[] st'|e st'|] eqn:Hrun;
    try (vm_compute in Hrun; discriminate Hrun).
  destruct (rows_follow_tracks (catalog [] [("a1", rock_artist)]) _ _ _ Hrun)
    as (rows & Ht & Hlen & Hf).
  exists st', rows. split; [reflexivity|]. split; [exact Ht|].
  cbn in Hf.
  inversion Hf as [|i1 r1 is1 rs1 [Hid1 Hname1] Hf1]; subst.
  inversion Hf1 as [|i2 r2 is2 rs2 [Hid2 Hname2] Hf2]; subst.
  inversion Hf2; subst.
  cbn in Hid1, Hname1, Hid2, Hname2. cbn [map].
  injection Hid1 as <-. injection Hname1 as <-.
  injection Hid2 as <-. injection Hname2 as <-.
  reflexivity.
Defined.

(** X9: the artist endpoint is asked once for every entry whose track is
    not null and has a first artist with an "id", in the order of the
    entries; nothing is remembered from one track to the next, so an artist
    that appears on several tracks is asked for as many times. *)
Theorem one_artist_request_per_track {Svc} (sp : Spotify Svc)
    (items : list pyval) (st st' : state Svc enricher) :
  for_each items (enrich_item sp) st = Returned tt st' ->
  artist_requests (log st')
  = artist_requests (log st) ++ flat_map requested_artist items.
Proof.
  intros Hrun.
  destruct (for_each_enrich_inv sp items st st' Hrun) as (rows & _ & _ & Ha).
  exact Ha.
Qed.

Lemma one_artist_request_per_track_witness :
  exists st',
    for_each [demo_item; an_item PNone; demo_item; demo_item]
      (enrich_item (catalog [] [("a1", rock_artist)])) (enriching 0)
    = Returned tt st' /\
    artist_requests (log st') = [] ++ [PStr "a1"; PStr "a1"; PStr "a1"].
Proof.
  destruct (for_each [demo_item; an_item PNone; demo_item; demo_item]
              (enrich_item (catalog [] [("a1", rock_artist)])) (enriching 0))
    as [[] st'|e st'|] eqn:Hrun;
    try (vm_compute in Hrun; discriminate Hrun).
  exists st'. split; [reflexivity|].
  exact (one_artist_request_per_track (catalog [] [("a1", rock_artist)])
           _ _ _ Hrun).
Defined.

(** X10: the release date is read from [track["album"]] before the album
    is tested, so the placeholder "Unknown Album" is out of reach: a row is
    made only for a track whose album is a non-empty mapping, and its Album
    and Album Release Date are that album's "name" and "release_date"; a
    track whose album is null or empty makes [track_row] raise. *)
Theorem album_placeholder_unreachable {Svc} (track : pyval)
    (st : state Svc enricher) :
  (forall r st',
     track_row track st = Returned r st' ->
     exists album,
       Py.getitem track "album" = Ok album /\
       Py.truthy album = true /\
       Py.getitem album "name" = Ok (Album r) /\
       Py.getitem album "release_date" = Ok (Album_Release_Date r)) /\
  (forall album,
     Py.getitem track "album" = Ok album ->
     Py.truthy album = false ->
     exists e, track_row track st = Raised e st).
Proof.
  split.
  - intros r st' Hrow.
    destruct (track_row_fields track st st' r Hrow)
      as (_ & _ & _ & _ & Halbum & album & Hget & Hdate).
    assert (Htruthy : Py.truthy album = true).
    { destruct album as [| | | | | |d]; try discriminate Hdate.
      destruct d; [discriminate Hdate | reflexivity]. }
    exists album. repeat split; try assumption.
    unfold album_entry in Halbum. now rewrite Hget, Htruthy in Halbum.
  - intros album Hget Hfalsy. unfold track_row, bind, lift, ret, raise.
    rewrite Hget. cbn beta iota.
    destruct album as [| b | z | x | s | l | d]; cbn; eauto.
    destruct d; [cbn; eauto | discriminate Hfalsy].
Qed.

Lemma album_placeholder_unreachable_witness :
  (exists r st',
     track_row demo_track
       {| client := 1; log := [];
          locals := {| artist_info := Some rock_artist; tracks := [] |} |}
     = Returned r st' /\
     Album r = PStr "The Album" /\
     Album_Release_Date r = PStr "1999-05-01") /\
  Py.getitem (a_track_with_album PNone) "album" = Ok PNone /\
  Py.truthy PNone = false /\
  (exists e,
     track_row (a_track_with_album PNone)
       {| client := 1; log := [];
          locals := {| artist_info := Some rock_artist; tracks := [] |} |}
     = Raised e
         {| client := 1; log := [];
            locals := {| artist_info := Some rock_artist; tracks := [] |} |}) /\
  error_of (get_playlist_data
              (catalog [an_item (a_track_with_album PNone)]
                       [("a1", rock_artist)])
              numeric_already 5 "https://open.spotify.com/playlist/abc"
              (start 0))
  = Some TypeError.
Proof.
  split; [|split; [reflexivity|split; [reflexivity|split]]].
  - destruct (track_row demo_track
                {| client := 1; log := [];
                   locals := {| artist_info := Some rock_artist;
                                tracks := [] |} |})
      as [r st'|e st'|] eqn:Hrow;
      try (vm_compute in Hrow; discriminate Hrow).
    destruct (proj1 (album_placeholder_unreachable demo_track
                       {| client := 1; log := [];
                          locals := {| artist_info := Some rock_artist;
                                       tracks := [] |} |}) r st' Hrow)
      as (album & Hget & _ & Hname & Hdate).
    exists r, st'. split; [reflexivity|].
    cbn in Hget. injection Hget as <-.
    cbn in Hname, Hdate. injection Hname as <-. injection Hdate as <-.
    now split.
  - exact (proj2 (album_placeholder_unreachable (a_track_with_album PNone)
                    {| client := 1; log := [];
                       locals := {| artist_info := Some rock_artist;
                                    tracks := [] |} |})
             PNone eq_refl eq_refl).
  - vm_compute. reflexivity.
Defined.

(** X11: for a track whose list of artists is empty no artist request is
    sent: reading the first artist raises [IndexError], which is printed.
    A row is made only if an earlier track left a value in [artist_info];
    it then has the artist "Unknown Artist" with the identifier
    "Unknown ID", and its genres are read from that earlier artist. *)
Theorem track_without_artists {Svc} (sp : Spotify Svc) (item track : pyval)
    (st st' : state Svc enricher) :
  Py.getitem item "track" = Ok track ->
  Py.truthy track = true ->
  Py.getitem track "artists" = Ok (PList []) ->
  enrich_item sp item st = Returned tt st' ->
  exists earlier r,
    artist_info (locals st) = Some earlier /\
    Artist r = PStr "Unknown Artist" /\
    Artist_ID r = PStr "Unknown ID" /\
    genres_entry st = Returned (Genres r) st /\
    st' = {| client := client st;
             log := log st ++ [Print "Error fetching artist info: " IndexError];
             locals := {| artist_info := Some earlier;
                          tracks := tracks (locals st) ++ [r] |} |}.
Proof.
  intros Htrack Htruthy Hartists Hrun.
  destruct (enrich_item_state sp item track st st' Htrack Htruthy Hrun)
    as (st1 & r & Hlookup & Hrow & ->).
  assert (Hst1 : st1 = {| client := client st;
                          log := log st
                                 ++ [Print "Error fetching artist info: "
                                           IndexError];
                          locals := locals st |}).
  { unfold lookup_artist, try_except, bind, request, modify, emit, lift, ret,
      raise in Hlookup.
    rewrite Hartists in Hlookup. cbn in Hlookup. now injection Hlookup as <-. }
  destruct (track_row_fields track st1 st1 r Hrow)
    as (_ & _ & Hartist & Hid & _).
  destruct (track_row_inv track st1 st1 r Hrow) as (_ & _ & _ & Hgenres & _).
  unfold first_artist_entry in Hartist, Hid.
  rewrite Hartists in Hartist, Hid. cbn in Hartist, Hid.
  injection Hartist as Hartist. injection Hid as Hid.
  subst st1. rewrite genres_entry_eq in Hgenres |- *.
  cbn [locals client log] in *.
  destruct (artist_info (locals st)) as [earlier|] eqn:Hinfo; [|discriminate].
  exists earlier, r. split; [reflexivity|].
  split; [now symmetry|]. split; [now symmetry|]. split; [|reflexivity].
  destruct (Py.truthy earlier).
  - destruct (Py.get earlier "genres" (PList [])) as [g|]; [|discriminate].
    destruct (Py.join ", " g); [|discriminate]. congruence.
  - congruence.
Qed.

Lemma track_without_artists_witness :
  Py.getitem (an_item anonymous_track) "track" = Ok anonymous_track /\
  Py.truthy anonymous_track = true /\
  Py.getitem anonymous_track "artists" = Ok (PList []) /\
  (exists st' r,
     enrich_item (catalog [] [("a1", rock_artist)]) (an_item anonymous_track)
       {| client := 1; log := [];
          locals := {| artist_info := Some rock_artist; tracks := [] |} |}
     = Returned tt st' /\
     client st' = 1 /\
     tracks (locals st') = [r] /\
     Artist r = PStr "Unknown Artist" /\
     Artist_ID r = PStr "Unknown ID") /\
  error_of (enrich_item (catalog [] [("a1", rock_artist)])
              (an_item anonymous_track) (enriching 0))
  = Some (UnboundLocalError "artist_info").
Proof.
  split; [reflexivity|]. split; [reflexivity|]. split; [reflexivity|].
  split; [|vm_compute; reflexivity].
  destruct (enrich_item (catalog [] [("a1", rock_artist)])
              (an_item anonymous_track)
              {| client := 1; log := [];
                 locals := {| artist_info := Some rock_artist;
                              tracks := [] |} |})
    as [[] st'|e st'|] eqn:Hrun;
    try (vm_compute in Hrun; discriminate Hrun).
  destruct (track_without_artists (catalog [] [("a1", rock_artist)])
              (an_item anonymous_track) anonymous_track _ st'
              eq_refl eq_refl eq_refl Hrun)
    as (earlier & r & _ & Hartist & Hid & _ & Hst').
  exists st', r. split; [reflexivity|]. rewrite Hst'. cbn [client locals tracks].
  split; [reflexivity|]. split; [reflexivity|]. now split.
Defined.

(** X12: every row that the loop appends has a Release Year that is an
    integer or None, None whenever the release date is not a string, and
    genres that are a string: the cells are of the kind the dashboard
    counts and joins. *)
Theorem rows_are_typed {Svc} (sp : Spotify Svc) (items : list pyval)
    (st st' : state Svc enricher) :
  for_each items (enrich_item sp) st = Returned tt st' ->
  exists rows,
    tracks (locals st') = tracks (locals st) ++ rows /\
    Forall (fun r =>
              year_cell (Release_Year r) /\
              ((forall s, Album_Release_Date r <> PStr s) ->
               Release_Year r = PNone) /\
              exists genres, Genres r = PStr genres) rows.
Proof.
  intros Hrun.
  destruct (for_each_enrich_inv sp items st st' Hrun) as (rows & Ht & Hf & _).
  exists rows. split; [exact Ht|]. clear Ht.
  induction Hf as [|item r its rs (st1 & Hrow) _ IH]; constructor;
    [|exact IH].
  destruct (track_row_inv _ _ _ _ Hrow) as (_ & _ & _ & Hgenres & Hyear).
  rewrite Hyear. split; [apply release_year_cell|]. split.
  - intros Hnot. destruct (Album_Release_Date r) as [| | | |s|l|];
      try reflexivity.
    now destruct (Hnot s).
  - rewrite genres_entry_eq in Hgenres.
    destruct (artist_info (locals st1)) as [info|]; [|discriminate].
    destruct (Py.truthy info).
    + destruct (Py.get info "genres" (PList [])) as [g|]; [|discriminate].
      destruct (Py.join ", " g) as [joined|]; [|discriminate].
      exists joined. congruence.
    + exists "No Genres". congruence.
Qed.

Lemma rows_are_typed_witness :
  exists st' rows,
    for_each [demo_item;
              an_item (PDict [("artists", PList []);
                              ("album", PDict [("name", PStr "The Album");
                                               ("release_date", PNone)]);
                              ("external_urls", PNone)])]
      (enrich_item (catalog [] [("a1", rock_artist)])) (enriching 0)
    = Returned tt st' /\
    tracks (locals st') = [] ++ rows /\
    map Release_Year rows = [PInt 1999; PNone].
Proof.
  destruct (for_each
              [demo_item;
               an_item (PDict [("artists", PList []);
                               ("album", PDict [("name", PStr "The Album");
                                                ("release_date", PNone)]);
                               ("external_urls", PNone)])]
              (enrich_item (catalog [] [("a1", rock_artist)])) (enriching 0))
    as [[] st'|e st'|] eqn:Hrun;
    try (vm_compute in Hrun; discriminate Hrun).
  destruct (rows_are_typed (catalog [] [("a1", rock_artist)]) _ _ _ Hrun)
    as (rows & Ht & _).
  exists st', rows. split; [reflexivity|]. split; [exact Ht|].
  vm_compute in Hrun. injection Hrun as <-. cbn in Ht. now subst rows.
Defined.

(* ================================================================= *)
(** ** The playlist record and the first steps of [get_playlist_data] *)

(** Building the metadata asks nothing and shows nothing: its outcome is
    that of a pure computation on the playlist record. *)
Lemma build_metadata_pure {Svc L} (playlist_info : pyval) (st : state Svc L) :
  (exists m, build_metadata playlist_info st = Returned m st) \/
  (exists e, build_metadata playlist_info st = Raised e st).
Proof.
  unfold build_metadata, bind, lift, ret, raise.
  repeat first
    [ match goal with
      | |- context [match ?x with Ok _ => _ | Raise _ => _ end] =>
          destruct x; cbn beta iota
      | |- context [if ?b then _ else _] => destruct b; cbn beta iota
      end
    | solve [left; eexists; reflexivity]
    | solve [right; eexists; reflexivity] ].
Qed.

Lemma build_metadata_returned {Svc L} (playlist_info : pyval)
    (st st' : state Svc L) (m : metadata) :
  build_metadata playlist_info st = Returned m st' -> st' = st.
Proof.
  destruct (build_metadata_pure playlist_info st) as [(m0 & H) | (e & H)];
    rewrite H; congruence.
Qed.

(** What the fields of the metadata are read from. *)
Lemma build_metadata_fields {Svc L} d (st st' : state Svc L) (m : metadata) :
  build_metadata (PDict d) st = Returned m st' ->
  Py.lookup "name" d = Some (Name m) /\
  Description m = match Py.lookup "description" d with
                  | Some v => v
                  | None => PStr "No description available"
                  end /\
  (Py.truthy match Py.lookup "images" d with Some v => v | None => PNone end
   = false -> Thumbnail m = PNone) /\
  (forall image rest url,
     Py.lookup "images" d = Some (PList (PDict image :: rest)) ->
     Py.lookup "url" image = Some url -> Thumbnail m = url) /\
  (Py.lookup "followers" d = None -> Likes m = PInt 0) /\
  (forall f, Py.lookup "followers" d = Some (PDict f) ->
     Likes m = match Py.lookup "total" f with
               | Some t => t
               | None => PInt 0
               end) /\
  exists t, Py.lookup "tracks" d = Some (PDict t) /\
            Py.lookup "total" t = Some (Total_Tracks m).
Proof.
  unfold build_metadata. intros H.
  apply bind_returned in H as (name & ? & Hname & H).
  apply lift_returned in Hname as [Hname ->].
  apply bind_returned in H as (description & ? & Hdesc & H).
  apply lift_returned in Hdesc as [Hdesc ->].
  apply bind_returned in H as (images & ? & Himages & H).
  apply lift_returned in Himages as [Himages ->].
  apply bind_returned in H as (thumbnail & st1 & Hthumb & H).
  apply bind_returned in H as (followers & ? & Hfollowers & H).
  apply lift_returned in Hfollowers as [Hfollowers ->].
  apply bind_returned in H as (likes & ? & Hlikes & H).
  apply lift_returned in Hlikes as [Hlikes ->].
  apply bind_returned in H as (playlist_tracks & ? & Htracks & H).
  apply lift_returned in Htracks as [Htracks ->].
  apply bind_returned in H as (total & ? & Htotal & H).
  apply lift_returned in Htotal as [Htotal ->].
  injection H as <- _. cbn [Name Description Thumbnail Likes Total_Tracks].
  cbn [Py.getitem Py.get] in Hname, Hdesc, Himages, Hfollowers, Htracks.
  split; [|split; [|split; [|split; [|split; [|split]]]]].
  - destruct (Py.lookup "name" d); [congruence | discriminate].
  - destruct (Py.lookup "description" d); congruence.
  - intros Hfalsy.
    assert (Heq : match Py.lookup "images" d with
                  | Some v => v
                  | None => PNone
                  end = images)
      by (destruct (Py.lookup "images" d); congruence).
    rewrite Heq in Hfalsy. rewrite Hfalsy in Hthumb.
    unfold ret in Hthumb. now injection Hthumb as <- _.
  - intros image rest url Himg Hurl. rewrite Himg in Himages.
    injection Himages as <-. cbn [Py.truthy] in Hthumb.
    unfold bind, lift, ret in Hthumb. cbn [Py.getitem] in Hthumb.
    rewrite Himg in Hthumb. cbn in Hthumb. rewrite Hurl in Hthumb.
    now injection Hthumb as <- _.
  - intros Hnone. rewrite Hnone in Hfollowers. injection Hfollowers as <-.
    cbn in Hlikes. congruence.
  - intros f Hf. rewrite Hf in Hfollowers. injection Hfollowers as <-.
    cbn [Py.get] in Hlikes. destruct (Py.lookup "total" f); congruence.
  - destruct (Py.lookup "tracks" d) as [t|]; [|discriminate].
    injection Htracks as <-.
    destruct t as [| | | | | |t]; try discriminate Htotal.
    exists t. split; [reflexivity|]. cbn [Py.getitem] in Htotal.
    destruct (Py.lookup "total" t); [congruence | discriminate].
Qed.

(** [get_playlist_data] once the playlist record has been fetched. *)
Lemma get_playlist_data_fetched {Svc L} (sp : Spotify Svc)
    (pd : list pyval -> list pyval) (fuel : nat) (playlist_link uri : string)
    (info : pyval) (s1 : Svc) (st : state Svc L) :
  parse_playlist_uri playlist_link = Ok uri ->
  sp_playlist sp uri (client st) = (Ok info, s1) ->
  get_playlist_data sp pd fuel playlist_link st
  = call {| artist_info := None; tracks := [] |}
      (meta <- build_metadata info ;;
       tracks_data <- get_all_tracks sp fuel uri ;;
       if negb (Py.truthy (PList tracks_data)) then
         emit (StError "Could not retrieve tracks for this playlist." None) ;;
         ret (Some meta, Some [])
       else
         for_each tracks_data (enrich_item sp) ;;
         rows <- gets tracks ;;
         assemble pd meta rows)
      {| client := s1; log := log st ++ [ApiPlaylist uri];
         locals := locals st |}.
Proof.
  intros Hparse Hreq.
  unfold get_playlist_data, call, bind, try_except, request, lift, ret.
  rewrite Hparse. cbn [client log locals]. rewrite Hreq. reflexivity.
Qed.

(** X13: when the request for the playlist record raises,
    [get_playlist_data] shows "Could not retrieve playlist info: " with
    the exception and returns (None, None); no track and no artist is asked
    for, and [main] then shows "No data to visualize.". *)
Theorem playlist_fetch_failure {Svc} (sp : Spotify Svc)
    (pd : list pyval -> list pyval)
    (draws : widget -> option exn) (fuel : nat) (playlist_link uri : string)
    (e : exn) (s1 : Svc) (st : state Svc unit) :
  parse_playlist_uri playlist_link = Ok uri ->
  sp_playlist sp uri (client st) = (Raise e, s1) ->
  get_playlist_data sp pd fuel playlist_link st
  = Returned (None, None)
      {| client := s1;
         log := log st
                ++ [ApiPlaylist uri;
                    StError "Could not retrieve playlist info: " (Some e)];
         locals := locals st |} /\
  (Py.contains "spotify.com/playlist/" playlist_link = true ->
   main sp pd draws fuel playlist_link st
   = Returned tt
       {| client := s1;
          log := log st
                 ++ [ApiPlaylist uri;
                     StError "Could not retrieve playlist info: " (Some e);
                     StError "No data to visualize." None];
          locals := locals st |}).
Proof.
  intros Hparse Hreq.
  assert (Hrun : get_playlist_data sp pd fuel playlist_link st
                 = Returned (None, None)
                     {| client := s1;
                        log := log st
                               ++ [ApiPlaylist uri;
                                   StError "Could not retrieve playlist info: "
                                           (Some e)];
                        locals := locals st |}).
  { unfold get_playlist_data, call, bind, try_except, request, lift, ret, emit.
    rewrite Hparse. cbn [client log locals]. rewrite Hreq.
    cbn [client log locals]. now rewrite <- app_assoc. }
  split; [exact Hrun|].
  intros Hlink. rewrite (main_dispatch sp pd draws fuel playlist_link st Hlink), Hrun.
  unfold show, emit. cbn [client log locals]. now rewrite <- app_assoc.
Qed.

Lemma playlist_fetch_failure_witness :
  parse_playlist_uri "https://open.spotify.com/playlist/abc" = Ok "abc" /\
  sp_playlist unknown_playlist "abc" 0
  = (Raise (SpotifyException "playlist not found"), 1) /\
  Py.contains "spotify.com/playlist/" "https://open.spotify.com/playlist/abc"
  = true /\
  main unknown_playlist numeric_already every_widget_drawn 5
    "https://open.spotify.com/playlist/abc" (start 0)
  = Returned tt
      {| client := 1;
         log := [] ++ [ApiPlaylist "abc";
                       StError "Could not retrieve playlist info: "
                         (Some (SpotifyException "playlist not found"));
                       StError "No data to visualize." None];
         locals := tt |}.
Proof.
  split; [reflexivity|]. split; [reflexivity|]. split; [reflexivity|].
  apply (proj2 (playlist_fetch_failure unknown_playlist numeric_already
           every_widget_drawn 5
                  "https://open.spotify.com/playlist/abc" "abc"
                  (SpotifyException "playlist not found") 1 (start 0)
                  eq_refl eq_refl)).
  reflexivity.
Defined.

(** X14: the metadata that [get_playlist_data] returns is read from the
    playlist record: Name is its "name"; Description is its "description",
    or "No description available" when the key is missing; Thumbnail is
    None when "images" is missing, null or empty, and the "url" of the
    first image otherwise; Likes is 0 when "followers" is missing and the
    "total" of the followers (0 when that is missing) otherwise; Total
    Tracks is the "total" of "tracks". *)
Theorem metadata_defaults {Svc L} (sp : Spotify Svc)
    (pd : list pyval -> list pyval) (fuel : nat) (playlist_link uri : string)
    d (s1 : Svc) (st st' : state Svc L) (meta : metadata)
    (df : option dataframe) :
  parse_playlist_uri playlist_link = Ok uri ->
  sp_playlist sp uri (client st) = (Ok (PDict d), s1) ->
  get_playlist_data sp pd fuel playlist_link st = Returned (Some meta, df) st' ->
  Py.lookup "name" d = Some (Name meta) /\
  Description meta = match Py.lookup "description" d with
                     | Some v => v
                     | None => PStr "No description available"
                     end /\
  (Py.truthy match Py.lookup "images" d with Some v => v | None => PNone end
   = false -> Thumbnail meta = PNone) /\
  (forall image rest url,
     Py.lookup "images" d = Some (PList (PDict image :: rest)) ->
     Py.lookup "url" image = Some url -> Thumbnail meta = url) /\
  (Py.lookup "followers" d = None -> Likes meta = PInt 0) /\
  (forall f, Py.lookup "followers" d = Some (PDict f) ->
     Likes meta = match Py.lookup "total" f with
                  | Some t => t
                  | None => PInt 0
                  end) /\
  exists t, Py.lookup "tracks" d = Some (PDict t) /\
            Py.lookup "total" t = Some (Total_Tracks meta).
Proof.
  intros Hparse Hreq Hrun.
  rewrite (get_playlist_data_fetched sp pd fuel playlist_link uri (PDict d) s1
             st Hparse Hreq) in Hrun.
  unfold call in Hrun.
  match type of Hrun with
  | match ?run with _ => _ end = _ =>
      destruct run as [got st1|e st1|] eqn:Hbody
  end; try discriminate.
  injection Hrun as -> _.
  apply bind_returned in Hbody as (m & st2 & Hmeta & Hbody).
  assert (Hm : meta = m).
  { apply bind_returned in Hbody as (tracks_data & st3 & _ & Hbody).
    destruct (negb (Py.truthy (PList tracks_data))).
    - cbn in Hbody. now injection Hbody as <- _ _.
    - apply bind_returned in Hbody as ([] & st4 & _ & Hbody).
      apply bind_returned in Hbody as (rows & st5 & _ & Hbody).
      unfold assemble in Hbody. destruct (df_empty rows); cbn in Hbody;
        now injection Hbody as <- _ _. }
  subst m. exact (build_metadata_fields d _ _ meta Hmeta).
Qed.

Lemma metadata_defaults_witness :
  (exists st' meta df,
     get_playlist_data (catalog [] []) numeric_already 5
       "https://open.spotify.com/playlist/abc" (start 0)
     = Returned (Some meta, df) st' /\
     Name meta = PStr "Test Mix" /\
     Description meta = PStr "No description available" /\
     Thumbnail meta = PNone /\
     Likes meta = PInt 0 /\
     Total_Tracks meta = PInt 0) /\
  (exists st' meta df,
     get_playlist_data (catalog_with_info full_playlist_info [] [])
       numeric_already 5 "https://open.spotify.com/playlist/abc" (start 0)
     = Returned (Some meta, df) st' /\
     Name meta = PStr "Road Trip" /\
     Description meta = PStr "Songs for the road" /\
     Thumbnail meta = PStr "https://i.scdn.co/image/1" /\
     Likes meta = PInt 42 /\
     Total_Tracks meta = PInt 1).
Proof.
  split.
  - destruct (get_playlist_data (catalog [] []) numeric_already 5
                "https://open.spotify.com/playlist/abc" (start 0))
      as [[[meta|] df] st'|e st'|] eqn:Hrun;
      try (vm_compute in Hrun; discriminate Hrun).
    destruct (metadata_defaults (catalog [] []) numeric_already 5
                "https://open.spotify.com/playlist/abc" "abc"
                [("name", PStr "Test Mix");
                 ("tracks", PDict [("total", PInt 0)])]
                1 (start 0) st' meta df eq_refl eq_refl Hrun)
      as (Hname & Hdesc & Hthumb & _ & Hlikes & _ & t & Ht & Htotal).
    exists st', meta, df. split; [reflexivity|].
    cbn in Hname, Hdesc, Ht. injection Hname as <-. injection Ht as <-.
    cbn in Htotal. injection Htotal as <-.
    split; [reflexivity|]. split; [exact Hdesc|].
    split; [exact (Hthumb eq_refl)|]. split; [exact (Hlikes eq_refl)|].
    reflexivity.
  - destruct (get_playlist_data (catalog_with_info full_playlist_info [] [])
                numeric_already 5 "https://open.spotify.com/playlist/abc"
                (start 0))
      as [[[meta|] df] st'|e st'|] eqn:Hrun;
      try (vm_compute in Hrun; discriminate Hrun).
    destruct (metadata_defaults (catalog_with_info full_playlist_info [] [])
                numeric_already 5
                "https://open.spotify.com/playlist/abc" "abc"
                [("name", PStr "Road Trip");
                 ("description", PStr "Songs for the road");
                 ("images",
                  PList [PDict [("url", PStr "https://i.scdn.co/image/1")]]);
                 ("followers", PDict [("total", PInt 42)]);
                 ("tracks", PDict [("total", PInt 1)])]
                1 (start 0) st' meta df eq_refl eq_refl Hrun)
      as (Hname & Hdesc & _ & Hthumb & _ & Hlikes & t & Ht & Htotal).
    exists st', meta, df. split; [reflexivity|].
    cbn in Hname, Hdesc, Ht. injection Hname as <-. injection Ht as <-.
    cbn in Htotal. injection Htotal as <-.
    split; [reflexivity|]. split; [exact Hdesc|].
    split; [exact (Hthumb _ _ _ eq_refl eq_refl)|].
    split; [exact (Hlikes _ eq_refl)|]. reflexivity.
Defined.

(** X15: building the metadata is not inside any [try] of
    [get_playlist_data]: when the playlist record has no "name" (or is not
    a mapping at all) the exception leaves [get_playlist_data] right after
    the playlist request, before any track is asked for, and [main] shows
    it as "An error occurred: ". *)
Theorem metadata_error_escapes {Svc} (sp : Spotify Svc)
    (pd : list pyval -> list pyval)
    (draws : widget -> option exn) (fuel : nat) (playlist_link uri : string)
    (info : pyval) (e : exn) (s1 : Svc) (st : state Svc unit) :
  parse_playlist_uri playlist_link = Ok uri ->
  sp_playlist sp uri (client st) = (Ok info, s1) ->
  Py.getitem info "name" = Raise e ->
  get_playlist_data sp pd fuel playlist_link st
  = Raised e
      {| client := s1; log := log st ++ [ApiPlaylist uri];
         locals := locals st |} /\
  (Py.contains "spotify.com/playlist/" playlist_link = true ->
   main sp pd draws fuel playlist_link st
   = Returned tt
       {| client := s1;
          log := log st
                 ++ [ApiPlaylist uri;
                     StError "An error occurred: " (Some e)];
          locals := locals st |}).
Proof.
  intros Hparse Hreq Hname.
  assert (Hrun : get_playlist_data sp pd fuel playlist_link st
                 = Raised e
                     {| client := s1; log := log st ++ [ApiPlaylist uri];
                        locals := locals st |}).
  { rewrite (get_playlist_data_fetched sp pd fuel playlist_link uri info s1
               st Hparse Hreq).
    unfold call, bind at 1. unfold build_metadata, bind at 1.
    rewrite Hname. reflexivity. }
  split; [exact Hrun|].
  intros Hlink. rewrite (main_dispatch sp pd draws fuel playlist_link st Hlink), Hrun.
  unfold emit. cbn [client log locals]. now rewrite <- app_assoc.
Qed.

Lemma metadata_error_escapes_witness :
  parse_playlist_uri "https://open.spotify.com/playlist/abc" = Ok "abc" /\
  sp_playlist
    (catalog_with_info (PDict [("tracks", PDict [("total", PInt 1)])])
       [demo_item] [("a1", rock_artist)]) "abc" 0
  = (Ok (PDict [("tracks", PDict [("total", PInt 1)])]), 1) /\
  Py.getitem (PDict [("tracks", PDict [("total", PInt 1)])]) "name"
  = Raise (KeyError "name") /\
  Py.contains "spotify.com/playlist/" "https://open.spotify.com/playlist/abc"
  = true /\
  main (catalog_with_info (PDict [("tracks", PDict [("total", PInt 1)])])
          [demo_item] [("a1", rock_artist)])
    numeric_already every_widget_drawn 5 "https://open.spotify.com/playlist/abc" (start 0)
  = Returned tt
      {| client := 1;
         log := [] ++ [ApiPlaylist "abc";
                       StError "An error occurred: " (Some (KeyError "name"))];
         locals := tt |}.
Proof.
  split; [reflexivity|]. split; [reflexivity|]. split; [reflexivity|].
  split; [reflexivity|].
  apply (proj2 (metadata_error_escapes
                  (catalog_with_info
                     (PDict [("tracks", PDict [("total", PInt 1)])])
                     [demo_item] [("a1", rock_artist)])
                  numeric_already every_widget_drawn 5
                  "https://open.spotify.com/playlist/abc" "abc"
                  (PDict [("tracks", PDict [("total", PInt 1)])])
                  (KeyError "name") 1 (start 0) eq_refl eq_refl eq_refl)).
  reflexivity.
Defined.

(** X16: when the collector comes back with no entry at all (an empty
    playlist, or a first page request that failed), [get_playlist_data]
    shows "Could not retrieve tracks for this playlist." and returns the
    metadata with an empty table; no artist is asked for, and [main] adds
    "No data to visualize.". *)
Theorem no_tracks_collected {Svc} (sp : Spotify Svc)
    (pd : list pyval -> list pyval)
    (draws : widget -> option exn) (fuel : nat) (playlist_link uri : string)
    (info : pyval) (meta : metadata) (s1 : Svc)
    (st : state Svc unit) (st2 : state Svc enricher) :
  parse_playlist_uri playlist_link = Ok uri ->
  sp_playlist sp uri (client st) = (Ok info, s1) ->
  build_metadata info
    {| client := s1; log := log st ++ [ApiPlaylist uri];
       locals := {| artist_info := None; tracks := [] |} |}
  = Returned meta
      {| client := s1; log := log st ++ [ApiPlaylist uri];
         locals := {| artist_info := None; tracks := [] |} |} ->
  get_all_tracks sp fuel uri
    {| client := s1; log := log st ++ [ApiPlaylist uri];
       locals := {| artist_info := None; tracks := [] |} |}
  = Returned [] st2 ->
  get_playlist_data sp pd fuel playlist_link st
  = Returned (Some meta, Some [])
      {| client := client st2;
         log := log st2
                ++ [StError "Could not retrieve tracks for this playlist." None];
         locals := locals st |} /\
  (Py.contains "spotify.com/playlist/" playlist_link = true ->
   main sp pd draws fuel playlist_link st
   = Returned tt
       {| client := client st2;
          log := log st2
                 ++ [StError "Could not retrieve tracks for this playlist." None;
                     StError "No data to visualize." None];
          locals := locals st |}).
Proof.
  intros Hparse Hreq Hmeta Htracks.
  assert (Hrun : get_playlist_data sp pd fuel playlist_link st
                 = Returned (Some meta, Some [])
                     {| client := client st2;
                        log := log st2
                               ++ [StError
                                     "Could not retrieve tracks for this playlist."
                                     None];
                        locals := locals st |}).
  { rewrite (get_playlist_data_fetched sp pd fuel playlist_link uri info s1
               st Hparse Hreq).
    unfold call. cbn [client log locals]. unfold bind at 1. rewrite Hmeta.
    unfold bind at 1. rewrite Htracks. reflexivity. }
  split; [exact Hrun|].
  intros Hlink. rewrite (main_dispatch sp pd draws fuel playlist_link st Hlink), Hrun.
  unfold show, emit. cbn [client log locals df_empty negb].
  now rewrite <- app_assoc.
Qed.

Lemma no_tracks_collected_witness :
  Py.contains "spotify.com/playlist/" "https://open.spotify.com/playlist/abc"
  = true /\
  main (catalog [] []) numeric_already every_widget_drawn 5
    "https://open.spotify.com/playlist/abc" (start 0)
  = Returned tt
      {| client := 2;
         log := [ApiPlaylist "abc"; ApiPlaylistTracks "abc" 0; Sleep]
                ++ [StError "Could not retrieve tracks for this playlist." None;
                    StError "No data to visualize." None];
         locals := tt |}.
Proof.
  split; [reflexivity|].
  apply (proj2 (no_tracks_collected (catalog [] []) numeric_already
           every_widget_drawn 5
                  "https://open.spotify.com/playlist/abc" "abc"
                  (playlist_info_of "Test Mix" 0)
                  {| Name := PStr "Test Mix";
                     Description := PStr "No description available";
                     Thumbnail := PNone; Likes := PInt 0;
                     Total_Tracks := PInt 0 |}
                  1 (start 0)
                  {| client := 2;
                     log := [ApiPlaylist "abc"; ApiPlaylistTracks "abc" 0; Sleep];
                     locals := {| artist_info := None; tracks := [] |} |}
                  eq_refl eq_refl eq_refl eq_refl)).
  reflexivity.
Defined.

(* ================================================================= *)
(** ** [main]: nothing escapes, and how a run ends *)

(** Where [get_playlist_data] returns a table it returns the metadata
    too. *)
Lemma get_playlist_data_metadata {Svc L} (sp : Spotify Svc)
    (pd : list pyval -> list pyval) (fuel : nat) (playlist_link : string)
    (st st' : state Svc L) meta df :
  get_playlist_data sp pd fuel playlist_link st = Returned (meta, Some df) st' ->
  exists m, meta = Some m.
Proof.
  unfold get_playlist_data, call.
  match goal with
  | |- context [match ?run with _ => _ end] =>
      destruct run as [got st1|e st1|] eqn:Hrun
  end; try discriminate.
  intros H. injection H as -> _.
  apply bind_returned in Hrun as (parsed & st2 & _ & Hrun).
  destruct parsed as [playlist_uri|]; [|discriminate].
  apply bind_returned in Hrun as (fetched & st3 & _ & Hrun).
  destruct fetched as [playlist_info|]; [|discriminate].
  apply bind_returned in Hrun as (m & st4 & _ & Hrun).
  apply bind_returned in Hrun as (tracks_data & st5 & _ & Hrun).
  exists m. destruct (negb (Py.truthy (PList tracks_data))).
  - cbn in Hrun. now injection Hrun as <- _ _.
  - apply bind_returned in Hrun as ([] & st6 & _ & Hrun).
    apply bind_returned in Hrun as (rows & st7 & _ & Hrun).
    unfold assemble in Hrun. destruct (df_empty rows); cbn in Hrun;
      now injection Hrun as <- _ _.
Qed.

(** X17: no exception leaves [main]: whatever the link, whatever the
    service answers and whatever the drawing libraries do, [main] returns
    (or its collecting loop is still running); an exception that leaves
    [get_playlist_data] ends up in the message "An error occurred: ". *)
Theorem main_never_raises {Svc} (sp : Spotify Svc) (pd : list pyval -> list pyval)
    (draws : widget -> option exn)
    (fuel : nat) (playlist_link : string) (st : state Svc unit) :
  (forall e st', main sp pd draws fuel playlist_link st <> Raised e st') /\
  (forall e st1,
     Py.contains "spotify.com/playlist/" playlist_link = true ->
     get_playlist_data sp pd fuel playlist_link st = Raised e st1 ->
     main sp pd draws fuel playlist_link st
     = Returned tt
         {| client := client st1;
            log := log st1 ++ [StError "An error occurred: " (Some e)];
            locals := locals st1 |}).
Proof.
  split.
  - intros e st'. unfold main.
    destruct (Py.truthy (PStr playlist_link)
              && negb (Py.contains "spotify.com/playlist/" playlist_link));
      [discriminate|].
    destruct (Py.truthy (PStr playlist_link)); [|discriminate].
    unfold try_except, bind.
    destruct (get_playlist_data sp pd fuel playlist_link st)
      as [got st1|e1 st1|]; [|discriminate|discriminate].
    destruct (show draws got st1) as [[] st2|e2 st2|]; discriminate.
  - intros e st1 Hlink Hrun.
    now rewrite (main_dispatch sp pd draws fuel playlist_link st Hlink), Hrun.
Qed.

Lemma main_never_raises_witness :
  Py.contains "spotify.com/playlist/" "https://open.spotify.com/playlist/abc"
  = true /\
  error_of (get_playlist_data
              (catalog [an_item (PStr "not a track")] []) numeric_already 5
              "https://open.spotify.com/playlist/abc" (start 0))
  = Some TypeError /\
  log_of (main (catalog [an_item (PStr "not a track")] []) numeric_already
            every_widget_drawn 5
            "https://open.spotify.com/playlist/abc" (start 0))
  = [ApiPlaylist "abc"; ApiPlaylistTracks "abc" 0; Sleep;
     Print "Error fetching artist info: " TypeError;
     StError "An error occurred: " (Some TypeError)].
Proof.
  split; [reflexivity|].
  destruct (get_playlist_data
              (catalog [an_item (PStr "not a track")] []) numeric_already 5
              "https://open.spotify.com/playlist/abc" (start 0))
    as [got st1|e st1|] eqn:Hrun;
    try (vm_compute in Hrun; discriminate Hrun).
  rewrite (proj2 (main_never_raises
                    (catalog [an_item (PStr "not a track")] [])
                    numeric_already every_widget_drawn 5
                    "https://open.spotify.com/playlist/abc" (start 0))
             e st1 eq_refl Hrun).
  vm_compute in Hrun. injection Hrun as <- <-. split; reflexivity.
Defined.

(** X18: on a link that passes the screen, [main] draws the dashboard
    only for a table that has a row, and always with the metadata: it runs
    [visualize_data] on what [get_playlist_data] returned.  When a drawing
    call raises, what was drawn before stays on the page and [main] ends
    with the message "An error occurred: " and the exception; when the
    table is absent or empty nothing is drawn and [main] ends with
    "No data to visualize.". *)
Theorem main_draws_or_reports {Svc} (sp : Spotify Svc)
    (pd : list pyval -> list pyval) (draws : widget -> option exn)
    (fuel : nat) (playlist_link : string) (st st1 : state Svc unit)
    (meta : option metadata) (df : option dataframe) :
  Py.contains "spotify.com/playlist/" playlist_link = true ->
  get_playlist_data sp pd fuel playlist_link st = Returned (meta, df) st1 ->
  (df = None \/ df = Some [] ->
   main sp pd draws fuel playlist_link st
   = Returned tt
       {| client := client st1;
          log := log st1 ++ [StError "No data to visualize." None];
          locals := locals st1 |}) /\
  (forall r rows,
     df = Some (r :: rows) ->
     exists m,
       meta = Some m /\
       main sp pd draws fuel playlist_link st
       = match visualize_data draws (Some m) (r :: rows) st1 with
         | Raised e st2 =>
             Returned tt
               {| client := client st2;
                  log := log st2 ++ [StError "An error occurred: " (Some e)];
                  locals := locals st2 |}
         | o => o
         end).
Proof.
  intros Hlink Hrun.
  rewrite (main_dispatch sp pd draws fuel playlist_link st Hlink), Hrun.
  split.
  - intros [-> | ->]; reflexivity.
  - intros r rows ->.
    destruct (get_playlist_data_metadata sp pd fuel playlist_link st st1
                meta (r :: rows) Hrun) as (m & ->).
    exists m. split; reflexivity.
Qed.

Lemma main_draws_or_reports_witness :
  Py.contains "spotify.com/playlist/" "https://open.spotify.com/playlist/abc"
  = true /\
  (exists st1 meta r rows,
     get_playlist_data (catalog two_quiet_tracks [("a1", quiet_artist)])
       numeric_already 5 "https://open.spotify.com/playlist/abc" (start 0)
     = Returned (meta, Some (r :: rows)) st1 /\
     exists m,
       meta = Some m /\
       main (catalog two_quiet_tracks [("a1", quiet_artist)])
         numeric_already word_cloud_needs_a_word 5
         "https://open.spotify.com/playlist/abc" (start 0)
       = match visualize_data word_cloud_needs_a_word (Some m) (r :: rows) st1
         with
         | Raised e st2 =>
             Returned tt
               {| client := client st2;
                  log := log st2 ++ [StError "An error occurred: " (Some e)];
                  locals := locals st2 |}
         | o => o
         end) /\
  option_map (map Genres)
    (table_of (get_playlist_data
                 (catalog two_quiet_tracks [("a1", quiet_artist)])
                 numeric_already 5 "https://open.spotify.com/playlist/abc"
                 (start 0)))
  = Some [PStr ""; PStr ""] /\
  last (log_of (main (catalog two_quiet_tracks [("a1", quiet_artist)])
                  numeric_already word_cloud_needs_a_word 5
                  "https://open.spotify.com/playlist/abc" (start 0)))
       Sleep
  = StError "An error occurred: " (Some ValueError) /\
  List.length
    (drawn (log_of (main (catalog two_quiet_tracks [("a1", quiet_artist)])
                      numeric_already word_cloud_needs_a_word 5
                      "https://open.spotify.com/playlist/abc" (start 0))))
  = 13.
Proof.
  split; [reflexivity|].
  split; [|split; [|split]; vm_compute; reflexivity].
  destruct (get_playlist_data (catalog two_quiet_tracks [("a1", quiet_artist)])
              numeric_already 5 "https://open.spotify.com/playlist/abc"
              (start 0))
    as [[meta [[|r rows]|]] st1|e st1|] eqn:Hrun;
    try (vm_compute in Hrun; discriminate Hrun).
  exists st1, meta, r, rows. split; [reflexivity|].
  exact (proj2 (main_draws_or_reports
                  (catalog two_quiet_tracks [("a1", quiet_artist)])
                  numeric_already word_cloud_needs_a_word 5
                  "https://open.spotify.com/playlist/abc" (start 0) st1
                  meta (Some (r :: rows)) eq_refl Hrun) r rows eq_refl).
Defined.

(* ================================================================= *)
(** ** The dashboard *)

Lemma digit_val_range (c : ascii) :
  Py.is_digit c = true -> (0 <= Py.digit_val c <= 9)%Z.
Proof.
  unfold Py.is_digit, Py.digit_val. cbv zeta.
  generalize (nat_of_ascii c). intros n H.
  apply andb_true_iff in H as [H1 H2].
  apply Nat.leb_le in H1. apply Nat.leb_le in H2. lia.
Qed.

Lemma string_length_app (a b : string) :
  String.length (a ++ b) = String.length a + String.length b.
Proof. induction a as [|c a IH]; simpl; [reflexivity | now rewrite IH]. Qed.

(** A numeral writes a number below the power of ten of its length. *)
Lemma numeral_range (s : string) (z : Z) :
  numeral s z -> (0 <= z < 10 ^ Z.of_nat (String.length s))%Z.
Proof.
  induction 1 as [c Hc | s z c _ IH Hc | s z c _ IH Hc];
    pose proof (digit_val_range c Hc) as Hd.
  - cbn. lia.
  - rewrite string_length_app. cbn [String.length].
    replace (Z.of_nat (String.length s + 1))
      with (Z.succ (Z.of_nat (String.length s))) by lia.
    rewrite Z.pow_succ_r by lia. lia.
  - rewrite string_length_app. cbn [String.length].
    replace (Z.of_nat (String.length s + 2))
      with (Z.succ (Z.succ (Z.of_nat (String.length s)))) by lia.
    rewrite !Z.pow_succ_r by lia. nia.
Qed.

Lemma take_length (n : nat) (s : string) : String.length (Py.take n s) <= n.
Proof.
  revert s. induction n as [|n IH]; intros s; [reflexivity|].
  destruct s as [|c s]; cbn; [lia|]. specialize (IH s). lia.
Qed.

(** The year of a release date is None or has at most four digits. *)
Lemma release_year_of_four_digits (release_date : pyval) :
  four_digit_year (release_year_of release_date).
Proof.
  destruct release_date as [| b | z | x | s | l | d]; try (now left).
  rewrite release_year_of_str.
  destruct (Py.int_of_str (Py.take 4 s)) as [z|e] eqn:E; [|now left].
  right. exists z. split; [reflexivity|].
  apply int_of_str_literal in E.
  destruct E as (before & body & after & Hs & _ & _ & Hbody).
  pose proof (take_length 4 s) as Hlen. rewrite Hs in Hlen.
  rewrite !string_length_app in Hlen.
  assert (Hpow : forall n, n <= 4 ->
            (10 ^ Z.of_nat n <= 10000)%Z).
  { intros n Hn. change 10000%Z with (10 ^ 4)%Z.
    apply Z.pow_le_mono_r; lia. }
  destruct Hbody as [t v Ht | t v Ht | t v Ht];
    pose proof (numeral_range t v Ht) as Hv;
    cbn [String.length] in Hlen;
    pose proof (Hpow (String.length t) ltac:(lia)); lia.
Qed.

Lemma four_digit_year_cell (v : pyval) : four_digit_year v -> year_cell v.
Proof. intros [-> | (z & -> & _)]; [now left | right; now exists z]. Qed.

Lemma ascending_cons (y : Z) (n : nat) (counts : list (Z * nat)) :
  ascending ((y, n) :: counts)
  <-> match counts with [] => True | (y', _) :: _ => (y < y')%Z end
      /\ ascending counts.
Proof.
  destruct counts as [|[y' n'] rest]; cbn [ascending]; tauto.
Qed.

Lemma count_value_head (y lo : Z) (counts : list (Z * nat)) :
  (lo < y)%Z ->
  match counts with [] => True | (y', _) :: _ => (lo < y')%Z end ->
  match count_value y counts with
  | [] => True
  | (y', _) :: _ => (lo < y')%Z
  end.
Proof.
  intros Hy Hhead. destruct counts as [|[y' n] rest]; [exact Hy|].
  cbn [count_value].
  destruct (y <? y')%Z; [exact Hy|].
  destruct (y =? y')%Z; exact Hhead.
Qed.

Lemma count_value_ascending (y : Z) (counts : list (Z * nat)) :
  ascending counts -> ascending (count_value y counts).
Proof.
  induction counts as [|[y' n] rest IH]; intros Hasc; [exact I|].
  apply ascending_cons in Hasc as [Hhead Hrest]. cbn [count_value].
  destruct (y <? y')%Z eqn:Hlt.
  - apply ascending_cons. split; [now apply Z.ltb_lt|].
    apply ascending_cons. now split.
  - destruct (y =? y')%Z eqn:Heq.
    + apply ascending_cons. now split.
    + apply ascending_cons. split; [|now apply IH].
      apply count_value_head; [|exact Hhead].
      apply Z.ltb_ge in Hlt. apply Z.eqb_neq in Heq. lia.
Qed.

Lemma value_counts_sorted_ascending (column : list Z) :
  ascending (value_counts_sorted column).
Proof.
  induction column as [|y column IH]; [exact I|].
  now apply count_value_ascending.
Qed.

(** A value below every bar of an ascending chart has no bar. *)
Lemma bar_below (y : Z) (counts : list (Z * nat)) :
  ascending counts ->
  match counts with [] => True | (y', _) :: _ => (y < y')%Z end ->
  bar y counts = 0.
Proof.
  induction counts as [|[y' n] rest IH]; intros Hasc Hhead; [reflexivity|].
  apply ascending_cons in Hasc as [Hnext Hrest]. cbn [bar].
  assert (Hne : (y =? y')%Z = false) by (apply Z.eqb_neq; lia).
  rewrite Hne. apply IH; [exact Hrest|].
  destruct rest as [|[y'' n''] rest']; [exact I | lia].
Qed.

Lemma bar_count_value (y y0 : Z) (counts : list (Z * nat)) :
  ascending counts ->
  bar y (count_value y0 counts)
  = bar y counts + (if (y =? y0)%Z then 1 else 0).
Proof.
  induction counts as [|[y' n] rest IH]; intros Hasc.
  - cbn. now destruct (y =? y0)%Z.
  - pose proof Hasc as Hall.
    apply ascending_cons in Hasc as [Hhead Hrest]. cbn [count_value].
    destruct (y0 <? y')%Z eqn:Hlt.
    + apply Z.ltb_lt in Hlt.
      change (bar y ((y0, 1) :: (y', n) :: rest))
        with (if (y =? y0)%Z then 1 else bar y ((y', n) :: rest)).
      destruct (y =? y0)%Z eqn:Hy; [|lia].
      apply Z.eqb_eq in Hy. subst y0.
      rewrite (bar_below y _ Hall); [reflexivity | exact Hlt].
    + destruct (y0 =? y')%Z eqn:Heq.
      * apply Z.eqb_eq in Heq. subst y0. cbn [bar].
        destruct (y =? y')%Z; lia.
      * cbn [bar]. apply Z.ltb_ge in Hlt. apply Z.eqb_neq in Heq.
        destruct (y =? y')%Z eqn:Hy.
        -- apply Z.eqb_eq in Hy. subst y'.
           assert (Hne : (y =? y0)%Z = false) by (apply Z.eqb_neq; lia).
           rewrite Hne. lia.
        -- now apply IH.
Qed.

(** Each bar counts the occurrences of its value. *)
Lemma bar_value_counts_sorted (y : Z) (column : list Z) :
  bar y (value_counts_sorted column)
  = List.length (filter (Z.eqb y) column).
Proof.
  induction column as [|y0 column IH]; [reflexivity|].
  cbn [value_counts_sorted fold_right filter].
  change (fold_right count_value [] column) with (value_counts_sorted column).
  rewrite bar_count_value by apply value_counts_sorted_ascending.
  rewrite IH. destruct (y =? y0)%Z; cbn [List.length]; lia.
Qed.

(** The years of a column whose cells are integers or None. *)
Lemma astype_int_years (df : dataframe) :
  Forall (fun r => year_cell (Release_Year r)) df ->
  exists years,
    astype_int (dropna (map Release_Year df)) = Ok years /\
    forall y, List.length (filter (Z.eqb y) years) = rows_of_year y df.
Proof.
  unfold rows_of_year.
  induction df as [|r df IH]; intros Hall.
  - exists []. split; reflexivity.
  - inversion Hall as [|? ? Hr Hdf]; subst.
    destruct (IH Hdf) as (years & Hyears & Hcount).
    cbn [map filter].
    destruct Hr as [-> | (z & ->)].
    + exists years. split; [exact Hyears|exact Hcount].
    + exists (z :: years). split.
      * change (dropna (PInt z :: map Release_Year df))
          with (PInt z :: dropna (map Release_Year df)).
        cbn [astype_int int_of_cell py_int]. now rewrite Hyears.
      * intros y. cbn [filter]. rewrite (Z.eqb_sym y z).
        destruct (z =? y)%Z; cbn [List.length]; now rewrite Hcount.
Qed.

Lemma genres_are_strings (df : dataframe) :
  Forall (fun r => exists g, Genres r = PStr g) df ->
  exists gs, map Genres df = map PStr gs.
Proof.
  induction 1 as [|r df (g & Hg) _ (gs & IH)].
  - now exists [].
  - exists (g :: gs). cbn [map]. now rewrite Hg, IH.
Qed.

Lemma dropna_strings (gs : list string) :
  dropna (map PStr gs) = map PStr gs.
Proof.
  induction gs as [|g gs IH]; [reflexivity|].
  cbn [map dropna filter]. f_equal. exact IH.
Qed.

(** Joining gives the empty text only for no string at all, or for one
    empty string. *)
Lemma concat_empty (sep : string) (gs : list string) :
  sep <> "" ->
  (String.concat sep gs = "" <-> gs = [] \/ gs = [""]).
Proof.
  intros Hsep. split.
  - destruct gs as [|g gs]; [now left|].
    destruct gs as [|g' gs].
    + cbn. intros ->. now right.
    + cbn [String.concat]. intros H.
      destruct g; [|discriminate H]. cbn in H.
      destruct sep; [contradiction | discriminate H].
  - intros [-> | ->]; reflexivity.
Qed.

Lemma bind_assoc {S L A B C} (m : M S L A) (f : A -> M S L B)
    (g : B -> M S L C) (st : state S L) :
  bind (bind m f) g st = bind m (fun a => bind (f a) g) st.
Proof. unfold bind. destruct (m st); reflexivity. Qed.

(** A drawing call and what follows it. *)
Lemma put_then {Svc L A} (draws : widget -> option exn) (w : widget)
    (k : unit -> M Svc L A) (st : state Svc L) :
  bind (put draws w) k st
  = match draws w with
    | Some e => Raised e st
    | None => k tt {| client := client st; log := log st ++ [Draw w];
                      locals := locals st |}
    end.
Proof. unfold bind, put, emit, raise. destruct (draws w); reflexivity. Qed.

(** One drawing call on each side. *)
Lemma put_step {Svc L} (draws : widget -> option exn) (w : widget)
    (k : unit -> M Svc L unit) (ws : list widget) (st : state Svc L) :
  (forall st', k tt st' = for_each ws (put draws) st') ->
  bind (put draws w) k st = for_each (w :: ws) (put draws) st.
Proof.
  intros Hk. cbn [for_each]. rewrite !put_then.
  destruct (draws w); [reflexivity | apply Hk].
Qed.

Ltac draw_step :=
  cbn beta iota;
  lazymatch goal with
  | |- bind (bind _ _) _ _ = _ => rewrite bind_assoc
  | |- bind (ret _) _ _ = _ => unfold bind at 1, ret at 1
  | |- bind (lift (Ok _)) _ _ = _ => unfold bind at 1, lift at 1, ret at 1
  | |- bind (if Py.truthy ?v then _ else _) _ _ = _ =>
      destruct (Py.truthy v); cbn [app]
  | |- bind (put _ ?w) _ _ = for_each (?w :: _) _ _ =>
      apply put_step; let s := fresh "st" in intros s
  end.

(** The drawing calls of [visualize_data] on a table that has a row, in
    the order in which they are made. *)
Lemma visualize_data_run {Svc L} (draws : widget -> option exn)
    (meta : metadata) (r : row) (rows : list row)
    (years : list Z) (gs : list string) (st : state Svc L) :
  astype_int (dropna (map Release_Year (r :: rows))) = Ok years ->
  map Genres (r :: rows) = map PStr gs ->
  visualize_data draws (Some meta) (r :: rows) st
  = for_each
      ([Title "Spotify Playlist Dashboard";
        Subheader "Playlist Metadata";
        Text "**Name:** " (Some (Name meta));
        Text "**Description:** " (Some (Description meta));
        Text "**Likes:** " (Some (Likes meta));
        Text "**Total Tracks:** " (Some (Total_Tracks meta))]
       ++ (if Py.truthy (Thumbnail meta)
           then [Image (Thumbnail meta) 300] else [])
       ++ [Subheader "Track Details";
           DataframeView (r :: rows);
           Subheader "Release Year Distribution";
           BarChart (value_counts_sorted years);
           Subheader "Popularity Distribution";
           Histogram (map Popularity (r :: rows)) 20;
           Subheader "Genre Word Cloud";
           if Py.truthy (PStr (String.concat " " gs))
           then WordCloudPlot (String.concat " " gs)
           else Text "No genre data available to create word cloud." None])
      (put draws) st.
Proof.
  intros Hyears Hgenres.
  unfold visualize_data, metadata_field.
  change (has_column "Release Year" (r :: rows)) with true.
  change (has_column "Track Name" (r :: rows)) with true.
  change (has_column "Popularity" (r :: rows)) with true.
  change (has_column "Genres" (r :: rows)) with true.
  cbn [andb]. rewrite Hyears, Hgenres, dropna_strings.
  unfold Py.join. cbn [Py.iterate]. rewrite join_strs_map.
  cbn [app]. repeat draw_step.
  all: destruct (Py.truthy (PStr (String.concat " " gs)));
    cbn [for_each]; unfold bind, put, emit, raise, ret;
    destruct (draws _); reflexivity.
Qed.

(** Drawing calls that all succeed leave their widgets in the log. *)
Lemma for_each_put_drawn {Svc L} (draws : widget -> option exn)
    (ws : list widget) :
  (forall w, In w ws -> draws w = None) ->
  forall st : state Svc L,
    for_each ws (put draws) st
    = Returned tt {| client := client st; log := log st ++ map Draw ws;
                     locals := locals st |}.
Proof.
  induction ws as [|w ws IH]; intros Hall st.
  - cbn. rewrite app_nil_r. now destruct st.
  - cbn [for_each map]. unfold bind, put at 1, emit.
    rewrite (Hall w (or_introl eq_refl)).
    rewrite IH by (intros w' Hw'; apply Hall; now right).
    cbn [client log locals]. now rewrite <- app_assoc.
Qed.

(** X19: on a table that has a row, whose release years are None or
    integers of at most four digits and whose genres are strings, as the
    rows that [get_playlist_data] builds are, [visualize_data] is a sequence of
    drawing calls and raises nothing of its own: the title, the four
    metadata lines, the thumbnail if there is one, the table, the release
    year chart, the popularity histogram with 20 bins and the genre
    section, in this order; none of the "... data is missing." messages is
    among them.  It stops at the first call that raises; when every call
    succeeds all these widgets are on the page.  The chart has one bar for
    each year that occurs, by ascending year, and the bar of a year counts
    the rows of that year; rows without a year are left out. *)
Theorem dashboard_of_a_table {Svc L} (draws : widget -> option exn)
    (meta : metadata) (r : row) (rows : list row) (st : state Svc L) :
  Forall (fun r => four_digit_year (Release_Year r) /\
                   exists g, Genres r = PStr g) (r :: rows) ->
  exists counts cloud,
    let calls :=
      [Title "Spotify Playlist Dashboard";
       Subheader "Playlist Metadata";
       Text "**Name:** " (Some (Name meta));
       Text "**Description:** " (Some (Description meta));
       Text "**Likes:** " (Some (Likes meta));
       Text "**Total Tracks:** " (Some (Total_Tracks meta))]
      ++ (if Py.truthy (Thumbnail meta)
          then [Image (Thumbnail meta) 300] else [])
      ++ [Subheader "Track Details";
          DataframeView (r :: rows);
          Subheader "Release Year Distribution";
          BarChart counts;
          Subheader "Popularity Distribution";
          Histogram (map Popularity (r :: rows)) 20;
          Subheader "Genre Word Cloud";
          cloud] in
    visualize_data draws (Some meta) (r :: rows) st
    = for_each calls (put draws) st /\
    ((forall w, In w calls -> draws w = None) ->
     visualize_data draws (Some meta) (r :: rows) st
     = Returned tt {| client := client st; log := log st ++ map Draw calls;
                      locals := locals st |}) /\
    is_error_box cloud = false /\
    ascending counts /\
    forall y, bar y counts = rows_of_year y (r :: rows).
Proof.
  intros Hall.
  assert (Hyear : Forall (fun r => year_cell (Release_Year r)) (r :: rows))
    by (eapply Forall_impl; [|exact Hall]; intros ? [H _];
        apply four_digit_year_cell, H).
  assert (Hgen : Forall (fun r => exists g, Genres r = PStr g) (r :: rows))
    by (eapply Forall_impl; [|exact Hall]; intros ? [_ H]; exact H).
  destruct (astype_int_years (r :: rows) Hyear) as (years & Hyears & Hcount).
  destruct (genres_are_strings (r :: rows) Hgen) as (gs & Hgs).
  exists (value_counts_sorted years).
  exists (if Py.truthy (PStr (String.concat " " gs))
          then WordCloudPlot (String.concat " " gs)
          else Text "No genre data available to create word cloud." None).
  cbv zeta.
  pose proof (visualize_data_run draws meta r rows years gs st Hyears Hgs)
    as Hrun.
  split; [exact Hrun|].
  split; [intros Hdrawn; rewrite Hrun; now apply for_each_put_drawn|].
  split; [now destruct (Py.truthy (PStr (String.concat " " gs)))|].
  split; [apply value_counts_sorted_ascending|].
  intros y. now rewrite bar_value_counts_sorted.
Qed.

Lemma dashboard_of_a_table_witness :
  Forall (fun r => four_digit_year (Release_Year r) /\
                   exists g, Genres r = PStr g)
    [a_row (PInt 2001) (PStr "rock"); a_row PNone (PStr "");
     a_row (PInt 1999) (PStr "pop"); a_row (PInt 2001) (PStr "rock")] /\
  (exists counts,
     bar_chart_of
       (drawn (log_of (visualize_data every_widget_drawn (Some demo_metadata)
                         [a_row (PInt 2001) (PStr "rock");
                          a_row PNone (PStr "");
                          a_row (PInt 1999) (PStr "pop");
                          a_row (PInt 2001) (PStr "rock")]
                         (start 0))))
     = Some counts /\
     ascending counts /\
     bar 2001 counts = 2 /\ bar 1999 counts = 1 /\ bar 2000 counts = 0) /\
  bar_chart_of
    (drawn (log_of (visualize_data every_widget_drawn (Some demo_metadata)
                      [a_row (PInt 2001) (PStr "rock"); a_row PNone (PStr "");
                       a_row (PInt 1999) (PStr "pop");
                       a_row (PInt 2001) (PStr "rock")]
                      (start 0))))
  = Some [(1999%Z, 1); (2001%Z, 2)].
Proof.
  assert (Hall : Forall (fun r => four_digit_year (Release_Year r) /\
                                  exists g, Genres r = PStr g)
                   [a_row (PInt 2001) (PStr "rock"); a_row PNone (PStr "");
                    a_row (PInt 1999) (PStr "pop");
                    a_row (PInt 2001) (PStr "rock")]).
  { apply Forall_cons;
      [split; [right; exists 2001%Z; split; [reflexivity | lia]
              | now exists "rock"]|].
    apply Forall_cons; [split; [now left | now exists ""]|].
    apply Forall_cons;
      [split; [right; exists 1999%Z; split; [reflexivity | lia]
              | now exists "pop"]|].
    apply Forall_cons;
      [split; [right; exists 2001%Z; split; [reflexivity | lia]
              | now exists "rock"]|].
    apply Forall_nil. }
  split; [exact Hall|]. split; [|vm_compute; reflexivity].
  destruct (dashboard_of_a_table every_widget_drawn demo_metadata _ _
              (start 0) Hall)
    as (counts & cloud & _ & Hrun & _ & Hasc & Hbar).
  exists counts. rewrite (Hrun (fun w _ => eq_refl)).
  split; [reflexivity|]. split; [exact Hasc|].
  rewrite !Hbar. repeat split.
Defined.

(** X20: the word cloud is the last drawing call of [visualize_data], and
    the text handed to it is the genres of the rows joined by single
    spaces, tested as a whole: the message "No genre data available to
    create word cloud." takes its place only when the table is a single
    row with empty genres.  With two rows or more the text holds at least
    the separating spaces, so the word cloud is asked for even when no row
    has any genre. *)
Theorem word_cloud_text {Svc L} (draws : widget -> option exn)
    (meta : metadata) (r : row) (rows : list row)
    (gs : list string) (st : state Svc L) :
  Forall (fun r => four_digit_year (Release_Year r)) (r :: rows) ->
  map Genres (r :: rows) = map PStr gs ->
  exists front cloud,
    visualize_data draws (Some meta) (r :: rows) st
    = for_each (front ++ [cloud]) (put draws) st /\
    (gs = [""] ->
     cloud = Text "No genre data available to create word cloud." None) /\
    (gs <> [""] ->
     cloud = WordCloudPlot (String.concat " " gs) /\
     String.concat " " gs <> "").
Proof.
  intros Hfour Hgs.
  assert (Hyear : Forall (fun r => year_cell (Release_Year r)) (r :: rows))
    by (eapply Forall_impl; [|exact Hfour]; intros ?;
        apply four_digit_year_cell).
  destruct (astype_int_years (r :: rows) Hyear) as (years & Hyears & _).
  exists ([Title "Spotify Playlist Dashboard";
           Subheader "Playlist Metadata";
           Text "**Name:** " (Some (Name meta));
           Text "**Description:** " (Some (Description meta));
           Text "**Likes:** " (Some (Likes meta));
           Text "**Total Tracks:** " (Some (Total_Tracks meta))]
          ++ (if Py.truthy (Thumbnail meta)
              then [Image (Thumbnail meta) 300] else [])
          ++ [Subheader "Track Details";
              DataframeView (r :: rows);
              Subheader "Release Year Distribution";
              BarChart (value_counts_sorted years);
              Subheader "Popularity Distribution";
              Histogram (map Popularity (r :: rows)) 20;
              Subheader "Genre Word Cloud"]).
  exists (if Py.truthy (PStr (String.concat " " gs))
          then WordCloudPlot (String.concat " " gs)
          else Text "No genre data available to create word cloud." None).
  split.
  - rewrite (visualize_data_run draws meta r rows years gs st Hyears Hgs).
    f_equal. rewrite <- !app_assoc. reflexivity.
  - assert (Hne : gs <> [])
      by (destruct gs; [discriminate Hgs | discriminate]).
    split.
    + intros ->. reflexivity.
    + intros Hnot.
      assert (Htext : String.concat " " gs <> "").
      { intros H. apply concat_empty in H; [|discriminate].
        destruct H; contradiction. }
      split; [|exact Htext].
      cbn [Py.truthy]. apply String.eqb_neq in Htext. now rewrite Htext.
Qed.

Lemma word_cloud_text_witness :
  Forall (fun r => four_digit_year (Release_Year r))
    [a_row (PInt 2001) (PStr ""); a_row PNone (PStr "")] /\
  [""; ""] <> [""] /\
  (exists front,
     visualize_data word_cloud_needs_a_word (Some demo_metadata)
       [a_row (PInt 2001) (PStr ""); a_row PNone (PStr "")] (start 0)
     = for_each (front ++ [WordCloudPlot " "]) (put word_cloud_needs_a_word)
         (start 0)) /\
  error_of (visualize_data word_cloud_needs_a_word (Some demo_metadata)
              [a_row (PInt 2001) (PStr ""); a_row PNone (PStr "")] (start 0))
  = Some ValueError /\
  word_cloud_of
    (drawn (log_of (visualize_data every_widget_drawn (Some demo_metadata)
                      [a_row (PInt 2001) (PStr ""); a_row PNone (PStr "")]
                      (start 0))))
  = Some " ".
Proof.
  assert (Hall : Forall (fun r => four_digit_year (Release_Year r))
                   [a_row (PInt 2001) (PStr ""); a_row PNone (PStr "")]).
  { apply Forall_cons; [right; exists 2001%Z; split; [reflexivity | lia]|].
    apply Forall_cons; [now left | apply Forall_nil]. }
  assert (Hne : [""; ""] <> [""]) by discriminate.
  split; [exact Hall|]. split; [exact Hne|].
  split; [|split; vm_compute; reflexivity].
  destruct (word_cloud_text word_cloud_needs_a_word demo_metadata _ _
              [""; ""] (start 0) Hall eq_refl)
    as (front & cloud & Hrun & _ & Hcloud).
  exists front. rewrite Hrun. now rewrite (proj1 (Hcloud Hne)).
Defined.

(* ================================================================= *)
(** ** From the playlist to the table *)

Lemma get_all_tracks_locals {Svc L} (sp : Spotify Svc) (fuel : nat)
    (uri : string) (st st' : state Svc L) (entries : list pyval) :
  get_all_tracks sp fuel uri st = Returned entries st' ->
  locals st' = locals st.
Proof.
  unfold get_all_tracks, call.
  match goal with
  | |- context [match ?run with _ => _ end] => destruct run
  end; try discriminate.
  intros H. now injection H as _ <-.
Qed.

Lemma set_popularity_keeps (rows : list row) :
  forall values,
    Forall2 (fun r r' => Track_ID r' = Track_ID r /\
                         Track_Name r' = Track_Name r)
            rows (set_popularity rows values).
Proof.
  induction rows as [|r rows IH]; intros values; [constructor|].
  destruct values as [|v values]; cbn [set_popularity];
    (constructor; [now split | apply IH]).
Qed.

Lemma set_popularity_column (rows : list row) :
  forall values,
    List.length values = List.length rows ->
    map Popularity (set_popularity rows values) = values.
Proof.
  induction rows as [|r rows IH]; intros values Hlen.
  - now destruct values.
  - destruct values as [|v values]; [discriminate Hlen|].
    cbn [set_popularity map with_popularity Popularity].
    f_equal. apply IH. now injection Hlen.
Qed.

(** The rows that the loop appends, with the identifier, the name and the
    popularity they were built with. *)
Lemma rows_of_loop {Svc} (sp : Spotify Svc) (items : list pyval)
    (st st' : state Svc enricher) :
  for_each items (enrich_item sp) st = Returned tt st' ->
  exists rows,
    tracks (locals st') = tracks (locals st) ++ rows /\
    Forall2 (fun item r =>
               Py.get (track_of item) "id" (PStr "No ID") = Ok (Track_ID r) /\
               Py.get (track_of item) "name" (PStr "Unknown Track")
               = Ok (Track_Name r) /\
               Py.get (track_of item) "popularity" (PInt 0)
               = Ok (Popularity r))
            (filter kept items) rows.
Proof.
  intros Hrun.
  destruct (for_each_enrich_inv sp items st st' Hrun) as (rows & Ht & Hf & _).
  exists rows. split; [exact Ht|]. clear Ht.
  induction Hf as [|item r its rs (st1 & Hrow) _ IH]; constructor; [|exact IH].
  destruct (track_row_fields _ _ _ _ Hrow) as (Hname & Hid & _).
  destruct (track_row_inv _ _ _ _ Hrow) as (_ & Hpop & _).
  now repeat split.
Qed.

(** X21: the table that [get_playlist_data] returns has exactly one row
    for each entry the collector returned whose track is not null, in the
    order of the playlist; each row carries the "id" and the "name" of its
    track ("No ID" and "Unknown Track" where the key is missing).  Its
    Popularity column is what [pandas] returns for the column of the
    tracks' "popularity" values (0 where the key is missing), put back in
    row order. *)
Theorem table_follows_playlist {Svc L} (sp : Spotify Svc)
    (pd : list pyval -> list pyval) (fuel : nat) (playlist_link uri : string)
    (info : pyval) (s1 : Svc) (st st' : state Svc L)
    (meta : option metadata) (df : dataframe) :
  parse_playlist_uri playlist_link = Ok uri ->
  sp_playlist sp uri (client st) = (Ok info, s1) ->
  get_playlist_data sp pd fuel playlist_link st = Returned (meta, Some df) st' ->
  exists entries (st2 : state Svc enricher) rows,
    get_all_tracks sp fuel uri
      {| client := s1; log := log st ++ [ApiPlaylist uri];
         locals := {| artist_info := None; tracks := [] |} |}
    = Returned entries st2 /\
    Forall2 (fun item r =>
               Py.get (track_of item) "id" (PStr "No ID") = Ok (Track_ID r) /\
               Py.get (track_of item) "name" (PStr "Unknown Track")
               = Ok (Track_Name r) /\
               Py.get (track_of item) "popularity" (PInt 0)
               = Ok (Popularity r))
            (filter kept entries) rows /\
    df = set_popularity rows (pd (map Popularity rows)) /\
    Forall2 (fun item r =>
               Py.get (track_of item) "id" (PStr "No ID") = Ok (Track_ID r) /\
               Py.get (track_of item) "name" (PStr "Unknown Track")
               = Ok (Track_Name r))
            (filter kept entries) df /\
    (List.length (pd (map Popularity rows)) = List.length rows ->
     map Popularity df = pd (map Popularity rows)).
Proof.
  intros Hparse Hreq Hrun.
  rewrite (get_playlist_data_fetched sp pd fuel playlist_link uri info s1
             st Hparse Hreq) in Hrun.
  unfold call in Hrun. cbn [client log locals] in Hrun.
  match type of Hrun with
  | match ?run with _ => _ end = _ =>
      destruct run as [got st3|e st3|] eqn:Hbody
  end; try discriminate.
  injection Hrun as -> _.
  apply bind_returned in Hbody as (m & st0 & Hmeta & Hbody).
  apply build_metadata_returned in Hmeta. subst st0.
  apply bind_returned in Hbody as (entries & st2 & Hentries & Hbody).
  pose proof (get_all_tracks_locals sp fuel uri _ _ _ Hentries) as Hlocals.
  cbn [locals] in Hlocals.
  assert (Hrows : exists rows,
             Forall2 (fun item r =>
                        Py.get (track_of item) "id" (PStr "No ID")
                        = Ok (Track_ID r) /\
                        Py.get (track_of item) "name" (PStr "Unknown Track")
                        = Ok (Track_Name r) /\
                        Py.get (track_of item) "popularity" (PInt 0)
                        = Ok (Popularity r))
                     (filter kept entries) rows /\
             df = set_popularity rows (pd (map Popularity rows))).
  { destruct entries as [|item entries].
    - cbn in Hbody. injection Hbody as _ <- _. exists []. split; constructor.
    - cbn [Py.truthy negb] in Hbody.
      apply bind_returned in Hbody as ([] & st4 & Hloop & Hbody).
      apply bind_returned in Hbody as (rows0 & st5 & Hgets & Hbody).
      unfold gets in Hgets. injection Hgets as <- <-.
      destruct (rows_of_loop sp (item :: entries) st2 st4 Hloop)
        as (rows & Ht & Hf).
      rewrite Hlocals in Ht. cbn [tracks app] in Ht. rewrite Ht in Hbody.
      exists rows. split; [exact Hf|].
      unfold assemble in Hbody. destruct rows as [|r rows]; cbn in Hbody;
        now injection Hbody as _ <- _. }
  destruct Hrows as (rows & Hf & ->).
  exists entries, st2, rows. split; [exact Hentries|]. split; [exact Hf|].
  split; [reflexivity|]. split; [|apply set_popularity_column].
  generalize (set_popularity_keeps rows (pd (map Popularity rows))).
  generalize (set_popularity rows (pd (map Popularity rows))).
  clear Hbody. intros table Hkeeps. revert table Hkeeps.
  induction Hf as [|item r its rs (Hid & Hname & _) _ IH]; intros table Hkeeps;
    inversion Hkeeps as [|? r' ? table' [Hid' Hname'] Hrest]; subst;
    constructor.
  - rewrite Hid', Hname'. now split.
  - now apply IH.
Qed.

Lemma table_follows_playlist_witness :
  parse_playlist_uri "https://open.spotify.com/playlist/abc" = Ok "abc" /\
  exists st' meta df,
    get_playlist_data
      (catalog [demo_item; an_item PNone;
                an_item (a_track "t2" "Other" "a1" "2005-03-04" (PInt 10))]
               [("a1", rock_artist)])
      numeric_already 5 "https://open.spotify.com/playlist/abc" (start 0)
    = Returned (meta, Some df) st' /\
    map Track_ID df = [PStr "t1"; PStr "t2"] /\
    exists entries (st2 : state nat enricher) rows,
      get_all_tracks
        (catalog [demo_item; an_item PNone;
                  an_item (a_track "t2" "Other" "a1" "2005-03-04" (PInt 10))]
                 [("a1", rock_artist)])
        5 "abc"
        {| client := 1; log := [] ++ [ApiPlaylist "abc"];
           locals := {| artist_info := None; tracks := [] |} |}
      = Returned entries st2 /\
      List.length rows = List.length (filter kept entries) /\
      map Popularity df = numeric_already (map Popularity rows).
Proof.
  split; [reflexivity|].
  destruct (get_playlist_data
              (catalog [demo_item; an_item PNone;
                        an_item (a_track "t2" "Other" "a1" "2005-03-04"
                                         (PInt 10))]
                       [("a1", rock_artist)])
              numeric_already 5 "https://open.spotify.com/playlist/abc"
              (start 0))
    as [[meta [df|]] st'|e st'|] eqn:Hrun;
    try (vm_compute in Hrun; discriminate Hrun).
  destruct (table_follows_playlist
              (catalog [demo_item; an_item PNone;
                        an_item (a_track "t2" "Other" "a1" "2005-03-04"
                                         (PInt 10))]
                       [("a1", rock_artist)])
              numeric_already 5 "https://open.spotify.com/playlist/abc" "abc"
              (playlist_info_of "Test Mix" 3) 1 (start 0) st' meta df
              eq_refl eq_refl Hrun)
    as (entries & st2 & rows & Hentries & Hf & _ & _ & Hcolumn).
  exists st', meta, df. split; [reflexivity|]. split.
  - vm_compute in Hrun. injection Hrun as _ <- _. reflexivity.
  - exists entries, st2, rows. split; [exact Hentries|]. split.
    + symmetry. eapply Forall2_length, Hf.
    + apply Hcolumn. unfold numeric_already. apply length_map.
Defined.
